(** * SuperSlicer/PrusaSlicer to OrcaSlicer profile converter

    A shallow embedding of [superslicer_to_orca.py] and the properties of
    its conversion engine.

    Conventions of the embedding:
    - Python [str] values are Rocq [string]s; documents are taken to be
      ASCII text, so [str.strip], [str.lower] and the regular expression
      classes [\s] and [\S] are modelled on ASCII characters only.
    - A Python [dict] is an association list in insertion order
      ([Dict.t]); assigning to an existing key keeps its position.
    - Python [float] is IEEE 754 binary64, modelled by the Standard
      Library's [spec_float] with precision 53 and maximal exponent 1024.
    - [self.status] and [self.new_hash] of [SlicerConverter] are the
      record [converter]; a method that mutates them takes the converter
      and returns the new one. *)

From Stdlib Require Import Bool List ZArith Lia Ascii String.
From Stdlib Require Import Floats.SpecFloat.
Import ListNotations.

Local Open Scope string_scope.
Local Open Scope Z_scope.
Local Open Scope list_scope.

(** ** Python strings *)

Module Py.

(** [str.isspace] on one ASCII character: tab, line feed, vertical tab,
    form feed, carriage return, the four separators 0x1c-0x1f and space. *)
Definition is_space (c : ascii) : bool :=
  let n := N_of_ascii c in
  ((9 <=? n) && (n <=? 13) || (28 <=? n) && (n <=? 32))%N.

Definition is_digit (c : ascii) : bool :=
  let n := N_of_ascii c in ((48 <=? n) && (n <=? 57))%N.

Definition digit_val (c : ascii) : Z := Z.of_N (N_of_ascii c) - 48.

Definition lower_char (c : ascii) : ascii :=
  let n := N_of_ascii c in
  if ((65 <=? n) && (n <=? 90))%N then ascii_of_N (n + 32) else c.

Definition chars (s : string) : list ascii := list_ascii_of_string s.
Definition str (l : list ascii) : string := string_of_list_ascii l.

Fixpoint drop_while (p : ascii -> bool) (l : list ascii) : list ascii :=
  match l with
  | [] => []
  | c :: r => if p c then drop_while p r else l
  end.

Definition rdrop_while (p : ascii -> bool) (l : list ascii) : list ascii :=
  rev (drop_while p (rev l)).

(** [s.strip()] *)
Definition strip (s : string) : string :=
  str (rdrop_while is_space (drop_while is_space (chars s))).

(** [s.rstrip(c)] for a one-character argument *)
Definition rstrip_char (c : ascii) (s : string) : string :=
  str (rdrop_while (Ascii.eqb c) (chars s)).

(** [s.lower()] *)
Definition lower (s : string) : string := str (map lower_char (chars s)).

(** [s.endswith(c)] and [s.startswith(c)] for a one-character argument *)
Definition endswith_char (c : ascii) (s : string) : bool :=
  match rev (chars s) with
  | d :: _ => Ascii.eqb c d
  | [] => false
  end.

Definition startswith_char (c : ascii) (s : string) : bool :=
  match s with
  | String d _ => Ascii.eqb c d
  | EmptyString => false
  end.

(** [s[:-1]] *)
Definition drop_last (s : string) : string := str (removelast (chars s)).

(** [c in s] for a one-character [c] *)
Definition contains_char (c : ascii) (s : string) : bool :=
  existsb (Ascii.eqb c) (chars s).

(** [s.split(c)] for a one-character separator: the pieces between the
    occurrences of [c], the empty string giving one empty piece. *)
Fixpoint split_chars (c : ascii) (l : list ascii) : list (list ascii) :=
  match l with
  | [] => [[]]
  | d :: r =>
      if Ascii.eqb c d then [] :: split_chars c r
      else match split_chars c r with
           | p :: ps => (d :: p) :: ps
           | [] => [[d]]
           end
  end.

Definition split (c : ascii) (s : string) : list string :=
  map str (split_chars c (chars s)).

(** [s.split(c, 1)]: [None] when [c] does not occur (one piece), the
    text before and after the first occurrence otherwise. *)
Fixpoint split_once_chars (c : ascii) (l : list ascii)
  : option (list ascii * list ascii) :=
  match l with
  | [] => None
  | d :: r =>
      if Ascii.eqb c d then Some ([], r)
      else match split_once_chars c r with
           | Some (a, b) => Some (d :: a, b)
           | None => None
           end
  end.

Definition split_once (c : ascii) (s : string) : option (string * string) :=
  match split_once_chars c (chars s) with
  | Some (a, b) => Some (str a, str b)
  | None => None
  end.

(** [s.replace(a ++ b, r)] for a two-character pattern and a
    one-character replacement, scanning left to right. *)
Fixpoint replace2 (a b r : ascii) (l : list ascii) : list ascii :=
  match l with
  | x :: ((y :: t) as rest) =>
      if Ascii.eqb x a && Ascii.eqb y b then r :: replace2 a b r t
      else x :: replace2 a b r rest
  | _ => l
  end.

(** Truth value of an optional string: [None] and [''] are false. *)
Definition truthy (o : option string) : bool :=
  match o with
  | Some s => negb (String.eqb s "")
  | None => false
  end.

(** Decimal digits of a natural number, as [str(n)] prints them. *)
Fixpoint digits_fuel (fuel : nat) (n : Z) (acc : list ascii) : list ascii :=
  match fuel with
  | O => acc
  | S f =>
      let acc' := ascii_of_N (Z.to_N (48 + n mod 10)) :: acc in
      if n <? 10 then acc' else digits_fuel f (n / 10) acc'
  end.

Definition digits_of_Z (n : Z) : list ascii :=
  digits_fuel (S (Z.to_nat (Z.log2 n))) n [].

(** [str(n)] for an [int] *)
Definition str_of_int (n : Z) : string :=
  if n <? 0 then str ("-"%char :: digits_of_Z (- n)) else str (digits_of_Z n).

(** Value of a digit string read in base 10. *)
Definition Z_of_digits (l : list ascii) : Z :=
  fold_left (fun acc c => 10 * acc + digit_val c) l 0.

(** The [digitpart] of Python's numeric grammar: digits, with single
    underscores allowed between two digits.  Returns the digits read
    (underscores removed) and the rest of the input; [None] when the
    input does not start with a digit. *)
Fixpoint digitpart (l : list ascii) : option (list ascii * list ascii) :=
  match l with
  | c :: r =>
      if is_digit c then
        match r with
        | u :: r' =>
            if Ascii.eqb u "_" then
              match digitpart r' with
              | Some (ds, rest) => Some (c :: ds, rest)
              | None => Some ([c], r)
              end
            else
              match digitpart r with
              | Some (ds, rest) => Some (c :: ds, rest)
              | None => Some ([c], r)
              end
        | [] => Some ([c], [])
        end
      else None
  | [] => None
  end.

(** An optional sign: [true] for minus. *)
Definition sign (l : list ascii) : bool * list ascii :=
  match l with
  | c :: r =>
      if Ascii.eqb c "-" then (true, r)
      else if Ascii.eqb c "+" then (false, r)
      else (false, l)
  | [] => (false, l)
  end.

(** [int(s)] in base 10: [None] stands for [ValueError]. *)
Definition int (s : string) : option Z :=
  let (neg, l) := sign (chars (strip s)) in
  match digitpart l with
  | Some (ds, []) => Some (if neg then - Z_of_digits ds else Z_of_digits ds)
  | _ => None
  end.

End Py.

(** ** Python floats: IEEE 754 binary64 *)

Module F64.

Definition prec : Z := 53.
Definition emax : Z := 1024.

Definition t : Type := spec_float.

Definition zero : t := S754_zero false.
Definition mul : t -> t -> t := SFmul prec emax.
Definition div : t -> t -> t := SFdiv prec emax.

(** [x < y]; false as soon as one side is a NaN. *)
Definition ltb : t -> t -> bool := SFltb.

(** [x == 0.0] *)
Definition is_zero (x : t) : bool :=
  match x with S754_zero _ => true | _ => false end.

(** The float nearest to an integer, as [float(n)] and the implicit
    conversion of an [int] operand give it. *)
Definition of_Z (n : Z) : t := binary_normalize prec emax n 0 false.

(** The float nearest to [(-1)^neg * m * 10^e] (ties to even). *)
Definition of_decimal (neg : bool) (m e : Z) : t :=
  match m with
  | Zpos p =>
      if 0 <=? e then binary_round prec emax neg (p * Z.to_pos (10 ^ e)) 0
      else div (S754_finite neg p 0) (S754_finite false (Z.to_pos (10 ^ (- e))) 0)
  | _ => S754_zero neg
  end.

(** The exponent part [(e|E)[sign]digitpart] of a float literal. *)
Definition exponent (l : list ascii) : option Z :=
  match l with
  | [] => Some 0
  | c :: r =>
      if Ascii.eqb (Py.lower_char c) "e" then
        let (neg, r') := Py.sign r in
        match Py.digitpart r' with
        | Some (ds, []) =>
            Some (if neg then - Py.Z_of_digits ds else Py.Z_of_digits ds)
        | _ => None
        end
      else None
  end.

(** [[digitpart] "." digitpart | digitpart ["."]], then the exponent. *)
Definition floatnumber (neg : bool) (l : list ascii) : option t :=
  match Py.digitpart l with
  | Some (ip, rest) =>
      match rest with
      | c :: rest' =>
          if Ascii.eqb c "." then
            let (fp, rest'') :=
              match Py.digitpart rest' with
              | Some (fp, r) => (fp, r)
              | None => ([], rest')
              end in
            match exponent rest'' with
            | Some x =>
                Some (of_decimal neg (Py.Z_of_digits (ip ++ fp))
                                 (x - Z.of_nat (List.length fp)))
            | None => None
            end
          else
            match exponent rest with
            | Some x => Some (of_decimal neg (Py.Z_of_digits ip) x)
            | None => None
            end
      | [] => Some (of_decimal neg (Py.Z_of_digits ip) 0)
      end
  | None =>
      match l with
      | c :: rest =>
          if Ascii.eqb c "." then
            match Py.digitpart rest with
            | Some (fp, rest') =>
                match exponent rest' with
                | Some x =>
                    Some (of_decimal neg (Py.Z_of_digits fp)
                                     (x - Z.of_nat (List.length fp)))
                | None => None
                end
            | None => None
            end
          else None
      | [] => None
      end
  end.

(** [float(s)] for a string: [None] stands for [ValueError]. *)
Definition float (s : string) : option t :=
  let (neg, l) := Py.sign (Py.chars (Py.strip s)) in
  let w := Py.str (map Py.lower_char l) in
  if (w =? "inf")%string || (w =? "infinity")%string then Some (S754_infinity neg)
  else if (w =? "nan")%string then Some S754_nan
  else floatnumber neg l.

(** Outcome of [int(x)] on a float. *)
Inductive to_int := Int (n : Z) | OverflowError | ValueError.

(** [int(x)]: truncation towards zero. *)
Definition int (x : t) : to_int :=
  match x with
  | S754_zero _ => Int 0
  | S754_infinity _ => OverflowError
  | S754_nan => ValueError
  | S754_finite s m e =>
      let a := if 0 <=? e then Zpos m * 2 ^ e else Zpos m / 2 ^ (- e) in
      Int (if s then - a else a)
  end.

(** *** Printing *)

(** The positive rational [m * 2^e / 10^k] as a fraction of integers. *)
Definition scaled (m : positive) (e k : Z) : Z * Z :=
  (Zpos m * 2 ^ Z.max e 0 * 10 ^ Z.max (- k) 0,
   2 ^ Z.max (- e) 0 * 10 ^ Z.max k 0).

(** [10^k <= m * 2^e] *)
Definition ge_pow10 (m : positive) (e k : Z) : bool :=
  let (n, d) := scaled m e k in d <=? n.

(** The decimal point position [p] of [m * 2^e]: [10^(p-1) <= m*2^e < 10^p].
    The estimate from the binary length is at most two off. *)
Definition decpt (m : positive) (e : Z) : Z :=
  let b := Zpos (digits2_pos m) + e in
  let p0 := (b * 30103) / 100000 - 1 in
  if ge_pow10 m e (p0 + 2) then p0 + 3
  else if ge_pow10 m e (p0 + 1) then p0 + 2
  else if ge_pow10 m e p0 then p0 + 1
  else p0.

(** The decimal with [n] significant digits that reads back as the float
    [m * 2^e], if there is one: of the two [n]-digit neighbours of the
    value, the nearer one that converts back to it. *)
Definition candidate (m : positive) (e p n : Z) : option Z :=
  let (num, den) := scaled m e (p - n) in
  let lo := num / den in
  let r := num mod den in
  let x := S754_finite false m e in
  let ok d := SFeqb (of_decimal false d (p - n)) x in
  let lo_first := (2 * r <? den) || ((2 * r =? den) && Z.even lo) in
  if lo_first then
    if ok lo then Some lo else if ok (lo + 1) then Some (lo + 1) else None
  else
    if ok (lo + 1) then Some (lo + 1) else if ok lo then Some lo else None.

(** The first [n] from [n] on with a candidate; 17 digits always do. *)
Fixpoint shortest (fuel : nat) (m : positive) (e p n : Z) : Z * Z :=
  match fuel with
  | O => (let (num, den) := scaled m e (p - n) in num / den, n)
  | S f =>
      match candidate m e p n with
      | Some d => (d, n)
      | None => shortest f m e p (n + 1)
      end
  end.

Definition strip_zeros (l : list ascii) : list ascii :=
  Py.rdrop_while (Ascii.eqb "0") l.

Definition zeros (n : Z) : list ascii := repeat "0"%char (Z.to_nat n).

(** [repr] of a positive finite float from its shortest digits [ds] and
    the decimal point position [dp]: scientific notation when
    [dp <= -4] or [dp > 16]. *)
Definition format_repr (ds : list ascii) (dp : Z) : string :=
  let n := Z.of_nat (List.length ds) in
  if (dp <=? -4) || (16 <? dp) then
    let x := dp - 1 in
    let xs := Py.digits_of_Z (Z.abs x) in
    let xs := if Z.abs x <? 10 then "0"%char :: xs else xs in
    let mant :=
      match ds with
      | d :: ((_ :: _) as r) => d :: "."%char :: r
      | _ => ds
      end in
    Py.str (mant ++ "e"%char :: (if x <? 0 then "-"%char else "+"%char) :: xs)
  else if dp <=? 0 then
    Py.str ("0"%char :: "."%char :: zeros (- dp) ++ ds)
  else if dp <? n then
    Py.str (firstn (Z.to_nat dp) ds ++ "."%char :: skipn (Z.to_nat dp) ds)
  else
    Py.str (ds ++ zeros (dp - n) ++ [("."%char); ("0"%char)]).

(** [str(x)] and [repr(x)]: the shortest decimal that reads back as [x]. *)
Definition repr (x : t) : string :=
  match x with
  | S754_nan => "nan"
  | S754_infinity s => if s then "-inf" else "inf"
  | S754_zero s => if s then "-0.0" else "0.0"
  | S754_finite s m e =>
      let p := decpt m e in
      let (d, n) := shortest 17 m e p 1 in
      let ds := Py.digits_of_Z d in
      let dp := p + (Z.of_nat (List.length ds) - n) in
      ((if s then "-" else "") ++ format_repr (strip_zeros ds) dp)%string
  end.

(** [f'{x:.1f}']: the value rounded to one decimal place (ties on the
    exact binary value go to even). *)
Definition format_1f (x : t) : string :=
  match x with
  | S754_nan => "nan"
  | S754_infinity s => if s then "-inf" else "inf"
  | S754_zero s => if s then "-0.0" else "0.0"
  | S754_finite s m e =>
      let (num, den) := scaled m e (-1) in
      let lo := num / den in
      let r := num mod den in
      let q := if (2 * r <? den) || ((2 * r =? den) && Z.even lo)
               then lo else lo + 1 in
      ((if s then "-" else "") ++
       Py.str (Py.digits_of_Z (q / 10) ++ "."%char :: Py.digits_of_Z (q mod 10)))%string
  end.

End F64.

(** ** Python dictionaries *)

(** Keys with a decidable equality. *)
Class Key (K : Type) := { keqb : K -> K -> bool }.

(** The test decides equality. *)
Class KeyLaws (K : Type) `{Key K} := {
  keqb_eq : forall a b : K, keqb a b = true <-> a = b
}.

#[global] Instance string_Key : Key string := {| keqb := String.eqb |}.

Module Dict.
Section Ops.
Context {K V : Type} `{Key K}.

  (** Entries in insertion order. *)
Definition t : Type := list (K * V).

  (** [d.get(k)] *)
Fixpoint get (k : K) (d : t) : option V :=
    match d with
    | [] => None
    | (k', v) :: r => if keqb k k' then Some v else get k r
    end.

  (** [k in d] *)
Definition mem (k : K) (d : t) : bool :=
    match get k d with Some _ => true | None => false end.

  (** [d.get(k, default)] *)
Definition get_default (k : K) (default : V) (d : t) : V :=
    match get k d with Some v => v | None => default end.

  (** [d[k] = v]: an existing key keeps its place, a new one goes last. *)
Fixpoint set (k : K) (v : V) (d : t) : t :=
    match d with
    | [] => [(k, v)]
    | (k', v') :: r => if keqb k k' then (k', v) :: r else (k', v') :: set k v r
    end.

  (** [d.update(e)] *)
Definition update (e : t) (d : t) : t :=
    fold_left (fun acc kv => set (fst kv) (snd kv) acc) e d.

Definition keys (d : t) : list K := map fst d.
End Ops.
Arguments t : clear implicits.
End Dict.

(** [x in l] for a list or set of strings *)
Definition mem_str (x : string) (l : list string) : bool :=
  existsb (String.eqb x) l.

(** ** Tables *)

(** What a source key maps to in [PARAMETER_MAP]: one target key, a list
    of target keys, or the marker [True] of the physical printer table. *)
Inductive target := To (k : string) | Fan (ks : list string) | Marker.

Definition PARAMETER_MAP_print : list (string * target) := [
  ("arc_fitting", To "enable_arc_fitting");
  ("bottom_solid_layers", To "bottom_shell_layers");
  ("bottom_solid_min_thickness", To "bottom_shell_thickness");
  ("bridge_acceleration", To "bridge_acceleration");
  ("bridge_angle", To "bridge_angle");
  ("bridge_overlap_min", To "bridge_density");
  ("dont_support_bridges", To "bridge_no_support");
  ("bridge_speed_internal", To "internal_bridge_speed");
  ("brim_ears", To "brim_ears");
  ("brim_ears_detection_length", To "brim_ears_detection_length");
  ("brim_ears_max_angle", To "brim_ears_max_angle");
  ("brim_separation", To "brim_object_gap"); ("brim_width", To "brim_width");
  ("brim_speed", To "skirt_speed");
  ("compatible_printers_condition", To "compatible_printers_condition");
  ("compatible_printers", To "compatible_printers");
  ("default_acceleration", To "default_acceleration");
  ("overhangs", To "detect_overhang_wall");
  ("thin_walls", To "detect_thin_wall"); ("draft_shield", To "draft_shield");
  ("first_layer_size_compensation", To "elefant_foot_compensation");
  ("elefant_foot_compensation", To "elefant_foot_compensation");
  ("enable_dynamic_overhang_speeds", To "enable_overhang_speed");
  ("extra_perimeters_on_overhangs", To "extra_perimeters_on_overhangs");
  ("extra_perimeters_odd_layers", To "alternate_extra_wall");
  ("wipe_tower", To "enable_prime_tower"); ("wipe_speed", To "wipe_speed");
  ("ensure_vertical_shell_thickness", To "ensure_vertical_shell_thickness");
  ("gap_fill_min_length", To "filter_out_gap_fill");
  ("gcode_comments", To "gcode_comments");
  ("gcode_label_objects", To "gcode_label_objects");
  ("machine_limits_usage", To "emit_machine_limits_to_gcode");
  ("infill_anchor_max", To "infill_anchor_max");
  ("infill_anchor", To "infill_anchor");
  ("fill_angle", To "infill_direction");
  ("infill_overlap", To "infill_wall_overlap");
  ("infill_first", To "is_infill_first"); ("inherits", To "inherits");
  ("extrusion_width", To "line_width");
  ("extrusion_multiplier", To "print_flow_ratio");
  ("first_layer_acceleration", To "initial_layer_acceleration");
  ("first_layer_extrusion_width", To "initial_layer_line_width");
  ("first_layer_height", To "initial_layer_print_height");
  ("interface_shells", To "interface_shells");
  ("perimeter_extrusion_width", To "inner_wall_line_width");
  ("seam_gap", To "seam_gap");
  ("solid_infill_acceleration", To "internal_solid_infill_acceleration");
  ("solid_infill_extrusion_width", To "internal_solid_infill_line_width");
  ("ironing_flowrate", To "ironing_flow");
  ("ironing_spacing", To "ironing_spacing");
  ("ironing_speed", To "ironing_speed"); ("layer_height", To "layer_height");
  ("init_z_rotate", To "preferred_orientation");
  ("spiral_vase", To "spiral_mode");
  ("solid_infill_extruder", To "solid_infill_filament");
  ("support_material_extruder", To "support_filament");
  ("infill_extruder", To "sparse_infill_filament");
  ("perimeter_extruder", To "wall_filament");
  ("first_layer_extruder", To "first_layer_filament");
  ("support_material_interface_extruder", To "support_interface_filament");
  ("avoid_crossing_perimeters_max_detour", To "max_travel_detour_distance");
  ("min_bead_width", To "min_bead_width");
  ("min_feature_size", To "min_feature_size");
  ("solid_infill_below_area", To "minimum_sparse_infill_area");
  ("only_one_perimeter_first_layer", To "only_one_wall_first_layer");
  ("only_one_perimeter_top", To "only_one_wall_top");
  ("ooze_prevention", To "ooze_prevention");
  ("extra_perimeters_overhangs", To "extra_perimeters_on_overhangs");
  ("overhangs_reverse", To "overhang_reverse");
  ("overhangs_reverse_threshold", To "overhang_reverse_threshold");
  ("perimeter_acceleration", To "inner_wall_acceleration");
  ("external_perimeter_acceleration", To "outer_wall_acceleration");
  ("external_perimeter_extrusion_width", To "outer_wall_line_width");
  ("post_process", To "post_process");
  ("wipe_tower_brim_width", To "prime_tower_brim_width");
  ("wipe_tower_width", To "prime_tower_width");
  ("raft_contact_distance", To "raft_contact_distance");
  ("raft_expansion", To "raft_expansion");
  ("raft_first_layer_density", To "raft_first_layer_density");
  ("raft_first_layer_expansion", To "raft_first_layer_expansion");
  ("raft_layers", To "raft_layers");
  ("avoid_crossing_perimeters", To "reduce_crossing_wall");
  ("only_retract_when_crossing_perimeters", To "reduce_infill_retraction");
  ("resolution", To "resolution"); ("seam_position", To "seam_position");
  ("skirt_distance", To "skirt_distance");
  ("skirt_height", To "skirt_height"); ("skirts", To "skirt_loops");
  ("slice_closing_radius", To "slice_closing_radius");
  ("slicing_mode", To "slicing_mode");
  ("small_perimeter_min_length", To "small_perimeter_threshold");
  ("infill_acceleration", To "sparse_infill_acceleration");
  ("fill_density", To "sparse_infill_density");
  ("infill_extrusion_width", To "sparse_infill_line_width");
  ("staggered_inner_seams", To "staggered_inner_seams");
  ("standby_temperature_delta", To "standby_temperature_delta");
  ("hole_to_polyhole", To "hole_to_polyhole");
  ("hole_to_polyhole_threshold", To "hole_to_polyhole_threshold");
  ("hole_to_polyhole_twisted", To "hole_to_polyhole_twisted");
  ("support_material", To "enable_support");
  ("support_material_angle", To "support_angle");
  ("support_material_enforce_layers", To "enforce_support_layers");
  ("support_material_spacing", To "support_base_pattern_spacing");
  ("support_material_contact_distance", To "support_top_z_distance");
  ("first_layer_size_compensation_layers", To "elefant_foot_compensation_layers");
  ("support_material_bottom_contact_distance", To "support_bottom_z_distance");
  ("support_material_bottom_interface_layers", To "support_interface_bottom_layers");
  ("support_material_interface_contact_loops", To "support_interface_loop_pattern");
  ("support_material_interface_spacing", To "support_interface_spacing");
  ("support_material_interface_layers", To "support_interface_top_layers");
  ("support_material_extrusion_width", To "support_line_width");
  ("support_material_buildplate_only", To "support_on_build_plate_only");
  ("support_material_threshold", To "support_threshold_angle");
  ("thick_bridges", To "thick_bridges");
  ("top_solid_layers", To "top_shell_layers");
  ("top_solid_min_thickness", To "top_shell_thickness");
  ("top_solid_infill_acceleration", To "top_surface_acceleration");
  ("top_infill_extrusion_width", To "top_surface_line_width");
  ("min_width_top_surface", To "min_width_top_surface");
  ("travel_acceleration", To "travel_acceleration");
  ("travel_speed_z", To "travel_speed_z");
  ("travel_speed", To "travel_speed");
  ("support_tree_angle", To "tree_support_branch_angle");
  ("support_tree_angle_slow", To "tree_support_angle_slow");
  ("support_tree_branch_diameter", To "tree_support_branch_diameter");
  ("support_tree_branch_diameter_angle", To "tree_support_branch_diameter_angle");
  ("support_tree_branch_diameter_double_wall", To "tree_support_branch_diameter_double_wall");
  ("support_tree_tip_diameter", To "tree_support_tip_diameter");
  ("support_tree_top_rate", To "tree_support_top_rate");
  ("wall_distribution_count", To "wall_distribution_count");
  ("perimeter_generator", To "wall_generator");
  ("perimeters", To "wall_loops");
  ("wall_transition_angle", To "wall_transition_angle");
  ("wall_transition_filter_deviation", To "wall_transition_filter_deviation");
  ("wall_transition_length", To "wall_transition_length");
  ("wipe_tower_no_sparse_layers", To "wipe_tower_no_sparse_layers");
  ("xy_size_compensation", To "xy_contour_compensation");
  ("z_offset", To "z_offset");
  ("xy_inner_size_compensation", To "xy_hole_compensation");
  ("support_material_layer_height", To "independent_support_layer_height");
  ("fill_pattern", To "sparse_infill_pattern");
  ("solid_fill_pattern", To "internal_solid_infill_pattern");
  ("output_filename_format", To "filename_format");
  ("support_material_pattern", To "support_base_pattern");
  ("support_material_interface_pattern", To "support_interface_pattern");
  ("top_fill_pattern", To "top_surface_pattern");
  ("support_material_xy_spacing", To "support_object_xy_distance");
  ("fuzzy_skin_point_dist", To "fuzzy_skin_point_distance");
  ("fuzzy_skin_thickness", To "fuzzy_skin_thickness");
  ("fuzzy_skin", To "fuzzy_skin");
  ("bottom_fill_pattern", To "bottom_surface_pattern");
  ("bridge_flow_ratio", To "bridge_flow");
  ("fill_top_flow_ratio", To "top_solid_infill_flow_ratio");
  ("first_layer_flow_ratio", To "bottom_solid_infill_flow_ratio");
  ("infill_every_layers", To "infill_combination");
  ("complete_objects", To "print_sequence"); ("brim_type", To "brim_type");
  ("notes", To "notes"); ("support_material_style", To "support_style");
  ("ironing", To "ironing"); ("ironing_type", To "ironing_type");
  ("ironing_angle", To "ironing_angle");
  ("external_perimeters_first", To "external_perimeters_first");
  ("remaining_times", To "disable_m73")
]%list.

Definition PARAMETER_MAP_filament : list (string * target) := [
  ("bed_temperature", Fan ["hot_plate_temp"; "cool_plate_temp"; "eng_plate_temp"; "textured_plate_temp"]);
  ("bridge_fan_speed", To "overhang_fan_speed");
  ("chamber_temperature", To "chamber_temperature");
  ("disable_fan_first_layers", To "close_fan_the_first_x_layers");
  ("end_filament_gcode", To "filament_end_gcode");
  ("external_perimeter_fan_speed", To "overhang_fan_threshold");
  ("extrusion_multiplier", To "filament_flow_ratio");
  ("fan_always_on", To "reduce_fan_stop_start_freq");
  ("fan_below_layer_time", To "fan_cooling_layer_time");
  ("fan_speedup_time", To "fan_speedup_time");
  ("fan_speedup_overhangs", To "fan_speedup_overhangs");
  ("fan_kickstart", To "fan_kickstart");
  ("filament_colour", To "default_filament_colour");
  ("filament_cost", To "filament_cost");
  ("filament_density", To "filament_density");
  ("filament_deretract_speed", To "filament_deretraction_speed");
  ("filament_diameter", To "filament_diameter");
  ("filament_max_volumetric_speed", To "filament_max_volumetric_speed");
  ("filament_notes", To "filament_notes");
  ("filament_retract_before_travel", To "filament_retraction_minimum_travel");
  ("filament_retract_before_wipe", To "filament_retract_before_wipe");
  ("filament_retract_layer_change", To "filament_retract_when_changing_layer");
  ("filament_retract_length", To "filament_retraction_length");
  ("filament_retract_lift", To "filament_z_hop");
  ("filament_retract_lift_above", To "filament_retract_lift_above");
  ("filament_retract_lift_below", To "filament_retract_lift_below");
  ("filament_retract_restart_extra", To "filament_retract_restart_extra");
  ("filament_retract_speed", To "filament_retraction_speed");
  ("filament_shrink", To "filament_shrink");
  ("filament_soluble", To "filament_soluble");
  ("filament_type", To "filament_type");
  ("filament_wipe", To "filament_wipe");
  ("first_layer_bed_temperature", Fan ["hot_plate_temp_initial_layer"; "cool_plate_temp_initial_layer"; "eng_plate_temp_initial_layer"; "textured_plate_temp_initial_layer"]);
  ("first_layer_temperature", To "nozzle_temperature_initial_layer");
  ("full_fan_speed_layer", To "full_fan_speed_layer");
  ("inherits", To "inherits"); ("max_fan_speed", To "fan_max_speed");
  ("min_fan_speed", To "fan_min_speed");
  ("min_print_speed", To "slow_down_min_speed");
  ("slowdown_below_layer_time", To "slow_down_layer_time");
  ("start_filament_gcode", To "filament_start_gcode");
  ("support_material_interface_fan_speed", To "support_material_interface_fan_speed");
  ("temperature", To "nozzle_temperature");
  ("compatible_printers_condition", To "compatible_printers_condition");
  ("compatible_printers", To "compatible_printers");
  ("compatible_prints_condition", To "compatible_prints_condition");
  ("compatible_prints", To "compatible_prints");
  ("filament_vendor", To "filament_vendor");
  ("filament_minimal_purge_on_wipe_tower", To "filament_minimal_purge_on_wipe_tower")
]%list.

Definition PARAMETER_MAP_printer : list (string * target) := [
  ("bed_custom_model", To "bed_custom_model");
  ("bed_custom_texture", To "bed_custom_texture");
  ("before_layer_gcode", To "before_layer_change_gcode");
  ("toolchange_gcode", To "change_filament_gcode");
  ("default_filament_profile", To "default_filament_profile");
  ("default_print_profile", To "default_print_profile");
  ("deretract_speed", To "deretraction_speed");
  ("gcode_flavor", To "gcode_flavor"); ("inherits", To "inherits");
  ("layer_gcode", To "layer_change_gcode");
  ("feature_gcode", To "change_extrusion_role_gcode");
  ("end_gcode", To "machine_end_gcode");
  ("machine_max_acceleration_e", To "machine_max_acceleration_e");
  ("machine_max_acceleration_extruding", To "machine_max_acceleration_extruding");
  ("machine_max_acceleration_retracting", To "machine_max_acceleration_retracting");
  ("machine_max_acceleration_travel", To "machine_max_acceleration_travel");
  ("machine_max_acceleration_x", To "machine_max_acceleration_x");
  ("machine_max_acceleration_y", To "machine_max_acceleration_y");
  ("machine_max_acceleration_z", To "machine_max_acceleration_z");
  ("machine_max_feedrate_e", To "machine_max_speed_e");
  ("machine_max_feedrate_x", To "machine_max_speed_x");
  ("machine_max_feedrate_y", To "machine_max_speed_y");
  ("machine_max_feedrate_z", To "machine_max_speed_z");
  ("machine_max_jerk_e", To "machine_max_jerk_e");
  ("machine_max_jerk_x", To "machine_max_jerk_x");
  ("machine_max_jerk_y", To "machine_max_jerk_y");
  ("machine_max_jerk_z", To "machine_max_jerk_z");
  ("machine_min_extruding_rate", To "machine_min_extruding_rate");
  ("machine_min_travel_rate", To "machine_min_travel_rate");
  ("pause_print_gcode", To "machine_pause_gcode");
  ("start_gcode", To "machine_start_gcode");
  ("max_layer_height", To "max_layer_height");
  ("min_layer_height", To "min_layer_height");
  ("nozzle_diameter", To "nozzle_diameter"); ("print_host", To "print_host");
  ("printer_notes", To "printer_notes"); ("bed_shape", To "printable_area");
  ("max_print_height", To "printable_height");
  ("printer_technology", To "printer_technology");
  ("printer_variant", To "printer_variant");
  ("retract_before_wipe", To "retract_before_wipe");
  ("retract_length_toolchange", To "retract_length_toolchange");
  ("retract_restart_extra_toolchange", To "retract_restart_extra_toolchange");
  ("retract_restart_extra", To "retract_restart_extra");
  ("retract_layer_change", To "retract_when_changing_layer");
  ("retract_length", To "retraction_length"); ("retract_lift", To "z_hop");
  ("retract_lift_top", To "retract_lift_enforce");
  ("retract_before_travel", To "retraction_minimum_travel");
  ("retract_speed", To "retraction_speed");
  ("silent_mode", To "silent_mode");
  ("single_extruder_multi_material", To "single_extruder_multi_material");
  ("thumbnails", To "thumbnails");
  ("thumbnails_format", To "thumbnails_format");
  ("template_custom_gcode", To "template_custom_gcode");
  ("use_firmware_retraction", To "use_firmware_retraction");
  ("use_relative_e_distances", To "use_relative_e_distances");
  ("wipe", To "wipe")
]%list.

Definition PARAMETER_MAP_physical_printer : list (string * target) := [
  ("host_type", Marker); ("print_host", Marker);
  ("printer_technology", Marker); ("printhost_apikey", Marker);
  ("printhost_authorization_type", Marker); ("printhost_cafile", Marker);
  ("printhost_password", Marker); ("printhost_port", Marker);
  ("printhost_ssl_ignore_revoke", Marker); ("printhost_user", Marker)
]%list.

(** The table of tables, in the order of the source. *)
Definition PARAMETER_MAP : list (string * list (string * target)) := [
  ("print", PARAMETER_MAP_print); ("filament", PARAMETER_MAP_filament);
  ("printer", PARAMETER_MAP_printer);
  ("physical_printer", PARAMETER_MAP_physical_printer)
]%list.

Inductive multivalue := single | array.

Definition MULTIVALUE_PARAMS : list (string * multivalue) := [
  ("max_layer_height", single); ("min_layer_height", single);
  ("deretract_speed", single); ("default_filament_profile", single);
  ("machine_max_acceleration_e", array);
  ("machine_max_acceleration_extruding", array);
  ("machine_max_acceleration_retracting", array);
  ("machine_max_acceleration_travel", array);
  ("machine_max_acceleration_x", array);
  ("machine_max_acceleration_y", array);
  ("machine_max_acceleration_z", array); ("machine_max_feedrate_e", array);
  ("machine_max_feedrate_x", array); ("machine_max_feedrate_y", array);
  ("machine_max_feedrate_z", array); ("machine_max_jerk_e", array);
  ("machine_max_jerk_x", array); ("machine_max_jerk_y", array);
  ("machine_max_jerk_z", array); ("machine_min_extruding_rate", array);
  ("machine_min_travel_rate", array); ("nozzle_diameter", single);
  ("bed_shape", array); ("retract_before_wipe", single);
  ("retract_length_toolchange", single);
  ("retract_restart_extra_toolchange", single);
  ("retract_restart_extra", single); ("retract_layer_change", single);
  ("retract_length", single); ("retract_lift", single);
  ("retract_before_travel", single); ("retract_speed", single);
  ("thumbnails", array); ("extruder_offset", single);
  ("retract_lift_above", single); ("retract_lift_below", single);
  ("wipe", single)
]%list.

Definition FILAMENT_TYPES : list (string * string) := [
  ("PET", "PETG"); ("FLEX", "TPU"); ("NYLON", "PA")
]%list.

Definition DEFAULT_MVS : list (string * string) := [
  ("PLA", "15"); ("PET", "10"); ("ABS", "12"); ("ASA", "12");
  ("FLEX", "3.2"); ("NYLON", "12"); ("PVA", "12"); ("PC", "12");
  ("PSU", "8"); ("HIPS", "8"); ("EDGE", "8"); ("NGEN", "8"); ("PP", "8");
  ("PEI", "8"); ("PEEK", "8"); ("PEKK", "8"); ("POM", "8"); ("PVDF", "8");
  ("SCAFF", "8")
]%list.

Definition SPEED_PARAMS : list (string * string) := [
  ("perimeter_speed", "inner_wall_speed");
  ("external_perimeter_speed", "outer_wall_speed");
  ("small_perimeter_speed", "small_perimeter_speed");
  ("solid_infill_speed", "internal_solid_infill_speed");
  ("infill_speed", "sparse_infill_speed");
  ("top_solid_infill_speed", "top_surface_speed");
  ("gap_fill_speed", "gap_infill_speed");
  ("support_material_speed", "support_speed");
  ("support_material_interface_speed", "support_interface_speed");
  ("bridge_speed", "bridge_speed");
  ("first_layer_speed", "initial_layer_speed");
  ("first_layer_infill_speed", "initial_layer_infill_speed")
]%list.

Definition SEAM_POSITIONS : list (string * string) := [
  ("cost", "nearest"); ("random", "random"); ("allrandom", "random");
  ("aligned", "aligned"); ("contiguous", "aligned"); ("rear", "back");
  ("nearest", "nearest")
]%list.

Definition INFILL_TYPES : list (string * string) := [
  ("3dhoneycomb", "3dhoneycomb"); ("adaptivecubic", "adaptivecubic");
  ("alignedrectilinear", "alignedrectilinear");
  ("archimedeanchords", "archimedeanchords"); ("concentric", "concentric");
  ("concentricgapfill", "concentric"); ("cubic", "cubic"); ("grid", "grid");
  ("gyroid", "gyroid"); ("hilbertcurve", "hilbertcurve");
  ("honeycomb", "honeycomb"); ("lightning", "lightning"); ("line", "line");
  ("monotonic", "monotonic"); ("monotonicgapfill", "monotonic");
  ("monotoniclines", "monotonicline"); ("octagramspiral", "octagramspiral");
  ("rectilinear", "zig-zag"); ("rectilineargapfill", "zig-zag");
  ("rectiwithperimeter", "zig-zag"); ("sawtooth", "zig-zag");
  ("scatteredrectilinear", "zig-zag"); ("smooth", "monotonic");
  ("smoothhilbert", "hilbertcurve"); ("smoothtriple", "triangles");
  ("stars", "tri-hexagon"); ("supportcubic", "supportcubic");
  ("triangles", "triangles")
]%list.

Definition GCODE_FLAVORS : list (string * string) := [
  ("klipper", "klipper"); ("mach3", "reprapfirmware");
  ("machinekit", "reprapfirmware"); ("makerware", "reprapfirmware");
  ("marlin", "marlin"); ("marlin2", "marlin2");
  ("no-extrusion", "reprapfirmware"); ("repetier", "reprapfirmware");
  ("reprap", "reprapfirmware"); ("reprapfirmware", "reprapfirmware");
  ("sailfish", "reprapfirmware"); ("smoothie", "reprapfirmware");
  ("teacup", "reprapfirmware"); ("sprinter", "reprapfirmware")
]%list.

Definition HOST_TYPES : list (string * string) := [
  ("repetier", "repetier"); ("prusalink", "prusalink");
  ("prusaconnect", "prusaconnect"); ("octoprint", "octoprint");
  ("moonraker", "octoprint"); ("mks", "mks"); ("klipper", "octoprint");
  ("flashair", "flashair"); ("duet", "duet"); ("astrobox", "astrobox")
]%list.

Definition ZHOP_ENFORCEMENT : list (string * string) := [
  ("All surfaces", "All Surfaces"); ("Not on top", "Bottom Only");
  ("Only on top", "Top Only")
]%list.

Definition THUMBNAIL_FORMAT : list (string * string) := [
  ("PNG", "PNG"); ("JPG", "JPG"); ("QOI", "QOI"); ("BIQU", "BTT_TFT")
]%list.

Definition SUPPORT_STYLES : list (string * (string * string)) := [
  ("grid", ("normal", "grid")); ("snug", ("normal", "snug"));
  ("tree", ("tree", "default")); ("organic", ("tree", "organic"))
]%list.

Definition SPEED_SEQUENCE : list string := [
  "perimeter_speed"; "external_perimeter_speed"; "solid_infill_speed";
  "infill_speed"; "small_perimeter_speed"; "top_solid_infill_speed";
  "gap_fill_speed"; "support_material_speed";
  "support_material_interface_speed"; "bridge_speed"; "first_layer_speed";
  "first_layer_infill_speed"
]%list.

Definition SUPPORT_PATTERNS : list string := [
  "rectilinear"; "rectilinear-grid"; "honeycomb"; "lightning"; "default";
  "hollow"
]%list.

Definition INTERFACE_PATTERNS : list string := [
  "auto"; "rectilinear"; "concentric"; "rectilinear_interlaced"; "grid"
]%list.

Definition ORCA_SLICER_VERSION : string := "1.6.0.0".

(** [SYSTEM_DIRECTORIES['output']] *)
Definition SYSTEM_DIRECTORIES_output : list (string * list string) := [
  ("filament", ["user"; "default"; "filament"]);
  ("print", ["user"; "default"; "process"]);
  ("printer", ["user"; "default"; "machine"])
]%list.

(** ** The converter: data *)

(** A converted value: a string, or a list of strings. *)
Inductive value := Str (s : string) | Arr (l : list string).

(** A key of the output record: a string, or the [True] that the physical
    printer table gives as target. *)
Inductive key := KStr (s : string) | KTrue.

Definition key_eqb (a b : key) : bool :=
  match a, b with
  | KStr x, KStr y => String.eqb x y
  | KTrue, KTrue => true
  | _, _ => false
  end.

#[global] Instance key_Key : Key key := {| keqb := key_eqb |}.

(** A parsed profile and an output record. *)
Definition ini : Type := Dict.t string string.
Definition record : Type := Dict.t key value.

(** The fields of [self.status] that the conversion reads or writes, and
    [self.new_hash]. *)
Record converter := {
  slicer_flavor : option string;
  ini_type : option string;
  profile_name : option string;
  ironing_type : option string;
  max_temp : F64.t;
  nozzle_size : option string;
  to_var : Dict.t string bool;
  new_hash : record
}.

(** [SlicerConverter()] *)
Definition init : converter :=
  {| slicer_flavor := None; ini_type := None; profile_name := None;
     ironing_type := None; max_temp := F64.zero; nozzle_size := None;
     to_var := []; new_hash := [] |}.

Definition set_slicer_flavor (x : option string) (c : converter) : converter :=
  {| slicer_flavor := x; ini_type := ini_type c;
     profile_name := profile_name c; ironing_type := ironing_type c;
     max_temp := max_temp c; nozzle_size := nozzle_size c;
     to_var := to_var c; new_hash := new_hash c |}.

Definition set_ini_type (x : option string) (c : converter) : converter :=
  {| slicer_flavor := slicer_flavor c; ini_type := x;
     profile_name := profile_name c; ironing_type := ironing_type c;
     max_temp := max_temp c; nozzle_size := nozzle_size c;
     to_var := to_var c; new_hash := new_hash c |}.

Definition set_profile_name (x : option string) (c : converter) : converter :=
  {| slicer_flavor := slicer_flavor c; ini_type := ini_type c;
     profile_name := x; ironing_type := ironing_type c;
     max_temp := max_temp c; nozzle_size := nozzle_size c;
     to_var := to_var c; new_hash := new_hash c |}.

Definition set_ironing_type (x : option string) (c : converter) : converter :=
  {| slicer_flavor := slicer_flavor c; ini_type := ini_type c;
     profile_name := profile_name c; ironing_type := x;
     max_temp := max_temp c; nozzle_size := nozzle_size c;
     to_var := to_var c; new_hash := new_hash c |}.

Definition set_max_temp (x : F64.t) (c : converter) : converter :=
  {| slicer_flavor := slicer_flavor c; ini_type := ini_type c;
     profile_name := profile_name c; ironing_type := ironing_type c;
     max_temp := x; nozzle_size := nozzle_size c;
     to_var := to_var c; new_hash := new_hash c |}.

Definition set_nozzle_size (x : option string) (c : converter) : converter :=
  {| slicer_flavor := slicer_flavor c; ini_type := ini_type c;
     profile_name := profile_name c; ironing_type := ironing_type c;
     max_temp := max_temp c; nozzle_size := x;
     to_var := to_var c; new_hash := new_hash c |}.

Definition set_to_var (x : Dict.t string bool) (c : converter) : converter :=
  {| slicer_flavor := slicer_flavor c; ini_type := ini_type c;
     profile_name := profile_name c; ironing_type := ironing_type c;
     max_temp := max_temp c; nozzle_size := nozzle_size c;
     to_var := x; new_hash := new_hash c |}.

Definition set_new_hash (x : record) (c : converter) : converter :=
  {| slicer_flavor := slicer_flavor c; ini_type := ini_type c;
     profile_name := profile_name c; ironing_type := ironing_type c;
     max_temp := max_temp c; nozzle_size := nozzle_size c;
     to_var := to_var c; new_hash := x |}.

(** [self.new_hash[k] = v] *)
Definition put (k : string) (v : value) (c : converter) : converter :=
  set_new_hash (Dict.set (KStr k) v (new_hash c)) c.

(** [str(v)] of a converted value.  For a list Python prints the items
    between brackets with their [repr]; the quoting of the items is
    simplified here, no caller depends on more than the brackets. *)
Definition py_str (v : value) : string :=
  match v with
  | Str s => s
  | Arr l => ("[" ++ String.concat ", " (map (fun s => "'" ++ s ++ "'") l) ++ "]")%string
  end.

(** [self.new_hash.get(k)], read as the argument of [str]. *)
Definition new_hash_get (k : string) (c : converter) : option string :=
  option_map py_str (Dict.get (KStr k) (new_hash c)).

(** ** The converter: value helpers *)

Definition is_decimal (value : string) : bool :=
  let s := Py.strip value in
  if Py.endswith_char "%" s then false
  else match F64.float s with Some _ => true | None => false end.

Definition is_percent (value : string) : bool :=
  let s := Py.strip value in
  if negb (Py.endswith_char "%" s) then false
  else match F64.float (Py.drop_last s) with Some _ => true | None => false end.

Definition remove_percent (value : string) : string :=
  Py.rstrip_char "%" (Py.strip value).

Definition multivalue_to_array (input_string : option string) : list string :=
  match input_string with
  | Some s =>
      if (s =? "")%string then []
      else
        let delimiter := if Py.contains_char "," s then ","%char else ";"%char in
        map Py.strip (Py.split delimiter s)
  | None => []
  end.

Definition evaluate_print_order (external_perimeters_first infill_first : bool)
  : string :=
  if negb external_perimeters_first && negb infill_first
  then "inner wall/outer wall/infill"
  else if external_perimeters_first && negb infill_first
  then "outer wall/inner wall/infill"
  else if negb external_perimeters_first && infill_first
  then "infill/inner wall/outer wall"
  else if external_perimeters_first && infill_first
  then "infill/outer wall/inner wall"
  else "inner wall/outer wall/infill".

Definition evaluate_ironing_type (ironing : bool) (ironing_type : option string)
  : string :=
  if ironing then
    match ironing_type with
    | Some s => if (s =? "")%string then "no ironing" else s
    | None => "no ironing"
    end
  else "no ironing".

(** A result, or an exception that the function does not catch. *)
Inductive exc (A : Type) := Ok (a : A) | Raise.
Arguments Ok {A} a.
Arguments Raise {A}.

Definition percent_to_float (value : string) : exc string :=
  if negb (is_percent value) then Ok value
  else
    match F64.float (remove_percent value) with
    | Some x =>
        let new_float := F64.div x (F64.of_Z 100) in
        Ok (if F64.ltb (F64.of_Z 2) new_float then "2" else F64.repr new_float)
    | None => Raise
    end.

Definition percent_to_mm (mm_comparator percent_param : option string)
  : option string :=
  match mm_comparator, percent_param with
  | Some mm, Some pp =>
      let mm_str := Py.strip mm in
      let percent_str := Py.strip pp in
      if (mm_str =? "")%string || (percent_str =? "")%string then None
      else if negb (is_percent percent_str) then Some percent_str
      else if is_percent mm_str then None
      else
        match F64.float mm_str, F64.float (remove_percent percent_str) with
        | Some a, Some b =>
            Some (F64.repr (F64.mul a (F64.div b (F64.of_Z 100))))
        | _, _ => None
        end
  | _, _ => None
  end.

Definition mm_to_percent (mm_comparator : option string) (mm_param : string)
  : option string :=
  if is_percent mm_param then Some mm_param
  else if match mm_comparator with Some c => is_percent c | None => false end
  then None
  else
    match F64.float mm_param, mm_comparator with
    | Some a, Some c =>
        match F64.float c with
        | Some b =>
            if F64.is_zero b then None
            else Some (F64.repr (F64.mul (F64.div a b) (F64.of_Z 100)) ++ "%")%string
        | None => None
        end
    | _, _ => None
    end.

(** The one-element list that [unbackslash_gcode] returns, as its element. *)
Definition unbackslash_gcode (value : string) : string :=
  let quote := ascii_of_N 34 in
  let newline := ascii_of_N 10 in
  let tab := ascii_of_N 9 in
  let s :=
    if Py.startswith_char quote value && Py.endswith_char quote value
    then removelast (tl (Py.chars value))
    else Py.chars value in
  let s := Py.replace2 "\" "n" newline s in
  let s := Py.replace2 "\" "t" tab s in
  let s := Py.replace2 "\" "\" "\" s in
  Py.str s.

(** ** Reading a profile *)

(** A prefix [w], given in lower case, matched without regard to case. *)
Fixpoint strip_prefix_ci (w l : list ascii) : option (list ascii) :=
  match w, l with
  | [], _ => Some l
  | a :: w', c :: l' =>
      if Ascii.eqb a (Py.lower_char c) then strip_prefix_ci w' l' else None
  | _ :: _, [] => None
  end.

(** [\s+] *)
Definition spaces1 (l : list ascii) : option (list ascii) :=
  match l with
  | c :: r => if Py.is_space c then Some (Py.drop_while Py.is_space r) else None
  | [] => None
  end.

Fixpoint take_while (p : ascii -> bool) (l : list ascii) : list ascii :=
  match l with
  | c :: r => if p c then c :: take_while p r else []
  | [] => []
  end.

(** [re.match(r'^#\s*generated\s+by\s+(\S+)', line, re.IGNORECASE)]:
    the captured token, if the line matches. *)
Definition generated_by (line : string) : option string :=
  match Py.chars line with
  | c :: r =>
      if Ascii.eqb c "#" then
        match strip_prefix_ci (Py.chars "generated") (Py.drop_while Py.is_space r) with
        | Some r1 =>
            match spaces1 r1 with
            | Some r2 =>
                match strip_prefix_ci (Py.chars "by") r2 with
                | Some r3 =>
                    match spaces1 r3 with
                    | Some r4 =>
                        match take_while (fun c => negb (Py.is_space c)) r4 with
                        | [] => None
                        | tok => Some (Py.str tok)
                        end
                    | None => None
                    end
                | None => None
                end
            | None => None
            end
        | None => None
        end
      else None
  | [] => None
  end.

(** [re.match(r'^\s*(?:#|$)', line)] *)
Definition blank_or_comment (line : string) : bool :=
  match Py.drop_while Py.is_space (Py.chars line) with
  | [] => true
  | c :: _ => Ascii.eqb c "#"
  end.

(** One turn of the loop of [ini_reader] over the lines: the mapping read
    so far and the flavor. *)
Definition ini_line (st : ini * option string) (line : string)
  : ini * option string :=
  match generated_by line with
  | Some tok => (fst st, Some tok)
  | None =>
      if blank_or_comment line then st
      else
        match Py.split_once "=" line with
        | Some (k, v) => (Dict.set (Py.strip k) (Py.strip v) (fst st), snd st)
        | None => st
        end
  end.

(** [ini_reader] on the text of the file. *)
Definition ini_reader (content : string) (self : converter) : ini * converter :=
  let st := fold_left ini_line (Py.split (ascii_of_N 10) content)
                      ([], slicer_flavor self) in
  (fst st, set_slicer_flavor (snd st) self).

(** ** Detecting the kind *)

(** [sum(1 for p in source_ini if p in params)] *)
Definition count_matching {V : Type} (source_ini : ini) (params : Dict.t string V)
  : nat :=
  List.length (filter (fun p => Dict.mem p params) (Dict.keys source_ini)).

(** The dictionary [type_counts]: every table of [PARAMETER_MAP] but the
    physical printer's, with its count. *)
Definition type_counts (source_ini : ini) : Dict.t string nat :=
  fold_left
    (fun acc e =>
       if (fst e =? "physical_printer")%string then acc
       else Dict.set (fst e) (count_matching source_ini (snd e)) acc)
    PARAMETER_MAP [].

(** [max(d, key=d.get)] continued from a best entry so far: a later entry
    replaces it only when strictly greater. *)
Fixpoint max_from (best : string * nat) (l : list (string * nat)) : string :=
  match l with
  | [] => fst best
  | e :: r => if (snd best <? snd e)%nat then max_from e r else max_from best r
  end.

Definition detect_ini_type (source_ini : ini) : option string :=
  match Dict.get "ini_type" source_ini with
  | Some t => Some (Py.lower t)
  | None =>
      let counts := type_counts source_ini in
      if forallb (fun e => (snd e <? 10)%nat) counts then None
      else
        match counts with
        | e :: r => Some (max_from e r)
        | [] => None
        end
  end.

(** ** Converting one parameter *)

Definition gcode_params : list string := [
  "start_filament_gcode"; "end_filament_gcode"; "post_process";
  "before_layer_gcode"; "toolchange_gcode"; "layer_gcode";
  "feature_gcode"; "end_gcode"; "pause_print_gcode"; "start_gcode";
  "template_custom_gcode"; "notes"; "filament_notes"; "printer_notes"
].

Definition percent_to_mm_params : list (string * string) := [
  ("max_layer_height", "nozzle_size");
  ("min_layer_height", "nozzle_size");
  ("fuzzy_skin_point_dist", "nozzle_size");
  ("fuzzy_skin_thickness", "nozzle_size");
  ("small_perimeter_min_length", "nozzle_size")
].

(** [self.status['value'].get(name)]: of the four entries only
    [nozzle_size] is ever assigned, the others stay [None]. *)
Definition status_value (name : string) (self : converter) : option string :=
  if (name =? "nozzle_size")%string then nozzle_size self else None.

(** [self.status['slicer_flavor'] or 'PrusaSlicer'] *)
Definition flavor_or_prusa (self : converter) : string :=
  match slicer_flavor self with
  | Some f => if (f =? "")%string then "PrusaSlicer" else f
  | None => "PrusaSlicer"
  end.

(** The body of [convert_params] after the multivalue step, for a value
    that is still a string. *)
Definition convert_rules (parameter new_value : string) (source_ini : ini)
  (self : converter) : exc (option value) * converter :=
  let par p := (parameter =? p)%string in
  let ret (s : string) := (Ok (Some (Str s)), self) in
  let ret_opt (o : option string) := (Ok (option_map Str o), self) in
  let slicer_flavor := flavor_or_prusa self in
  let default_speed :=
    if (slicer_flavor =? "SuperSlicer")%string
    then Dict.get "default_speed" source_ini else None in
  if mem_str parameter gcode_params then
    (Ok (Some (Arr [unbackslash_gcode new_value])), self)
  else if par "filament_type" then
    ret (Dict.get_default new_value new_value FILAMENT_TYPES)
  else if par "filament_max_volumetric_speed" then
    if match F64.float new_value with
       | Some x => F64.ltb F64.zero x
       | None => false
       end
    then ret new_value
    else
      let filament_type := Dict.get_default "filament_type" "PLA" source_ini in
      ret (Dict.get_default filament_type "15" DEFAULT_MVS)
  else if par "draft_shield" then
    if (new_value =? "disabled")%string then ret "0"
    else if (new_value =? "enabled")%string then ret "1"
    else ret new_value
  else if par "external_perimeter_fan_speed" then
    match Py.int new_value with
    | Some val => if val <? 0 then ret "0%" else ret (Py.str_of_int val ++ "%")%string
    | None => ret "0%"
    end
  else if par "ironing_type" then
    (Ok (Some (Str new_value)), set_ironing_type (Some new_value) self)
  else if par "default_filament_profile" then
    match multivalue_to_array (Some new_value) with
    | a :: _ => ret (unbackslash_gcode a)
    | [] => ret ""
    end
  else if par "retract_lift_top" then
    match multivalue_to_array (Some new_value) with
    | a :: _ =>
        let val := unbackslash_gcode a in
        ret (Dict.get_default val val ZHOP_ENFORCEMENT)
    | [] => ret ""
    end
  else if Dict.mem parameter percent_to_mm_params then
    let comparator :=
      status_value (Dict.get_default parameter "" percent_to_mm_params) self in
    ret_opt (percent_to_mm comparator (Some new_value))
  else if mem_str parameter
            ["bridge_flow_ratio"; "fill_top_flow_ratio"; "first_layer_flow_ratio"] then
    match percent_to_float new_value with
    | Ok s => ret s
    | Raise => (Raise, self)
    end
  else if par "wall_transition_length" then
    ret_opt (mm_to_percent (status_value "nozzle_size" self) new_value)
  else if par "machine_limits_usage" then
    ret (if (new_value =? "emit_to_gcode")%string then "1" else "0")
  else if par "remaining_times" then
    ret (if (new_value =? "1")%string then "0" else "1")
  else if par "support_material_bottom_contact_distance" then
    if (new_value =? "0")%string
    then ret (Dict.get_default "support_material_contact_distance" "0" source_ini)
    else ret new_value
  else if par "support_material_style" then
    match Dict.get new_value SUPPORT_STYLES with
    | Some (support_type, support_style) =>
        let genstyle :=
          if (Dict.get_default "support_material_auto" "0" source_ini =? "1")%string
          then "auto" else "manual" in
        (Ok None,
         put "support_style" (Str support_style)
           (put "support_type" (Str (support_type ++ "(" ++ genstyle ++ ")")%string)
              self))
    | None => (Ok None, self)
    end
  else if mem_str parameter
            ["fill_pattern"; "top_fill_pattern"; "bottom_fill_pattern";
             "solid_fill_pattern"] then
    ret (Dict.get_default new_value new_value INFILL_TYPES)
  else if par "gcode_flavor" then
    ret_opt (Dict.get new_value GCODE_FLAVORS)
  else if par "host_type" then
    ret_opt (Dict.get new_value HOST_TYPES)
  else if par "thumbnails_format" then
    ret (Dict.get_default new_value new_value THUMBNAIL_FORMAT)
  else if par "support_material_pattern" then
    ret (if mem_str new_value SUPPORT_PATTERNS then new_value else "default")
  else if par "support_material_interface_pattern" then
    ret (if mem_str new_value INTERFACE_PATTERNS then new_value else "auto")
  else if par "seam_position" then
    ret (Dict.get_default new_value new_value SEAM_POSITIONS)
  else if par "support_material_layer_height" then
    match F64.float new_value with
    | Some x => ret (if F64.ltb F64.zero x then "1" else "0")
    | None => ret "0"
    end
  else if par "output_filename_format" then
    ret (Py.str (map (fun c => if Ascii.eqb c "[" then "{"%char
                               else if Ascii.eqb c "]" then "}"%char else c)
                     (Py.chars new_value)))
  else if par "support_material_xy_spacing" then
    let ext_width := Dict.get "external_perimeter_extrusion_width" source_ini in
    match percent_to_mm ext_width (Some new_value) with
    | Some r => ret r
    | None => ret_opt (percent_to_mm (status_value "nozzle_size" self) (Some new_value))
    end
  else if par "extrusion_width" then
    ret (if (new_value =? "")%string then "0" else new_value)
  else if par "infill_every_layers" then
    match Py.int new_value with
    | Some n => ret (if 0 <? n then "1" else "0")
    | None => ret "0"
    end
  else if par "complete_objects" then
    ret (if mem_str new_value ["1"; "true"] then "by object" else "by layer")
  else if mem_str parameter
            ["external_perimeter_speed"; "first_layer_speed";
             "top_solid_infill_speed"; "support_material_interface_speed"] then
    let result :=
      if par "external_perimeter_speed" then
        percent_to_mm (Dict.get "perimeter_speed" source_ini) (Some new_value)
      else if par "first_layer_speed" then
        percent_to_mm (Dict.get "perimeter_speed" source_ini) (Some new_value)
      else if par "top_solid_infill_speed" then
        percent_to_mm (new_hash_get "internal_solid_infill_speed" self) (Some new_value)
      else
        percent_to_mm (Dict.get "support_material_speed" source_ini) (Some new_value) in
    if Py.truthy result then ret_opt result else ret new_value
  else if par "first_layer_infill_speed" then
    if (slicer_flavor =? "PrusaSlicer")%string then
      ret_opt (percent_to_mm (Dict.get "infill_speed" source_ini)
                             (Dict.get "first_layer_speed" source_ini))
    else ret_opt (percent_to_mm (Dict.get "infill_speed" source_ini) (Some new_value))
  else if par "solid_infill_speed" then
    let ref := if (slicer_flavor =? "PrusaSlicer")%string
               then Dict.get "infill_speed" source_ini else default_speed in
    ret_opt (percent_to_mm ref (Some new_value))
  else if mem_str parameter ["perimeter_speed"; "support_material_speed"; "bridge_speed"]
          && (slicer_flavor =? "SuperSlicer")%string then
    ret_opt (percent_to_mm default_speed (Some new_value))
  else if par "infill_speed" && (slicer_flavor =? "SuperSlicer")%string then
    ret_opt (percent_to_mm (new_hash_get "internal_solid_infill_speed" self) (Some new_value))
  else if par "small_perimeter_speed" && (slicer_flavor =? "SuperSlicer")%string then
    ret_opt (percent_to_mm (new_hash_get "sparse_infill_speed" self) (Some new_value))
  else if par "gap_fill_speed" && (slicer_flavor =? "SuperSlicer")%string then
    ret_opt (percent_to_mm (new_hash_get "sparse_infill_speed" self) (Some new_value))
  else ret new_value.

(** [convert_params]: [Ok None] is the result [None].  A parameter that
    [MULTIVALUE_PARAMS] marks [array] carries a list from the multivalue
    step on; no rule names such a parameter ([array_params_have_no_rule]),
    so the list reaches the final [return new_value]. *)
Definition convert_params (parameter : string) (source_ini : ini)
  (self : converter) : exc (option value) * converter :=
  match Dict.get parameter source_ini with
  | None => (Ok None, self)
  | Some raw =>
      if (raw =? "nil")%string then (Ok None, self)
      else
        match Dict.get parameter MULTIVALUE_PARAMS with
        | Some array => (Ok (Some (Arr (multivalue_to_array (Some raw)))), self)
        | Some single =>
            let new_value :=
              match multivalue_to_array (Some raw) with
              | a :: _ => a
              | [] => raw
              end in
            convert_rules parameter new_value source_ini self
        | None => convert_rules parameter raw source_ini self
        end
  end.

(** ** Converting a profile *)

(** A sequence of statements that ran to its end, or stopped at an
    exception it does not catch; in both cases the converter as the
    statements left it. *)
Inductive run := Done (c : converter) | Failed (c : converter).

Definition converter_of (r : run) : converter :=
  match r with Done c => c | Failed c => c end.

(** One turn of the loop over [SPEED_SEQUENCE]. *)
Definition speed_step (source_ini : ini) (r : run) (parameter : string) : run :=
  match r with
  | Failed _ => r
  | Done self =>
      if negb (Dict.mem parameter source_ini) then Done self
      else
        match convert_params parameter source_ini self with
        | (Raise, c) => Failed c
        | (Ok None, c) => Done c
        | (Ok (Some new_value), c) =>
            let s := py_str new_value in
            let s :=
              if is_decimal s then
                match F64.float s with
                | Some x =>
                    Py.rstrip_char "." (Py.rstrip_char "0" (F64.format_1f x))
                | None => s
                end
              else s in
            match Dict.get parameter SPEED_PARAMS with
            | Some k => Done (put k (Str s) c)
            | None => Failed c
            end
        end
  end.

Definition overhang_keys : list string :=
  ["overhang_1_4_speed"; "overhang_2_4_speed";
   "overhang_3_4_speed"; "overhang_4_4_speed"].

(** [for i, key in enumerate(overhang_keys): self.new_hash[key] = speeds[3 - i]] *)
Definition write_overhang (speeds : list string) (self : converter) : converter :=
  fold_left
    (fun c ik => put (snd ik) (Str (nth (3 - fst ik) speeds "")) c)
    (combine (seq 0 4) overhang_keys) self.

(** [self.status['slicer_flavor'] == name] *)
Definition flavor_is (name : string) (self : converter) : bool :=
  match slicer_flavor self with
  | Some f => (f =? name)%string
  | None => false
  end.

(** The list [speeds] of the dynamic overhang step. *)
Definition overhang_speeds (source_ini : ini) (self : converter) : list string :=
  if flavor_is "SuperSlicer" self then
    multivalue_to_array
      (Some (Dict.get_default "dynamic_overhang_speeds" "" source_ini))
  else
    [Dict.get_default "overhang_speed_0" "" source_ini;
     Dict.get_default "overhang_speed_1" "" source_ini;
     Dict.get_default "overhang_speed_2" "" source_ini;
     Dict.get_default "overhang_speed_3" "" source_ini].

(** [calculate_print_params] after the loop over the speeds: the dynamic
    overhang speeds, the wall and infill order, the ironing type. *)
Definition derived_print_fields (source_ini : ini) (c : converter) : converter :=
  let enable_dynamic :=
    (Dict.get_default "enable_dynamic_overhang_speeds" "0" source_ini =? "1")%string in
  let c := put "enable_overhang_speed" (Str (if enable_dynamic then "1" else "0")) c in
  let c :=
    if enable_dynamic then
      let speeds := overhang_speeds source_ini c in
      if (4 <=? List.length speeds)%nat then write_overhang speeds c else c
    else c in
  let ext_first :=
    mem_str (Dict.get_default "external_perimeters_first" "0" source_ini) ["1"; "true"] in
  let inf_first :=
    mem_str (Dict.get_default "infill_first" "0" source_ini) ["1"; "true"] in
  let c := put "wall_infill_order" (Str (evaluate_print_order ext_first inf_first)) c in
  let ironing :=
    mem_str (Dict.get_default "ironing" "0" source_ini) ["1"; "true"] in
  put "ironing_type" (Str (evaluate_ironing_type ironing (ironing_type c))) c.

Definition calculate_print_params (source_ini : ini) (self : converter) : run :=
  match fold_left (speed_step source_ini) SPEED_SEQUENCE (Done self) with
  | Failed c => Failed c
  | Done c => Done (derived_print_fields source_ini c)
  end.

(** [self.new_hash[tk] = new_value] for the target or targets of a key. *)
Definition write_target (target_key : target) (new_value : value)
  (self : converter) : converter :=
  match target_key with
  | To k => put k new_value self
  | Fan ks => fold_left (fun c tk => put tk new_value c) ks self
  | Marker => set_new_hash (Dict.set KTrue new_value (new_hash self)) self
  end.

(** The running maximum of the two temperature parameters. *)
Definition track_max_temp (parameter : string) (new_value : value)
  (self : converter) : run :=
  if mem_str parameter ["first_layer_temperature"; "temperature"] then
    let bump (s : string) :=
      match F64.float s with
      | Some temp =>
          if F64.ltb (max_temp self) temp then set_max_temp temp self else self
      | None => self
      end in
    match new_value with
    | Str s => Done (bump s)
    | Arr (a :: _) => Done (bump a)
    | Arr [] => Failed self
    end
  else Done self.

(** One turn of the loop of [convert_profile] over the keys of the source. *)
Definition profile_step (param_map : Dict.t string target) (source_ini : ini)
  (r : run) (parameter : string) : run :=
  match r with
  | Failed _ => r
  | Done self =>
      if (parameter =? "profile_name")%string then Done self
      else
        match Dict.get parameter param_map with
        | None => Done self
        | Some target_key =>
            match convert_params parameter source_ini self with
            | (Raise, c) => Failed c
            | (Ok None, c) => Done c
            | (Ok (Some new_value), c) =>
                track_max_temp parameter new_value
                  (write_target target_key new_value c)
            end
        end
  end.

(** The choice of [self.status['value']['nozzle_size']]. *)
Definition choose_nozzle_size (source_ini : ini) (nozzle_size_arg : option string)
  (ini_type : string) (self : converter) : converter :=
  match Dict.get "nozzle_diameter" source_ini with
  | Some d =>
      match multivalue_to_array (Some d) with
      | a :: _ => set_nozzle_size (Some a) self
      | [] => set_nozzle_size nozzle_size_arg self
      end
  | None =>
      if Py.truthy nozzle_size_arg then set_nozzle_size nozzle_size_arg self
      else
        match Dict.get "layer_height" source_ini with
        | Some h =>
            if (ini_type =? "print")%string then
              match F64.float h with
              | Some x => set_nozzle_size (Some (F64.repr (F64.mul (F64.of_Z 2) x))) self
              | None => set_nozzle_size (Some "0.4") self
              end
            else self
        | None => self
        end
  end.

(** The three combination settings noted in [self.status['to_var']]. *)
Definition track_to_var (source_ini : ini) (self : converter) : converter :=
  fold_left
    (fun c param =>
       match Dict.get param source_ini with
       | Some v => set_to_var (Dict.set param (mem_str v ["1"; "true"]) (to_var c)) c
       | None => c
       end)
    ["external_perimeters_first"; "infill_first"; "ironing"] self.

(** The metadata that [self.new_hash.update] adds. *)
Definition add_metadata (ini_type profile_name : string) (self : converter)
  : converter :=
  put "version" (Str ORCA_SLICER_VERSION)
    (put "is_custom_defined" (Str "1")
       (put "from" (Str "User")
          (put "name" (Str profile_name)
             (put (ini_type ++ "_settings_id")%string (Str profile_name) self)))).

(** The filament branch at the end of [convert_profile]. *)
Definition filament_params (source_ini : ini) (self : converter) : run :=
  let c := put "nozzle_temperature_range_low" (Str "0") self in
  match F64.int (max_temp c) with
  | F64.Int n =>
      let c := put "nozzle_temperature_range_high" (Str (Py.str_of_int n)) c in
      match Dict.get "slowdown_below_layer_time" source_ini with
      | Some v =>
          match F64.float v with
          | Some x =>
              Done (put "slow_down_for_layer_cooling"
                        (Str (if F64.ltb F64.zero x then "1" else "0")) c)
          | None => Done c
          end
      | None => Done c
      end
  | _ => Failed c
  end.

(** What a call of [convert_profile] gives: the triple of a conversion,
    the triple [(None, 'unsupported', stem)], or an exception. *)
Inductive result :=
| Converted (data : record) (ini_type profile_name : string)
| Unsupported (stem : string)
| Exception.

(** The second half of [convert_profile], from the loop over the
    parameters to the [return]. *)
Definition convert_body (kind name : string) (source_ini : ini)
  (self : converter) : result * converter :=
  let param_map := Dict.get_default kind [] PARAMETER_MAP in
  match fold_left (profile_step param_map source_ini)
                  (Dict.keys source_ini) (Done self) with
  | Failed c => (Exception, c)
  | Done c =>
      let c := add_metadata kind name c in
      let r :=
        if (kind =? "filament")%string then filament_params source_ini c
        else if (kind =? "print")%string then calculate_print_params source_ini c
        else Done c in
      match r with
      | Done c => (Converted (new_hash c) kind name, c)
      | Failed c => (Exception, c)
      end
  end.

(** The assignments of [convert_profile] between the detection of the
    kind and the loop over the parameters. *)
Definition prepare (source_ini : ini) (nozzle_size_arg : option string)
  (kind name : string) (self : converter) : converter :=
  let self := set_ini_type (Some kind) self in
  let self := set_profile_name (Some name) self in
  let self := choose_nozzle_size source_ini nozzle_size_arg kind self in
  let self := set_new_hash [] self in
  track_to_var source_ini self.

(** [convert_profile] from the parsed file on. *)
Definition convert_parsed (stem : string) (source_ini : ini)
  (nozzle_size_arg : option string) (self : converter) : result * converter :=
  if negb (Py.truthy (slicer_flavor self)) then (Unsupported stem, self)
  else
    let detected :=
      if Py.truthy (ini_type self) then ini_type self
      else detect_ini_type source_ini in
    match detected with
    | None => (Unsupported stem, self)
    | Some kind =>
        if (kind =? "")%string then (Unsupported stem, self)
        else
          let name := Dict.get_default "profile_name" stem source_ini in
          convert_body kind name source_ini
            (prepare source_ini nozzle_size_arg kind name self)
    end.

(** [convert_profile] for the file named [stem] with text [content].
    The argument [on_existing] of the source is not used by its body. *)
Definition convert_profile (stem content : string)
  (nozzle_size_arg : option string) (self : converter) : result * converter :=
  let (source_ini, self) := ini_reader content self in
  convert_parsed stem source_ini nozzle_size_arg self.

(** ** The batch loop of [main] *)

(** A file under the output directory: a JSON object, or text that
    [json.load] rejects (a file that a failed write left behind). *)
Inductive file := Json (d : record) | Malformed.

(** The files under the output directory, by path.  Paths are texts;
    [a / b] of [pathlib] is [path_join a b], for a relative [b]. *)
Definition files : Type := Dict.t string file.

Definition path_join (a b : string) : string := (a ++ "/" ++ b)%string.

(** An input file: the stem of its name and its text. *)
Record input_file := { stem : string; content : string }.

(** What the loop reads from the command line and the terminal. *)
Record options := {
  opt_nozzle_size : option string;   (* args.nozzle_size *)
  opt_on_existing : string;          (* args.on_existing *)
  opt_force_out : bool;              (* converter.status['force_out'] *)
  opt_output : string;               (* converter.status['dirs']['output'] *)
  opt_interactive : bool;            (* converter.status['interactive_mode'] *)
  opt_ini_type : option string;      (* the variable ini_type of main *)
  opt_prompt : string -> string      (* what input() returns, by file stem *)
}.

(** An entry of [results]. *)
Record entry := {
  e_input : string; e_output : string; e_type : string;
  e_name : string; e_status : string
}.

(** The state of the loop: the converter, the files, the results. *)
Record batch := { conv : converter; fs : files; results : list entry }.

(** The merge of [main]: [for k, v in data.items(): if k not in existing:
    existing[k] = v]. *)
Definition merge_existing {K V : Type} `{Key K} (existing data : Dict.t K V)
  : Dict.t K V :=
  fold_left
    (fun ex kv => if Dict.mem (fst kv) ex then ex else Dict.set (fst kv) (snd kv) ex)
    data existing.

Definition has_str_key (d : record) : bool :=
  existsb (fun kv => match fst kv with KStr _ => true | KTrue => false end) d.

(** [write_json]: [json.dump] with [sort_keys=True] fails on comparing
    the key [True] with a string key, after [open] has emptied the file;
    alone, the key [True] is written as ["true"]. *)
Definition write_json (output_path : string) (data : record) (f : files)
  : exc unit * files :=
  if Dict.mem KTrue data && has_str_key data
  then (Raise, Dict.set output_path Malformed f)
  else
    (Ok tt,
     Dict.set output_path
       (Json (map (fun kv => (match fst kv with
                              | KTrue => KStr "true"
                              | k => k
                              end, snd kv)) data)) f).

(** The nozzle size passed to [convert_profile], and the converter after
    the look ahead that the interactive mode does for it. *)
Definition nozzle_for (o : options) (f : input_file) (c : converter)
  : option string * converter :=
  if negb (Py.truthy (opt_nozzle_size o)) && opt_interactive o then
    let (temp_ini, c) := ini_reader (content f) c in
    let detected_type := detect_ini_type temp_ini in
    let nozzle_size :=
      match detected_type with
      | Some "print" =>
          if negb (Dict.mem "nozzle_diameter" temp_ini) then
            let answer := Py.strip (opt_prompt o (stem f)) in
            Some (if (answer =? "")%string then "0.4" else answer)
          else opt_nozzle_size o
      | _ => opt_nozzle_size o
      end in
    (nozzle_size, set_slicer_flavor None c)
  else (opt_nozzle_size o, c).

(** The reset at the end of the loop body. *)
Definition reset_for_next (o : options) (c : converter) : converter :=
  set_ironing_type None (set_max_temp F64.zero (set_ini_type (opt_ini_type o) c)).

(** [output_dir] and [output_file] of the loop body. *)
Definition output_dir_of (o : options) (detected_ini_type : string) : string :=
  if opt_force_out o then opt_output o
  else
    fold_left path_join
      (Dict.get_default detected_ini_type ["user"; "default"; "filament"]
         SYSTEM_DIRECTORIES_output)
      (opt_output o).

Definition output_file_of (o : options) (detected_ini_type name : string)
  : string :=
  path_join (output_dir_of o detected_ini_type) (name ++ ".json")%string.

(** The body of the loop for one input file. *)
Definition process_file (o : options) (b : batch) (f : input_file) : batch :=
  let (nozzle_size, c) := nozzle_for o f (conv b) in
  let (r, c) := convert_profile (stem f) (content f) nozzle_size c in
  let stopped := {| conv := c; fs := fs b; results := results b |} in
  match r with
  | Exception => stopped
  | Unsupported _ => stopped
  | Converted data detected_ini_type name =>
      let output_file := output_file_of o detected_ini_type name in
      let write (data : record) (status : string) :=
        match write_json output_file data (fs b) with
        | (Ok _, fs') =>
            {| conv := reset_for_next o c;
               fs := fs';
               results := results b ++
                 [{| e_input := stem f; e_output := output_file;
                     e_type := detected_ini_type; e_name := name;
                     e_status := status |}] |}
        | (Raise, fs') => {| conv := c; fs := fs'; results := results b |}
        end in
      match Dict.get output_file (fs b) with
      | Some existing =>
          if (opt_on_existing o =? "skip")%string then stopped
          else if (opt_on_existing o =? "merge")%string then
            match existing with
            | Json e => write (merge_existing e data) "merged"
            | Malformed => stopped
            end
          else write data "converted"
      | None => write data "converted"
      end
  end.

(** The loop of [main] over the input files, from a new converter. *)
Definition main_loop (o : options) (inputs : list input_file) (f : files) : batch :=
  fold_left (process_file o) inputs
    {| conv := (if Py.truthy (opt_ini_type o)
                then set_ini_type (opt_ini_type o) init else init);
       fs := f; results := [] |}.

(** ** Vocabulary of the statements *)

(** A record with numbers for values, for the example of the merge. *)
Definition num_record (l : list (string * Z)) : Dict.t string Z := l.

(** The number of keys of a source that the table of a kind holds. *)
Definition kind_count (kind : string) (source_ini : ini) : nat :=
  count_matching source_ini (Dict.get_default kind [] PARAMETER_MAP).

(** The four phrases of the print order. *)
Definition print_orders : list string :=
  ["inner wall/outer wall/infill"; "outer wall/inner wall/infill";
   "infill/inner wall/outer wall"; "infill/outer wall/inner wall"].

(** [value in ('1', 'true')] *)
Definition flag (name : string) (source_ini : ini) : bool :=
  mem_str (Dict.get_default name "0" source_ini) ["1"; "true"].


(** *** Reading a file, apart from the converter *)

(** The mapping and the flavor that the lines of a file give by themselves. *)
Definition read_lines (content : string) : ini * option string :=
  fold_left ini_line (Py.split (ascii_of_N 10) content) ([], None).

(** The later of two assignments, if there is a later one. *)
Definition over (o i : option string) : option string :=
  match o with Some v => Some v | None => i end.

(** *** Two conversions side by side *)

(** What [convert_rules] does to the converter: nothing, the note of the
    ironing type, or the two entries of the support style. *)
Inductive effect := Keep | SetIroning (s : string) | PutSupport (t s : string).

Definition apply_effect (e : effect) (c : converter) : converter :=
  match e with
  | Keep => c
  | SetIroning s => set_ironing_type (Some s) c
  | PutSupport t s => put "support_style" (Str s) (put "support_type" (Str t) c)
  end.

(** What the rules read of a converter. *)
Definition view (c : converter) : option string * option string * record :=
  (slicer_flavor c, nozzle_size c, new_hash c).

(** Two calls that return the same value and change their converters in
    the same way. *)
Definition coupled (a b : converter) (x y : exc (option value) * converter)
  : Prop :=
  fst x = fst y /\ exists e, snd x = apply_effect e a /\ snd y = apply_effect e b.

(** The running maximum over a list of temperatures. *)
Definition bumps (ts : list F64.t) (m : F64.t) : F64.t :=
  fold_left (fun m t => if F64.ltb m t then t else m) ts m.

(** What a stretch of the conversion does to the two trackers: the
    temperatures it has seen and the ironing type it has noted. *)
Record delta := { temps : list F64.t; iron : option string }.

Definition no_delta : delta := {| temps := []; iron := None |}.

Definition then_delta (d e : delta) : delta :=
  {| temps := temps d ++ temps e; iron := over (iron e) (iron d) |}.

Definition effect_delta (e : effect) : delta :=
  match e with
  | SetIroning s => {| temps := []; iron := Some s |}
  | _ => no_delta
  end.

(** [c'] comes from [c] by the tracker changes [d]; the flavor, the kind
    and the nozzle size are those of [c]. *)
Definition tracked (d : delta) (c c' : converter) : Prop :=
  max_temp c' = bumps (temps d) (max_temp c)
  /\ ironing_type c' = over (iron d) (ironing_type c)
  /\ slicer_flavor c' = slicer_flavor c
  /\ ini_type c' = ini_type c
  /\ nozzle_size c' = nozzle_size c.

(** Two stretches side by side, from [a] to [a'] and from [b] to [b']: they
    end with the same view and made the same tracker changes. *)
Definition paired (a b a' b' : converter) : Prop :=
  view a' = view b' /\ exists d, tracked d a a' /\ tracked d b b'.

Definition same_tag (x y : run) : Prop :=
  match x, y with
  | Done _, Done _ | Failed _, Failed _ => True
  | _, _ => False
  end.

Definition run_paired (a b : converter) (x y : run) : Prop :=
  same_tag x y /\ paired a b (converter_of x) (converter_of y).

(** The result of a conversion whose second half ran into [r]. *)
Definition result_of (kind name : string) (r : run) : result :=
  match r with
  | Done c => Converted (new_hash c) kind name
  | Failed _ => Exception
  end.

(** The nozzle size that [choose_nozzle_size] assigns, if it assigns one. *)
Definition chosen_nozzle_size (source_ini : ini) (nozzle_size_arg : option string)
  (kind : string) : option (option string) :=
  match Dict.get "nozzle_diameter" source_ini with
  | Some d =>
      match multivalue_to_array (Some d) with
      | a :: _ => Some (Some a)
      | [] => Some nozzle_size_arg
      end
  | None =>
      if Py.truthy nozzle_size_arg then Some nozzle_size_arg
      else
        match Dict.get "layer_height" source_ini with
        | Some h =>
            if (kind =? "print")%string then
              match F64.float h with
              | Some x => Some (Some (F64.repr (F64.mul (F64.of_Z 2) x)))
              | None => Some (Some "0.4")
              end
            else None
        | None => None
        end
  end.

(** The order of two finite floats of one sign, by exponent and mantissa. *)
Definition lex (e1 : Z) (m1 : positive) (e2 : Z) (m2 : positive) : comparison :=
  match Z.compare e1 e2 with
  | Lt => Lt
  | Gt => Gt
  | Eq => Pos.compare_cont Eq m1 m2
  end.

(** *** Example files and batches *)

Definition text (lines : list string) : string :=
  String.concat (String (ascii_of_N 10) EmptyString) lines.

(** The settings of a filament profile, twelve keys of the filament table. *)
Definition filament_settings (temperature : string) : list string :=
  ["bed_temperature = 60"; ("temperature = " ++ temperature)%string;
   "filament_type = PLA"; "filament_colour = #FF8000"; "filament_cost = 25";
   "filament_density = 1.24"; "filament_diameter = 1.75";
   "extrusion_multiplier = 1"; "min_fan_speed = 35"; "max_fan_speed = 100";
   "bridge_fan_speed = 100"; "fan_always_on = 1"].

(** A filament profile as PrusaSlicer writes it. *)
Definition filament_file (name temperature : string) : input_file :=
  {| stem := name;
     content := text ("# generated by PrusaSlicer 2.6.0 on 2023-07-01"
                      :: filament_settings temperature) |}.

(** The same settings without the header comment. *)
Definition headerless_file (name temperature : string) : input_file :=
  {| stem := name; content := text (filament_settings temperature) |}.

(** A print profile of SuperSlicer with the given dynamic overhang speeds. *)
Definition print_file (name speeds : string) : input_file :=
  {| stem := name;
     content := text ["# generated by SuperSlicer 2.5.59 on 2023-07-01";
                      "ini_type = print"; "layer_height = 0.2";
                      "external_perimeters_first = 0"; "infill_first = 1";
                      "enable_dynamic_overhang_speeds = 1";
                      ("dynamic_overhang_speeds = " ++ speeds)%string] |}.

(** A print profile of PrusaSlicer with its four overhang speeds. *)
Definition prusa_print_file (name : string) : input_file :=
  {| stem := name;
     content := text ["# generated by PrusaSlicer 2.6.0 on 2023-07-01";
                      "ini_type = print"; "layer_height = 0.2";
                      "enable_dynamic_overhang_speeds = 1";
                      "overhang_speed_0 = 15"; "overhang_speed_1 = 25";
                      "overhang_speed_2 = 35"; "overhang_speed_3 = 45"] |}.

(** A run from the command line, with the given policy. *)
Definition batch_options (policy : string) : options :=
  {| opt_nozzle_size := None; opt_on_existing := policy;
     opt_force_out := false; opt_output := "out";
     opt_interactive := false; opt_ini_type := None;
     opt_prompt := fun _ => "" |}.

(** The entry [k] of the JSON object written at [path]. *)
Definition written (path k : string) (b : batch) : option value :=
  match Dict.get path (fs b) with
  | Some (Json d) => Dict.get (KStr k) d
  | _ => None
  end.

(** The inputs and the kinds of the results of a batch. *)
Definition converted_as (b : batch) : list (string * string) :=
  map (fun e => (e_input e, e_type e)) (results b).

(** [d[k]] for a string key of an output record. *)
Definition entry_of (k : string) (d : record) : option value :=
  Dict.get (KStr k) d.

(** An existing output file for the profile [hot]. *)
Definition hot_record : record :=
  [(KStr "name", Str "kept"); (KStr "note", Arr ["mine"])].

Definition hot_exists : files :=
  [("out/user/default/filament/hot.json", Json hot_record)].

(** A mapping with ten keys of the print table and ten of the filament
    table: six of each alone and four that both tables hold. *)
Definition tied_profile : ini :=
  map (fun k => (k, "1"))
    ["layer_height"; "perimeters"; "fill_density"; "skirts"; "brim_width";
     "seam_position"; "temperature"; "bed_temperature"; "filament_type";
     "filament_cost"; "filament_density"; "filament_diameter"; "inherits";
     "compatible_printers"; "compatible_printers_condition";
     "extrusion_multiplier"].

(** A mapping with the ten keys of the physical printer table and no
    [ini_type] marker. *)
Definition physical_printer_profile : ini :=
  map (fun k => (k, "1"))
    ["host_type"; "print_host"; "printer_technology"; "printhost_apikey";
     "printhost_authorization_type"; "printhost_cafile"; "printhost_password";
     "printhost_port"; "printhost_ssl_ignore_revoke"; "printhost_user"].

(** The mapping of the filament profile of the examples. *)
Definition filament_profile : ini :=
  fst (read_lines (content (filament_file "pla" "200"))).

(** ** Vocabulary of the further properties *)

(** *** Tables *)

(** The value that a table with a pass-through default gives:
    [table.get(v, v)]. *)
Definition translate (table : Dict.t string string) (v : string) : string :=
  Dict.get_default v v table.

(** The values of a dictionary. *)
Definition values {V : Type} (d : Dict.t string V) : list V := map snd d.

(** The table of a rule that looks a value up and passes an unknown one
    through. *)
Definition passthrough_table (p : string) : option (Dict.t string string) :=
  if (p =? "filament_type")%string then Some FILAMENT_TYPES
  else if mem_str p ["fill_pattern"; "top_fill_pattern"; "bottom_fill_pattern";
                     "solid_fill_pattern"]
  then Some INFILL_TYPES
  else if (p =? "thumbnails_format")%string then Some THUMBNAIL_FORMAT
  else if (p =? "seam_position")%string then Some SEAM_POSITIONS
  else None.

(** The rules whose result is a flag. *)
Definition flag_params : list string :=
  ["machine_limits_usage"; "remaining_times"; "support_material_layer_height";
   "infill_every_layers"].

(** *** What a turn of the loop writes *)

(** The keys of the record that a target stands for. *)
Definition writes_of (t : target) : list key :=
  match t with
  | To k => [KStr k]
  | Fan ks => map KStr ks
  | Marker => [KTrue]
  end.

Definition key_in (k : key) (l : list key) : bool := existsb (key_eqb k) l.

(** The two keys that the rule of the support style writes by itself. *)
Definition support_keys : list key := [KStr "support_type"; KStr "support_style"].

(** In the table [pm] only the parameter [p0] has [k] among its targets. *)
Definition only_writer (pm : Dict.t string target) (p0 : string) (k : key) : bool :=
  forallb (fun e => (fst e =? p0)%string || negb (key_in k (writes_of (snd e)))) pm.

(** What [convert_rules] may do to the converter, by parameter. *)
Definition effect_ok (p v : string) (x : exc (option value) * converter)
  (a : converter) : Prop :=
  exists e, snd x = apply_effect e a
            /\ match e with
               | Keep => True
               | SetIroning s => p = "ironing_type" /\ s = v
               | PutSupport _ _ => p = "support_material_style"
               end.

(** The parameters that a rule of [convert_params] names. *)
Definition ruled_params : list string :=
  gcode_params
  ++ ["filament_type"; "filament_max_volumetric_speed"; "draft_shield";
      "external_perimeter_fan_speed"; "ironing_type"; "default_filament_profile";
      "retract_lift_top"]
  ++ Dict.keys percent_to_mm_params
  ++ ["bridge_flow_ratio"; "fill_top_flow_ratio"; "first_layer_flow_ratio";
      "wall_transition_length"; "machine_limits_usage"; "remaining_times";
      "support_material_bottom_contact_distance"; "support_material_style";
      "fill_pattern"; "top_fill_pattern"; "bottom_fill_pattern";
      "solid_fill_pattern"; "gcode_flavor"; "host_type"; "thumbnails_format";
      "support_material_pattern"; "support_material_interface_pattern";
      "seam_position"; "support_material_layer_height"; "output_filename_format";
      "support_material_xy_spacing"; "extrusion_width"; "infill_every_layers";
      "complete_objects"; "external_perimeter_speed"; "first_layer_speed";
      "top_solid_infill_speed"; "support_material_interface_speed";
      "first_layer_infill_speed"; "solid_infill_speed"; "perimeter_speed";
      "support_material_speed"; "bridge_speed"; "infill_speed";
      "small_perimeter_speed"; "gap_fill_speed"].

Definition has_rule (p : string) : bool := mem_str p ruled_params.

(** What [convert_params] returns for the value [v] of a parameter without
    a rule: the value, its first item, or the list of its items. *)
Definition copied (p v : string) : value :=
  match Dict.get p MULTIVALUE_PARAMS with
  | Some array => Arr (multivalue_to_array (Some v))
  | Some single =>
      Str match multivalue_to_array (Some v) with a :: _ => a | [] => v end
  | None => Str v
  end.

(** The keys that [convert_profile] writes after its loop. *)
Definition metadata_keys (kind : string) : list key :=
  map KStr [(kind ++ "_settings_id")%string; "name"; "from"; "is_custom_defined";
            "version"].

Definition filament_keys : list key :=
  map KStr ["nozzle_temperature_range_low"; "nozzle_temperature_range_high";
            "slow_down_for_layer_cooling"].

Definition print_keys : list key :=
  map KStr (values SPEED_PARAMS
            ++ "enable_overhang_speed" :: overhang_keys
            ++ ["wall_infill_order"; "ironing_type"]).

Definition kind_keys (kind : string) : list key :=
  if (kind =? "filament")%string then filament_keys
  else if (kind =? "print")%string then print_keys
  else [].

Definition late_keys (kind : string) : list key :=
  support_keys ++ metadata_keys kind ++ kind_keys kind.

(** The metadata of a record. *)
Definition metadata (kind name : string) : record :=
  [(KStr (kind ++ "_settings_id")%string, Str name); (KStr "name", Str name);
   (KStr "from", Str "User"); (KStr "is_custom_defined", Str "1");
   (KStr "version", Str ORCA_SLICER_VERSION)].

(** The temperatures that the loop of [convert_profile] sees for the keys
    [keys] of a filament source, in their order. *)
Definition seen_temps (source_ini : ini) (keys : list string) : list F64.t :=
  flat_map
    (fun p =>
       if mem_str p ["first_layer_temperature"; "temperature"]
       then match Dict.get p source_ini with
            | Some v =>
                if (v =? "nil")%string then []
                else match F64.float v with Some t => [t] | None => [] end
            | None => []
            end
       else [])
    keys.

(** The ironing type that a source gives. *)
Definition source_ironing (source_ini : ini) : option string :=
  match Dict.get "ironing_type" source_ini with
  | Some v => if (v =? "nil")%string then None else Some v
  | None => None
  end.

(** A profile whose kind no table knows. *)
Definition resin_file : input_file :=
  {| stem := "resin";
     content := text ["# generated by PrusaSlicer 2.6.0 on 2023-07-01";
                      "ini_type = sla_print"; "layer_height = 0.05";
                      "temperature = 210"] |}.

(** A print profile that irons the topmost surface. *)
Definition ironing_file : input_file :=
  {| stem := "smooth";
     content := text ["# generated by PrusaSlicer 2.6.0 on 2023-07-01";
                      "ini_type = print"; "layer_height = 0.2";
                      "ironing = 1"; "ironing_type = topmost"] |}.

(** *** Numbers and exceptions *)

(** A text that ends with the percent sign. *)
Definition ends_percent (l : list ascii) : Prop :=
  exists l', l = l' ++ ["%"%char].

(** The kind that [convert_profile] works with: the one the converter
    holds, or else the detected one. *)
Definition kind_of (self : converter) (source_ini : ini) : option string :=
  if Py.truthy (ini_type self) then ini_type self else detect_ini_type source_ini.

(** A filament profile whose temperature is written as infinity. *)
Definition molten_file : input_file :=
  {| stem := "molten";
     content := text ("# generated by PrusaSlicer 2.6.0 on 2023-07-01"
                      :: filament_settings "inf") |}.

(** *** Texts *)

(** The line feed, as a character and as a text. *)
Definition newline : ascii := ascii_of_N 10.
Definition newline_text : string := String newline EmptyString.

(** The character [c] does not occur in the text [s]. *)
Definition free_of (c : ascii) (s : string) : Prop := Py.contains_char c s = false.

(** The delimiter that [multivalue_to_array] splits a text at. *)
Definition delimiter_of (s : string) : ascii :=
  if Py.contains_char "," s then ","%char else ";"%char.

(** *** Batches *)

(** What the loop of [main] reports of a written profile: its file is the
    one of its kind and name, and its status is [converted], or [merged]
    under the policy [merge]. *)
Definition reported (o : options) (f : files) (e : entry) : Prop :=
  Dict.mem (e_output e) f = true
  /\ e_output e = output_file_of o (e_type e) (e_name e)
  /\ (e_status e = "converted"
      \/ (e_status e = "merged" /\ opt_on_existing o = "merge")).
(** * Properties *)

(** ** Dictionaries *)

#[global] Instance string_KeyLaws : KeyLaws string.
Proof. constructor. exact String.eqb_eq. Qed.

#[global] Instance key_KeyLaws : KeyLaws key.
Proof.
  constructor. intros [x|] [y|]; simpl; split; intro E;
    try discriminate; try reflexivity.
  - apply String.eqb_eq in E. now subst.
  - injection E as ->. apply String.eqb_refl.
Qed.

Section DictFacts.
Context {K V : Type} `{KeyLaws K}.

Lemma keqb_refl (k : K) : keqb k k = true.
Proof. now apply keqb_eq. Qed.

Lemma keqb_neq (a b : K) : a <> b -> keqb a b = false.
Proof.
    intro N. destruct (keqb a b) eqn:E; [|reflexivity].
    apply keqb_eq in E. contradiction.
Qed.

Lemma get_set_same (k : K) (v : V) (d : Dict.t K V) :
    Dict.get k (Dict.set k v d) = Some v.
Proof.
    induction d as [|[k' v'] r IH]; simpl.
    - now rewrite keqb_refl.
    - destruct (keqb k k') eqn:E; simpl; rewrite E; [reflexivity | exact IH].
Qed.

Lemma get_set_other (k k' : K) (v : V) (d : Dict.t K V) :
    k <> k' -> Dict.get k' (Dict.set k v d) = Dict.get k' d.
Proof.
    intro N. induction d as [|[k0 v0] r IH]; simpl.
    - rewrite keqb_neq; [reflexivity | congruence].
    - destruct (keqb k k0) eqn:E; simpl.
      + apply keqb_eq in E. subst k0.
        rewrite keqb_neq; [reflexivity | congruence].
      + now rewrite IH.
Qed.

Lemma mem_get (k : K) (d : Dict.t K V) :
    Dict.mem k d = match Dict.get k d with Some _ => true | None => false end.
Proof. reflexivity. Qed.

  (** One turn of the merge, read at a key. *)
Lemma merge_step_get (ex : Dict.t K V) (k0 : K) (v0 : V) (k : K) :
    Dict.get k (if Dict.mem k0 ex then ex else Dict.set k0 v0 ex) =
    match Dict.get k ex with
    | Some v => Some v
    | None => if keqb k k0 then Some v0 else None
    end.
Proof.
    unfold Dict.mem. destruct (Dict.get k0 ex) as [w|] eqn:G.
    - destruct (Dict.get k ex) eqn:Gk; [reflexivity|].
      destruct (keqb k k0) eqn:E; [|reflexivity].
      apply keqb_eq in E. congruence.
    - destruct (keqb k k0) eqn:E.
      + apply keqb_eq in E. subst k0. now rewrite get_set_same, G.
      + rewrite get_set_other.
        * now destruct (Dict.get k ex).
        * intro Q. subst k0. now rewrite keqb_refl in E.
Qed.

Lemma merge_existing_get (existing data : Dict.t K V) (k : K) :
    Dict.get k (merge_existing existing data) =
    match Dict.get k existing with
    | Some v => Some v
    | None => Dict.get k data
    end.
Proof.
    unfold merge_existing. revert existing.
    induction data as [|[k0 v0] r IH]; intro existing; simpl.
    - now destruct (Dict.get k existing).
    - rewrite IH, merge_step_get.
      destruct (Dict.get k existing); [reflexivity|].
      now destruct (keqb k k0).
Qed.
End DictFacts.

(** ** The policy for an existing output file *)

(** C5.  Under the policy [merge] the merged document maps every key of
    the existing document to the existing value, whatever its shape, and
    every other key of the new record to the new value; the existing
    [{a:1}] merged with the new [{a:2, b:3}] is [{a:1, b:3}]; in the loop
    of [main] the merged document is what is written over an existing
    file.  Under the policy [skip] an existing file stops the write: the
    files and the results are left as they were. *)
Theorem merge_keeps_existing_skip_leaves_file :
  (forall (existing data : record) (k : key),
      Dict.get k (merge_existing existing data) =
      match Dict.get k existing with
      | Some v => Some v
      | None => Dict.get k data
      end)
  /\ merge_existing (num_record [("a", 1)]) (num_record [("a", 2); ("b", 3)])
     = num_record [("a", 1); ("b", 3)]
  /\ (forall o b f nozzle c0 data kind name c e,
         nozzle_for o f (conv b) = (nozzle, c0) ->
         convert_profile (stem f) (content f) nozzle c0
           = (Converted data kind name, c) ->
         Dict.get (output_file_of o kind name) (fs b) = Some (Json e) ->
         opt_on_existing o = "merge" ->
         fs (process_file o b f)
           = snd (write_json (output_file_of o kind name)
                             (merge_existing e data) (fs b)))
  /\ (forall o b f nozzle c0 data kind name c existing,
         nozzle_for o f (conv b) = (nozzle, c0) ->
         convert_profile (stem f) (content f) nozzle c0
           = (Converted data kind name, c) ->
         Dict.get (output_file_of o kind name) (fs b) = Some existing ->
         opt_on_existing o = "skip" ->
         fs (process_file o b f) = fs b
         /\ results (process_file o b f) = results b).
Proof.
  split; [|split; [|split]].
  - intros. apply merge_existing_get.
  - reflexivity.
  - intros o b f nozzle c0 data kind name c e Hn Hc Hg Hp.
    unfold process_file. rewrite Hn, Hc, Hg, Hp. simpl.
    now destruct (write_json _ _ _) as [[[]|] fs'].
  - intros o b f nozzle c0 data kind name c existing Hn Hc Hg Hp.
    unfold process_file. rewrite Hn, Hc, Hg, Hp. simpl. now split.
Qed.

(** C5 at the filament profile [hot] with an existing output file: merged,
    the file keeps its name and its note and gains the temperature;
    skipped, the files are as they were. *)
Lemma merge_and_skip_at_existing_file :
  let hot := filament_file "hot" "260" in
  let start := {| conv := init; fs := hot_exists; results := [] |} in
  let path := "out/user/default/filament/hot.json" in
  written path "name" (process_file (batch_options "merge") start hot)
    = Some (Str "kept")
  /\ written path "note" (process_file (batch_options "merge") start hot)
     = Some (Arr ["mine"])
  /\ written path "nozzle_temperature"
       (process_file (batch_options "merge") start hot) = Some (Str "260")
  /\ fs (process_file (batch_options "skip") start hot) = hot_exists.
Proof.
  intros hot start path.
  destruct (convert_profile (stem hot) (content hot) None init) as [r c] eqn:E.
  assert (R : exists data, r = Converted data "filament" "hot").
  { assert (F : fst (convert_profile (stem hot) (content hot) None init) = r)
      by (rewrite E; reflexivity).
    vm_compute in F. subst r. eexists. reflexivity. }
  destruct R as (data & ->).
  destruct merge_keeps_existing_skip_leaves_file as (G & _ & M & S).
  assert (W : fs (process_file (batch_options "merge") start hot)
              = snd (write_json path (merge_existing hot_record data) hot_exists)).
  { apply (M (batch_options "merge") start hot None init data "filament" "hot"
             c hot_record); [reflexivity | exact E | reflexivity | reflexivity]. }
  assert (D : Dict.mem KTrue (merge_existing hot_record data) = false).
  { unfold Dict.mem. rewrite G.
    assert (F : fst (convert_profile (stem hot) (content hot) None init)
                = Converted data "filament" "hot") by (rewrite E; reflexivity).
    vm_compute in F. injection F as <-. reflexivity. }
  assert (X : forall k,
             written path k (process_file (batch_options "merge") start hot)
             = match Dict.get (KStr k) hot_record with
               | Some v => Some v
               | None => Dict.get (KStr k) data
               end).
  { intro k. unfold written. rewrite W. unfold write_json. rewrite D.
    cbn [andb snd]. unfold path, hot_exists. cbn [Dict.set keqb string_Key].
    rewrite String.eqb_refl. cbn [Dict.get keqb string_Key].
    rewrite String.eqb_refl.
    rewrite <- (G hot_record data (KStr k)).
    generalize (merge_existing hot_record data) D. intros m Dm.
    induction m as [|[[s|] v] m IH]; [reflexivity| |].
    - cbn [map fst snd Dict.get]. destruct (keqb (KStr k) (KStr s)); [reflexivity|].
      apply IH. unfold Dict.mem in *. cbn [Dict.get keqb key_Key key_eqb] in Dm.
      exact Dm.
    - unfold Dict.mem in Dm. cbn [Dict.get keqb key_Key key_eqb] in Dm.
      discriminate Dm. }
  split; [rewrite X; reflexivity|]. split; [rewrite X; reflexivity|]. split.
  - rewrite X. cbn [hot_record Dict.get keqb key_Key key_eqb].
    assert (F : fst (convert_profile (stem hot) (content hot) None init)
                = Converted data "filament" "hot") by (rewrite E; reflexivity).
    vm_compute in F. injection F as <-. reflexivity.
  - apply (S (batch_options "skip") start hot None init data "filament" "hot"
             c (Json hot_record)); [reflexivity | exact E | reflexivity | reflexivity].
Defined.

(** ** Detecting the kind *)

(** The three entries of [type_counts], in the order of [PARAMETER_MAP]. *)
Lemma type_counts_eq (source_ini : ini) :
  type_counts source_ini =
  [("print", kind_count "print" source_ini);
   ("filament", kind_count "filament" source_ini);
   ("printer", kind_count "printer" source_ini)].
Proof. reflexivity. Qed.

(** Detection without a marker, as a decision on the three counts. *)
Lemma detect_unmarked (source_ini : ini) :
  Dict.get "ini_type" source_ini = None ->
  detect_ini_type source_ini =
  let p := kind_count "print" source_ini in
  let f := kind_count "filament" source_ini in
  let r := kind_count "printer" source_ini in
  if (p <? 10)%nat && ((f <? 10)%nat && ((r <? 10)%nat && true)) then None
  else Some (if (p <? f)%nat
             then if (f <? r)%nat then "printer" else "filament"
             else if (p <? r)%nat then "printer" else "print").
Proof.
  intro H. unfold detect_ini_type. rewrite H, type_counts_eq.
  generalize (kind_count "print" source_ini),
    (kind_count "filament" source_ini), (kind_count "printer" source_ini).
  intros p f r. cbn [forallb snd fst max_from].
  destruct (_ && _); [reflexivity|].
  destruct (Nat.ltb p f), (Nat.ltb f r), (Nat.ltb p r); reflexivity.
Qed.

(** The three comparisons of a proof about counts, as propositions. *)
Ltac count_cases :=
  repeat match goal with
         | |- context [(?a <? ?b)%nat] => destruct (Nat.ltb_spec a b)
         end;
  cbn [andb].

(** C4, as the code has it.  For a mapping without an [ini_type] marker
    the detector counts, for each of the kinds print, filament and printer
    and for no other, the keys of the mapping that the table of the kind
    holds.  If the three counts are below 10 the result is [None], the
    unknown kind, whatever the keys of the physical printer table are;
    otherwise it is one of the three kinds, with the highest of the three
    counts.  A mapping with at least 10 keys of the filament table and fewer
    than 10 of the print and of the printer table is a filament profile. *)
Theorem detect_by_counts (source_ini : ini) :
  Dict.get "ini_type" source_ini = None ->
  let p := kind_count "print" source_ini in
  let f := kind_count "filament" source_ini in
  let r := kind_count "printer" source_ini in
  ((p < 10 /\ f < 10 /\ r < 10)%nat -> detect_ini_type source_ini = None)
  /\ (~ (p < 10 /\ f < 10 /\ r < 10)%nat ->
      exists kind,
        detect_ini_type source_ini = Some kind
        /\ In kind ["print"; "filament"; "printer"]
        /\ kind_count kind source_ini = Nat.max p (Nat.max f r))
  /\ ((10 <= f)%nat -> (p < 10)%nat -> (r < 10)%nat ->
      detect_ini_type source_ini = Some "filament").
Proof.
  intros H p f r. rewrite (detect_unmarked _ H). cbv zeta. fold p f r.
  assert (Ep : kind_count "print" source_ini = p) by reflexivity.
  assert (Ef : kind_count "filament" source_ini = f) by reflexivity.
  assert (Er : kind_count "printer" source_ini = r) by reflexivity.
  clearbody p f r.
  split; [|split].
  - intros (Hp & Hf & Hr). count_cases; (reflexivity || lia).
  - intro N.
    count_cases; try lia;
      match goal with
      | |- exists _, Some ?k = _ /\ _ => exists k
      end;
      (split; [reflexivity|]);
      (split; [cbn [In]; tauto|]);
      rewrite ?Ep, ?Ef, ?Er; lia.
  - intros Hf Hp Hr. count_cases; (reflexivity || lia).
Qed.

(** C10.  When several kinds reach the highest count the detector takes
    the first of them in the order print, filament, printer.  The table of
    the physical printer is not counted, so detection by counts never
    answers [physical_printer]; an [ini_type] marker does. *)
Theorem detect_tie_break (source_ini : ini) :
  (Dict.get "ini_type" source_ini = None ->
   let p := kind_count "print" source_ini in
   let f := kind_count "filament" source_ini in
   let r := kind_count "printer" source_ini in
   ~ (p < 10 /\ f < 10 /\ r < 10)%nat ->
   ((f <= p)%nat -> (r <= p)%nat -> detect_ini_type source_ini = Some "print")
   /\ ((p < f)%nat -> (r <= f)%nat -> detect_ini_type source_ini = Some "filament")
   /\ ((p < r)%nat -> (f < r)%nat -> detect_ini_type source_ini = Some "printer"))
  /\ (Dict.get "ini_type" source_ini = None ->
      detect_ini_type source_ini <> Some "physical_printer")
  /\ Dict.get "physical_printer" (type_counts source_ini) = None
  /\ (Dict.get "ini_type" source_ini = Some "physical_printer" ->
      detect_ini_type source_ini = Some "physical_printer").
Proof.
  split; [|split; [|split]].
  - intros H p f r N. rewrite (detect_unmarked _ H). cbv zeta. fold p f r.
    clearbody p f r.
    repeat split; intros; count_cases; (reflexivity || lia).
  - intro H. rewrite (detect_unmarked _ H). cbv zeta.
    generalize (kind_count "print" source_ini),
      (kind_count "filament" source_ini), (kind_count "printer" source_ini).
    intros p f r. count_cases; discriminate.
  - reflexivity.
  - intro H. unfold detect_ini_type. now rewrite H.
Qed.

(** C4 at the filament profile of the examples: twelve keys of the
    filament table, one of the print table, none of the printer table. *)
Lemma detect_by_counts_at_filament_profile :
  Dict.get "ini_type" filament_profile = None
  /\ kind_count "filament" filament_profile = 12%nat
  /\ detect_ini_type filament_profile = Some "filament".
Proof.
  assert (H : Dict.get "ini_type" filament_profile = None)
    by (vm_compute; reflexivity).
  split; [exact H|]. split; [vm_compute; reflexivity|].
  destruct (detect_by_counts filament_profile H) as (_ & _ & F).
  apply F; vm_compute; repeat constructor.
Defined.

(** C4, as the specification states it, fails: the mapping of the ten keys
    of the physical printer table has the count 10 for that kind, not below
    the threshold and the highest of the four, yet the detector answers
    [None] and not the physical printer. *)
Lemma ten_physical_printer_keys_are_unknown :
  Dict.get "ini_type" physical_printer_profile = None
  /\ kind_count "physical_printer" physical_printer_profile = 10%nat
  /\ kind_count "print" physical_printer_profile = 0%nat
  /\ kind_count "filament" physical_printer_profile = 0%nat
  /\ kind_count "printer" physical_printer_profile = 2%nat
  /\ detect_ini_type physical_printer_profile = None
  /\ detect_ini_type physical_printer_profile <> Some "physical_printer".
Proof.
  repeat split; try (vm_compute; reflexivity). vm_compute. discriminate.
Qed.

(** C10 at a mapping where print and filament tie with ten keys each: the
    detector answers print. *)
Lemma detect_tie_break_at_tied_profile :
  kind_count "print" tied_profile = 10%nat
  /\ kind_count "filament" tied_profile = 10%nat
  /\ detect_ini_type tied_profile = Some "print".
Proof.
  split; [vm_compute; reflexivity|]. split; [vm_compute; reflexivity|].
  destruct (detect_tie_break tied_profile) as (T & _).
  assert (H : Dict.get "ini_type" tied_profile = None)
    by (vm_compute; reflexivity).
  destruct (T H) as (P & _).
  - vm_compute. lia.
  - apply P; vm_compute; repeat constructor.
Defined.

(** ** The order of floats and the running maximum *)

Lemma ltb_irrefl (x : F64.t) : F64.ltb x x = false.
Proof.
  unfold F64.ltb, SFltb.
  destruct x as [[]|[]| |[] m e]; simpl; try reflexivity;
    rewrite Z.compare_refl, Pos.compare_cont_refl; reflexivity.
Qed.

Lemma compare_cont_lt_trans (a b c : positive) :
  Pos.compare_cont Eq a b = Lt -> Pos.compare_cont Eq b c = Lt ->
  Pos.compare_cont Eq a c = Lt.
Proof.
  change (Pos.compare_cont Eq) with Pos.compare.
  rewrite !Pos.compare_lt_iff. lia.
Qed.

Lemma compare_cont_gt_trans (a b c : positive) :
  Pos.compare_cont Eq a b = Gt -> Pos.compare_cont Eq b c = Gt ->
  Pos.compare_cont Eq a c = Gt.
Proof.
  change (Pos.compare_cont Eq) with Pos.compare.
  rewrite !Pos.compare_gt_iff. lia.
Qed.

(** The order by exponent and mantissa is transitive, upwards and downwards. *)
Lemma lex_lt_trans e1 m1 e2 m2 e3 m3 :
  lex e1 m1 e2 m2 = Lt -> lex e2 m2 e3 m3 = Lt -> lex e1 m1 e3 m3 = Lt.
Proof.
  unfold lex.
  destruct (Z.compare_spec e1 e2), (Z.compare_spec e2 e3); try discriminate;
    subst; intros A B.
  - rewrite Z.compare_refl. eapply compare_cont_lt_trans; eassumption.
  - destruct (Z.compare_spec e2 e3); try lia. reflexivity.
  - destruct (Z.compare_spec e1 e3); try lia. reflexivity.
  - destruct (Z.compare_spec e1 e3); try lia. reflexivity.
Qed.

Lemma lex_gt_trans e1 m1 e2 m2 e3 m3 :
  lex e1 m1 e2 m2 = Gt -> lex e2 m2 e3 m3 = Gt -> lex e1 m1 e3 m3 = Gt.
Proof.
  unfold lex.
  destruct (Z.compare_spec e1 e2), (Z.compare_spec e2 e3); try discriminate;
    subst; intros A B.
  - rewrite Z.compare_refl. eapply compare_cont_gt_trans; eassumption.
  - destruct (Z.compare_spec e2 e3); try lia. reflexivity.
  - destruct (Z.compare_spec e1 e3); try lia. reflexivity.
  - destruct (Z.compare_spec e1 e3); try lia. reflexivity.
Qed.

(** The comparison of two negative finite floats is the opposite of [lex]. *)
Lemma lex_opp e1 m1 e2 m2 :
  match Z.compare e1 e2 with
  | Lt => Gt
  | Gt => Lt
  | Eq => CompOpp (Pos.compare_cont Eq m1 m2)
  end = CompOpp (lex e1 m1 e2 m2).
Proof. unfold lex. now destruct (Z.compare e1 e2). Qed.

(** [<] on floats is transitive; with a NaN on a side it does not hold at all. *)
Lemma ltb_trans (x y z : F64.t) :
  F64.ltb x y = true -> F64.ltb y z = true -> F64.ltb x z = true.
Proof.
  unfold F64.ltb, SFltb.
  destruct x as [[]|[]| |[] m1 e1], y as [[]|[]| |[] m2 e2],
           z as [[]|[]| |[] m3 e3]; simpl; try discriminate; try reflexivity.
  - rewrite !lex_opp.
    destruct (lex e1 m1 e2 m2) eqn:A; try discriminate.
    destruct (lex e2 m2 e3 m3) eqn:B; try discriminate.
    now rewrite (lex_gt_trans _ _ _ _ _ _ A B).
  - fold (lex e1 m1 e2 m2) (lex e2 m2 e3 m3) (lex e1 m1 e3 m3).
    destruct (lex e1 m1 e2 m2) eqn:A; try discriminate.
    destruct (lex e2 m2 e3 m3) eqn:B; try discriminate.
    now rewrite (lex_lt_trans _ _ _ _ _ _ A B).
Qed.

(** The running maximum is not below its start. *)
Lemma bumps_above (ts : list F64.t) (m x : F64.t) :
  F64.ltb (bumps ts m) x = true -> F64.ltb m x = true.
Proof.
  revert m. induction ts as [|t r IH]; intros m H; [exact H|].
  simpl in H. apply IH in H.
  destruct (F64.ltb m t) eqn:E; [|exact H].
  eapply ltb_trans; eassumption.
Qed.

(** No temperature that was seen is above the running maximum. *)
Lemma bumps_covers (ts : list F64.t) (m t : F64.t) :
  In t ts -> F64.ltb (bumps ts m) t = false.
Proof.
  revert m. induction ts as [|u r IH]; intros m I; [destruct I|].
  destruct I as [->|I].
  - simpl. destruct (F64.ltb (bumps r _) t) eqn:E; [|reflexivity].
    apply bumps_above in E.
    destruct (F64.ltb m t) eqn:F; [now rewrite ltb_irrefl in E | congruence].
  - simpl. now apply IH.
Qed.

(** A maximum that nothing exceeds stays. *)
Lemma bumps_fixed (ts : list F64.t) (m : F64.t) :
  (forall t, In t ts -> F64.ltb m t = false) -> bumps ts m = m.
Proof.
  induction ts as [|u r IH]; intro H; [reflexivity|].
  simpl. rewrite (H u (or_introl eq_refl)). apply IH.
  intros t I. apply H. now right.
Qed.

(** Seeing the same temperatures again does not move the maximum. *)
Lemma bumps_idem (ts : list F64.t) (m : F64.t) :
  bumps ts (bumps ts m) = bumps ts m.
Proof. apply bumps_fixed. intros t I. now apply bumps_covers. Qed.

Lemma bumps_app (ts us : list F64.t) (m : F64.t) :
  bumps (ts ++ us) m = bumps us (bumps ts m).
Proof. apply fold_left_app. Qed.

(** ** Two conversions side by side *)

Lemma coupled_keep a b r : coupled a b (r, a) (r, b).
Proof. split; [reflexivity|]. now exists Keep. Qed.

Ltac coupled_leaf :=
  first
    [ apply coupled_keep
    | split; [reflexivity|]; eexists (SetIroning _); split; reflexivity
    | split; [reflexivity|]; eexists (PutSupport _ _); split; reflexivity ].

Ltac coupled_split :=
  lazymatch goal with
  | |- coupled _ _ (if ?c then _ else _) _ => destruct c
  | |- coupled _ _ (match ?c with Some _ => _ | None => _ end) _ => destruct c
  | |- coupled _ _ (match ?c with Ok _ => _ | Raise => _ end) _ => destruct c
  | |- coupled _ _ (match ?c with nil => _ | cons _ _ => _ end) _ => destruct c
  | |- coupled _ _ (let (_, _) := ?c in _) _ => destruct c
  end.

(** The rules read the converter through its view only: from two converters with
    the same view they return the same value and make the same change. *)
Lemma rules_coupled (p v : string) (src : ini) (a b : converter) :
  view a = view b ->
  coupled a b (convert_rules p v src a) (convert_rules p v src b).
Proof.
  intro V. injection V as Hf Hn Hh.
  unfold convert_rules, flavor_or_prusa, status_value, new_hash_get.
  rewrite Hf, Hn, Hh.
  repeat coupled_split; coupled_leaf.
Qed.

Lemma params_coupled (p : string) (src : ini) (a b : converter) :
  view a = view b ->
  coupled a b (convert_params p src a) (convert_params p src b).
Proof.
  intro V. unfold convert_params.
  destruct (Dict.get p src) as [raw|]; [|apply coupled_keep].
  destruct (raw =? "nil")%string; [apply coupled_keep|].
  destruct (Dict.get p MULTIVALUE_PARAMS) as [[]|];
    try apply coupled_keep; now apply rules_coupled.
Qed.

Lemma tracked_refl c : tracked no_delta c c.
Proof. repeat split. Qed.

(** Tracker changes compose. *)
Lemma tracked_trans d e c c' c'' :
  tracked d c c' -> tracked e c' c'' -> tracked (then_delta d e) c c''.
Proof.
  intros (A1 & A2 & A3 & A4 & A5) (B1 & B2 & B3 & B4 & B5).
  unfold tracked, then_delta; simpl.
  rewrite bumps_app, B1, A1, B2, A2, B3, A3, B4, A4, B5, A5.
  repeat split. now destruct (iron e).
Qed.

Lemma paired_trans a b a' b' a'' b'' :
  paired a b a' b' -> paired a' b' a'' b'' -> paired a b a'' b''.
Proof.
  intros (_ & d & Ta & Tb) (V & e & Ua & Ub). split; [exact V|].
  exists (then_delta d e). split; eapply tracked_trans; eassumption.
Qed.

Lemma paired_refl a b : view a = view b -> paired a b a b.
Proof. intro V. split; [exact V|]. exists no_delta. split; apply tracked_refl. Qed.

(** The change of a rule keeps two converters paired. *)
Lemma effect_paired e a b :
  view a = view b -> paired a b (apply_effect e a) (apply_effect e b).
Proof.
  intro V. injection V as Hf Hn Hh. split.
  - destruct e; unfold view; simpl; now rewrite ?Hf, ?Hn, ?Hh.
  - exists (effect_delta e). destruct e; split; repeat split.
Qed.

Lemma put_paired k v a b :
  view a = view b -> paired a b (put k v a) (put k v b).
Proof.
  intro V. injection V as Hf Hn Hh. split.
  - unfold view; simpl. now rewrite Hf, Hn, Hh.
  - exists no_delta. split; repeat split.
Qed.

Lemma write_target_paired t v a b :
  view a = view b -> paired a b (write_target t v a) (write_target t v b).
Proof.
  intro V. destruct t as [k|ks|]; simpl.
  - now apply put_paired.
  - revert a b V. induction ks as [|k r IH]; intros a b V; simpl.
    + now apply paired_refl.
    + eapply paired_trans; [apply (put_paired k v a b V)|].
      apply IH. apply (put_paired k v a b V).
  - injection V as Hf Hn Hh. split.
    + unfold view; simpl. now rewrite Hf, Hn, Hh.
    + exists no_delta. split; repeat split.
Qed.

(** Tracking a temperature sees the same temperature on both sides. *)
Lemma track_max_temp_paired p v a b :
  view a = view b -> run_paired a b (track_max_temp p v a) (track_max_temp p v b).
Proof.
  intro V. unfold track_max_temp.
  assert (Q : run_paired a b (Done a) (Done b))
    by (split; [exact I | now apply paired_refl]).
  assert (B : forall s,
             paired a b
               match F64.float s with
               | Some temp => if F64.ltb (max_temp a) temp then set_max_temp temp a else a
               | None => a
               end
               match F64.float s with
               | Some temp => if F64.ltb (max_temp b) temp then set_max_temp temp b else b
               | None => b
               end).
  { intro s. destruct (F64.float s) as [temp|]; [|now apply paired_refl].
    injection V as Hf Hn Hh. split.
    - destruct (F64.ltb (max_temp a) temp), (F64.ltb (max_temp b) temp);
        unfold view; simpl; now rewrite Hf, Hn, Hh.
    - exists {| temps := [temp]; iron := None |}.
      split; unfold tracked, bumps; simpl;
        [destruct (F64.ltb (max_temp a) temp) | destruct (F64.ltb (max_temp b) temp)];
        repeat split. }
  destruct (mem_str p _); [|exact Q].
  destruct v as [s|[|x l]].
  - split; [exact I | apply B].
  - split; [exact I | now apply paired_refl].
  - split; [exact I | apply B].
Qed.

Lemma run_paired_trans a b a' b' x y :
  paired a b a' b' -> run_paired a' b' x y -> run_paired a b x y.
Proof. intros P (T & Q). split; [exact T|]. eapply paired_trans; eassumption. Qed.

Lemma coupled_paired a b x y :
  view a = view b -> coupled a b x y ->
  fst x = fst y /\ paired a b (snd x) (snd y).
Proof.
  intros V (E & e & Xa & Yb). split; [exact E|].
  rewrite Xa, Yb. now apply effect_paired.
Qed.

(** One turn of the loop over the parameters, side by side. *)
Lemma profile_step_paired pm src p a b :
  view a = view b ->
  run_paired a b (profile_step pm src (Done a) p) (profile_step pm src (Done b) p).
Proof.
  intro V. unfold profile_step.
  assert (Q : run_paired a b (Done a) (Done b))
    by (split; [exact I | now apply paired_refl]).
  destruct (p =? "profile_name")%string; [exact Q|].
  destruct (Dict.get p pm) as [t|]; [|exact Q].
  destruct (coupled_paired _ _ _ _ V (params_coupled p src a b V)) as (E & P).
  destruct (convert_params p src a) as [ra a'], (convert_params p src b) as [rb b'].
  simpl in E, P. subst rb.
  destruct ra as [[v|]|].
  - eapply run_paired_trans; [exact P|].
    eapply run_paired_trans; [apply write_target_paired, P|].
    apply track_max_temp_paired. apply (write_target_paired t v a' b'), P.
  - split; [exact I | exact P].
  - split; [exact I | exact P].
Qed.

(** One turn of the loop over the speeds, side by side. *)
Lemma speed_step_paired src p a b :
  view a = view b ->
  run_paired a b (speed_step src (Done a) p) (speed_step src (Done b) p).
Proof.
  intro V. unfold speed_step.
  destruct (negb _); [split; [exact I | now apply paired_refl]|].
  destruct (coupled_paired _ _ _ _ V (params_coupled p src a b V)) as (E & P).
  destruct (convert_params p src a) as [ra a'], (convert_params p src b) as [rb b'].
  simpl in E, P. subst rb.
  destruct ra as [[v|]|]; try (split; [exact I | exact P]).
  destruct (Dict.get p SPEED_PARAMS) as [k|]; [|split; [exact I | exact P]].
  split; [exact I|]. eapply paired_trans; [exact P|].
  apply put_paired, P.
Qed.

(** A loop of steps that keep a failure as it is. *)
Lemma fold_paired (step : run -> string -> run) (keys : list string) :
  (forall c p, step (Failed c) p = Failed c) ->
  (forall a b p, view a = view b ->
                 run_paired a b (step (Done a) p) (step (Done b) p)) ->
  forall a b x y,
    run_paired a b x y ->
    run_paired a b (fold_left step keys x) (fold_left step keys y).
Proof.
  intros F S. induction keys as [|p r IH]; intros a b x y R; [exact R|].
  simpl. apply IH. destruct R as (T & P).
  destruct x as [c|c], y as [c'|c']; try contradiction; simpl in P.
  - eapply run_paired_trans; [exact P|]. apply S, P.
  - rewrite !F. split; [exact I | exact P].
Qed.

Lemma paired_put a b a' b' k v :
  paired a b a' b' -> paired a b (put k v a') (put k v b').
Proof. intro P. eapply paired_trans; [exact P | apply put_paired, P]. Qed.

Lemma add_metadata_paired kind name a b a' b' :
  paired a b a' b' ->
  paired a b (add_metadata kind name a') (add_metadata kind name b').
Proof. intro P. unfold add_metadata. now repeat apply paired_put. Qed.

Lemma view_new_hash a b : view a = view b -> new_hash a = new_hash b.
Proof. now intros [= _ _ H]. Qed.

Lemma view_flavor a b : view a = view b -> slicer_flavor a = slicer_flavor b.
Proof. now intros [= H _ _]. Qed.

Lemma run_paired_result kind name a b x y :
  run_paired a b x y -> result_of kind name x = result_of kind name y.
Proof.
  intros (T & V & _). destruct x, y; try contradiction; simpl in *;
    [now rewrite (view_new_hash _ _ V) | reflexivity].
Qed.

(** The filament fields agree when the two maxima agree. *)
Lemma filament_params_paired src a b a' b' :
  paired a b a' b' -> max_temp a' = max_temp b' ->
  run_paired a b (filament_params src a') (filament_params src b').
Proof.
  intros P M. unfold filament_params.
  change (max_temp (put "nozzle_temperature_range_low" (Str "0") a'))
    with (max_temp a').
  change (max_temp (put "nozzle_temperature_range_low" (Str "0") b'))
    with (max_temp b').
  rewrite <- M.
  destruct (F64.int (max_temp a')); try (split; [exact I | now apply paired_put]).
  destruct (Dict.get _ src) as [v|];
    [destruct (F64.float v)|]; (split; [exact I | now repeat apply paired_put]).
Qed.


Lemma tracked_then_quiet d c c' c'' :
  tracked d c c' -> tracked no_delta c' c'' -> tracked d c c''.
Proof.
  intros (A1 & A2 & A3 & A4 & A5) (B1 & B2 & B3 & B4 & B5).
  unfold tracked in *; simpl in *.
  now rewrite B1, B2, B3, B4, B5.
Qed.

Lemma put_quiet k v c : tracked no_delta c (put k v c).
Proof. repeat split. Qed.

Lemma filament_params_quiet src c :
  tracked no_delta c (converter_of (filament_params src c)).
Proof.
  unfold filament_params.
  destruct (F64.int _); try apply put_quiet.
  destruct (Dict.get _ src) as [v|]; [destruct (F64.float v)|]; repeat split.
Qed.

Lemma write_overhang_quiet speeds c : tracked no_delta c (write_overhang speeds c).
Proof. repeat split. Qed.

(** The derived print fields only assign to the record. *)
Lemma derived_quiet src c : tracked no_delta c (derived_print_fields src c).
Proof.
  unfold derived_print_fields.
  destruct (_ =? _)%string; [destruct (_ <=? _)%nat|]; repeat split.
Qed.

(** The derived print fields agree when the two ironing trackers agree. *)
Lemma derived_view src a b :
  view a = view b -> ironing_type a = ironing_type b ->
  view (derived_print_fields src a) = view (derived_print_fields src b).
Proof.
  intros V E. injection V as Hf Hn Hh.
  destruct a, b; simpl in Hf, Hn, Hh, E; subst.
  unfold view, derived_print_fields, overhang_speeds, flavor_is, write_overhang,
    put, set_new_hash.
  destruct (_ =? _)%string;
    cbn [slicer_flavor nozzle_size new_hash ironing_type fold_left combine seq fst snd];
    [destruct (Nat.leb _ _)|];
    cbn [slicer_flavor nozzle_size new_hash ironing_type fold_left combine seq fst snd];
    reflexivity.
Qed.

Lemma over_over o i : over o (over o i) = over o i.
Proof. now destruct o. Qed.

(** The second half of the conversion, side by side from two converters with
    the same view: the same tracker changes on both sides, and the same
    result as soon as the maxima and the ironing types they lead to agree. *)
Lemma convert_body_pair kind name src a b :
  view a = view b ->
  exists d,
    tracked d a (snd (convert_body kind name src a))
    /\ tracked d b (snd (convert_body kind name src b))
    /\ (bumps (temps d) (max_temp a) = bumps (temps d) (max_temp b) ->
        over (iron d) (ironing_type a) = over (iron d) (ironing_type b) ->
        fst (convert_body kind name src a) = fst (convert_body kind name src b)).
Proof.
  intro V. unfold convert_body.
  set (pm := Dict.get_default kind [] PARAMETER_MAP).
  assert (L : run_paired a b
                (fold_left (profile_step pm src) (Dict.keys src) (Done a))
                (fold_left (profile_step pm src) (Dict.keys src) (Done b))).
  { apply fold_paired.
    - reflexivity.
    - intros; now apply profile_step_paired.
    - split; [exact I | now apply paired_refl]. }
  destruct L as (T & P).
  destruct (fold_left _ _ (Done a)) as [la|la], (fold_left _ _ (Done b)) as [lb|lb];
    try contradiction; simpl in P.
  2: { destruct P as (_ & d & Ta & Tb). exists d.
       split; [exact Ta | split; [exact Tb | reflexivity]]. }
  apply (add_metadata_paired kind name) in P.
  set (ma := add_metadata kind name la) in *.
  set (mb := add_metadata kind name lb) in *.
  destruct P as (W & d & Ta & Tb).
  destruct (kind =? "filament")%string.
  { exists d. split; [|split].
    - pose proof (filament_params_quiet src ma) as Q.
      destruct (filament_params src ma); eapply tracked_then_quiet; eassumption.
    - pose proof (filament_params_quiet src mb) as Q.
      destruct (filament_params src mb); eapply tracked_then_quiet; eassumption.
    - intros M _.
      assert (M' : max_temp ma = max_temp mb).
      { destruct Ta as (A & _), Tb as (B & _). now rewrite A, B. }
      pose proof (filament_params_paired src ma mb ma mb (paired_refl _ _ W) M') as R.
      pose proof (run_paired_result kind name _ _ _ _ R) as E.
      destruct (filament_params src ma), (filament_params src mb); exact E. }
  destruct (kind =? "print")%string.
  2: { exists d. split; [exact Ta|split; [exact Tb|]].
       intros _ _. cbn [fst]. f_equal. exact (view_new_hash _ _ W). }
  unfold calculate_print_params.
  assert (S : run_paired ma mb (fold_left (speed_step src) SPEED_SEQUENCE (Done ma))
                              (fold_left (speed_step src) SPEED_SEQUENCE (Done mb))).
  { apply fold_paired.
    - reflexivity.
    - intros; now apply speed_step_paired.
    - split; [exact I | now apply paired_refl]. }
  destruct S as (T' & W' & e & Ua & Ub).
  pose proof (tracked_trans _ _ _ _ _ Ta Ua) as Xa.
  pose proof (tracked_trans _ _ _ _ _ Tb Ub) as Xb.
  exists (then_delta d e).
  destruct (fold_left _ _ (Done ma)) as [xa|xa], (fold_left _ _ (Done mb)) as [xb|xb];
    try contradiction; cbn [converter_of] in W', Xa, Xb; cbn [fst snd].
  2: { split; [exact Xa | split; [exact Xb | reflexivity]]. }
  split; [|split].
  - eapply tracked_then_quiet; [exact Xa | apply derived_quiet].
  - eapply tracked_then_quiet; [exact Xb | apply derived_quiet].
  - intros _ E. f_equal.
    apply view_new_hash, derived_view; [exact W'|].
    destruct Xa as (_ & A & _), Xb as (_ & B & _).
    now rewrite A, B.
Qed.

(** ** Converting the same file again *)

Lemma fold_ini_line (lines : list string) (cfg : ini) (fl : option string) :
  fold_left ini_line lines (cfg, fl) =
  (fst (fold_left ini_line lines (cfg, None)),
   over (snd (fold_left ini_line lines (cfg, None))) fl).
Proof.
  revert cfg fl. induction lines as [|line r IH]; intros cfg fl; [reflexivity|].
  cbn [fold_left].
  assert (S : (ini_line (cfg, fl) line = ini_line (cfg, None) line
               /\ exists tok, ini_line (cfg, None) line = (cfg, Some tok))
              \/ exists c', ini_line (cfg, fl) line = (c', fl)
                            /\ ini_line (cfg, None) line = (c', None)).
  { unfold ini_line; cbn [fst snd].
    destruct (generated_by line) as [tok|];
      [left; split; [reflexivity | now exists tok]|right].
    destruct (blank_or_comment line); [exists cfg; split; reflexivity|].
    destruct (Py.split_once "=" line) as [[k v]|]; eexists; split; reflexivity. }
  destruct S as [(E & tok & Et)|(c' & E1 & E2)].
  - rewrite E, Et, (IH cfg (Some tok)). cbn [fst snd].
    now destruct (snd (fold_left ini_line r (cfg, None))).
  - rewrite E1, E2. apply IH.
Qed.

Lemma ini_reader_eq (content : string) (self : converter) :
  ini_reader content self =
  (fst (read_lines content),
   set_slicer_flavor (over (snd (read_lines content)) (slicer_flavor self)) self).
Proof. unfold ini_reader, read_lines. now rewrite fold_ini_line. Qed.

Lemma set_flavor_same (c : converter) : set_slicer_flavor (slicer_flavor c) c = c.
Proof. now destruct c. Qed.

(** [track_to_var] assigns to [to_var] only. *)
Lemma track_to_var_fields src c :
  slicer_flavor (track_to_var src c) = slicer_flavor c
  /\ ini_type (track_to_var src c) = ini_type c
  /\ nozzle_size (track_to_var src c) = nozzle_size c
  /\ max_temp (track_to_var src c) = max_temp c
  /\ ironing_type (track_to_var src c) = ironing_type c
  /\ new_hash (track_to_var src c) = new_hash c.
Proof.
  unfold track_to_var. cbn [fold_left].
  destruct (Dict.get "external_perimeters_first" src);
    destruct (Dict.get "infill_first" src);
    destruct (Dict.get "ironing" src); repeat split.
Qed.

Lemma choose_nozzle_size_fields src arg kind c :
  slicer_flavor (choose_nozzle_size src arg kind c) = slicer_flavor c
  /\ ini_type (choose_nozzle_size src arg kind c) = ini_type c
  /\ nozzle_size (choose_nozzle_size src arg kind c)
     = match chosen_nozzle_size src arg kind with
       | Some n => n
       | None => nozzle_size c
       end
  /\ max_temp (choose_nozzle_size src arg kind c) = max_temp c
  /\ ironing_type (choose_nozzle_size src arg kind c) = ironing_type c.
Proof.
  unfold choose_nozzle_size, chosen_nozzle_size.
  destruct (Dict.get "nozzle_diameter" src) as [d|].
  - destruct (multivalue_to_array (Some d)); repeat split.
  - destruct (Py.truthy arg); [repeat split|].
    destruct (Dict.get "layer_height" src) as [h|]; [|repeat split].
    destruct (kind =? "print")%string; [|repeat split].
    destruct (F64.float h); repeat split.
Qed.

(** The converter at the start of the loop over the parameters. *)
Lemma prepare_fields src arg kind name c :
  slicer_flavor (prepare src arg kind name c) = slicer_flavor c
  /\ ini_type (prepare src arg kind name c) = Some kind
  /\ nozzle_size (prepare src arg kind name c)
     = match chosen_nozzle_size src arg kind with
       | Some n => n
       | None => nozzle_size c
       end
  /\ max_temp (prepare src arg kind name c) = max_temp c
  /\ ironing_type (prepare src arg kind name c) = ironing_type c
  /\ new_hash (prepare src arg kind name c) = [].
Proof.
  unfold prepare.
  destruct (track_to_var_fields src
              (set_new_hash []
                 (choose_nozzle_size src arg kind
                    (set_profile_name (Some name) (set_ini_type (Some kind) c)))))
    as (A1 & A2 & A3 & A4 & A5 & A6).
  destruct (choose_nozzle_size_fields src arg kind
              (set_profile_name (Some name) (set_ini_type (Some kind) c)))
    as (B1 & B2 & B3 & B4 & B5).
  rewrite A1, A2, A3, A4, A5, A6. cbn [slicer_flavor ini_type nozzle_size max_temp ironing_type new_hash set_new_hash].
  rewrite B1, B2, B3, B4, B5. repeat split.
Qed.

(** A conversion is refused with the converter untouched, or runs its second
    half on the prepared converter. *)
Lemma convert_parsed_cases stem src arg s0 :
  convert_parsed stem src arg s0 = (Unsupported stem, s0)
  \/ exists kind,
       (kind =? "")%string = false
       /\ Py.truthy (slicer_flavor s0) = true
       /\ convert_parsed stem src arg s0
          = convert_body kind (Dict.get_default "profile_name" stem src) src
              (prepare src arg kind (Dict.get_default "profile_name" stem src) s0).
Proof.
  unfold convert_parsed.
  destruct (Py.truthy (slicer_flavor s0)); [|now left]. cbn [negb].
  destruct (if Py.truthy (ini_type s0) then ini_type s0 else detect_ini_type src)
    as [kind|]; [|now left].
  destruct (kind =? "")%string eqn:K; [now left|].
  right. exists kind. now rewrite K.
Qed.

(** With a flavor and a kind in the converter the second half runs for that kind. *)
Lemma convert_parsed_pinned stem src arg kind c :
  Py.truthy (slicer_flavor c) = true ->
  ini_type c = Some kind -> (kind =? "")%string = false ->
  convert_parsed stem src arg c
  = convert_body kind (Dict.get_default "profile_name" stem src) src
      (prepare src arg kind (Dict.get_default "profile_name" stem src) c).
Proof.
  intros F I K. unfold convert_parsed. rewrite F, I. cbn [negb Py.truthy].
  rewrite K. cbn [negb]. now rewrite K.
Qed.

(** The flavor survives a conversion, and so does the outcome of the next one. *)
Lemma convert_parsed_again stem src arg (s0 : converter) :
  slicer_flavor (snd (convert_parsed stem src arg s0)) = slicer_flavor s0
  /\ fst (convert_parsed stem src arg (snd (convert_parsed stem src arg s0)))
     = fst (convert_parsed stem src arg s0).
Proof.
  destruct (convert_parsed_cases stem src arg s0) as [U|(kind & K & F & C)].
  { rewrite U. cbn [snd]. now rewrite U. }
  rewrite C.
  set (name := Dict.get_default "profile_name" stem src) in *.
  set (s1 := prepare src arg kind name s0).
  destruct (prepare_fields src arg kind name s0) as (P1 & P2 & P3 & P4 & P5 & P6).
  fold s1 in P1, P2, P3, P4, P5, P6.
  set (c1 := snd (convert_body kind name src s1)).
  destruct (convert_body_pair kind name src s1 s1 eq_refl) as (d0 & T0 & _ & _).
  fold c1 in T0. destruct T0 as (_ & _ & Q3 & Q4 & Q5).
  split; [now rewrite Q3, P1|].
  rewrite (convert_parsed_pinned stem src arg kind c1);
    [|now rewrite Q3, P1 | now rewrite Q4, P2 | exact K].
  fold name.
  set (s2 := prepare src arg kind name c1).
  destruct (prepare_fields src arg kind name c1) as (R1 & R2 & R3 & R4 & R5 & R6).
  fold s2 in R1, R2, R3, R4, R5, R6.
  assert (V : view s1 = view s2).
  { unfold view. rewrite P1, P3, P6, R1, R3, R6, Q3, Q5, P1, P3.
    now destruct (chosen_nozzle_size src arg kind). }
  destruct (convert_body_pair kind name src s1 s2 V) as (d & Ta & _ & E).
  fold c1 in Ta. destruct Ta as (A1 & A2 & _).
  symmetry. apply E.
  - now rewrite R4, A1, bumps_idem.
  - now rewrite R5, A2, over_over.
Qed.

Lemma convert_profile_twice stem content arg self :
  fst (convert_profile stem content arg
         (snd (convert_profile stem content arg self)))
  = fst (convert_profile stem content arg self).
Proof.
  unfold convert_profile. rewrite !ini_reader_eq.
  set (src := fst (read_lines content)).
  set (fl := snd (read_lines content)).
  set (s0 := set_slicer_flavor (over fl (slicer_flavor self)) self).
  destruct (convert_parsed_again stem src arg s0) as (A & B).
  rewrite A. change (slicer_flavor s0) with (over fl (slicer_flavor self)).
  rewrite over_over.
  change (over fl (slicer_flavor self)) with (slicer_flavor s0).
  rewrite <- A, set_flavor_same. exact B.
Qed.

(** C9.  Converting the same document a second time, with the converter
    as the first conversion left it and the same nozzle size, returns what
    the first conversion returned: the same record, kind and name, or the
    same refusal or exception.  This holds from the parsed document on and
    from the text of the file on, for every kind and every state of the
    trackers, of the nozzle size and of the flavor before the first
    conversion. *)
Theorem conversion_repeats :
  (forall stem source_ini arg self,
      fst (convert_parsed stem source_ini arg
             (snd (convert_parsed stem source_ini arg self)))
      = fst (convert_parsed stem source_ini arg self))
  /\ (forall stem content arg self,
         fst (convert_profile stem content arg
                (snd (convert_profile stem content arg self)))
         = fst (convert_profile stem content arg self)).
Proof.
  split.
  - intros. apply convert_parsed_again.
  - intros. apply convert_profile_twice.
Qed.

(** ** The rules on percentages *)

Lemma is_percent_not_blank (s : string) : is_percent s = true -> s <> "".
Proof. intros H E. subst s. discriminate H. Qed.

Lemma float_not_blank (s : string) (x : F64.t) : F64.float s = Some x -> s <> "".
Proof. intros H E. subst s. discriminate H. Qed.

Lemma eqb_blank (s : string) : s <> "" -> (s =? "")%string = false.
Proof. intro N. now apply String.eqb_neq. Qed.

(** C1, as the code has it.  [percent_to_mm reference value] yields no
    result when an argument is absent or blank; otherwise a value that is
    not a percentage is returned as it is, trimmed; otherwise a reference
    that is itself a percentage, or not a number, yields no result;
    otherwise the result is the product of the reference and the hundredth
    of the percentage, computed on floats and printed as [str] prints a
    float.  So [percent_to_mm "0.4" "50%"] is ["0.2"],
    [percent_to_mm "0.4" "150%"] is ["0.6000000000000001"], and
    [percent_to_mm "50%" "150%"] has no result. *)
Theorem percent_to_mm_rule :
  (forall reference value,
      reference = None \/ value = None -> percent_to_mm reference value = None)
  /\ (forall r v,
         Py.strip r = "" \/ Py.strip v = "" ->
         percent_to_mm (Some r) (Some v) = None)
  /\ (forall r v,
         Py.strip r <> "" -> Py.strip v <> "" ->
         is_percent (Py.strip v) = false ->
         percent_to_mm (Some r) (Some v) = Some (Py.strip v))
  /\ (forall r v,
         Py.strip r <> "" ->
         is_percent (Py.strip v) = true -> is_percent (Py.strip r) = true ->
         percent_to_mm (Some r) (Some v) = None)
  /\ (forall r v,
         is_percent (Py.strip v) = true -> F64.float (Py.strip r) = None ->
         percent_to_mm (Some r) (Some v) = None)
  /\ (forall r v x p,
         is_percent (Py.strip v) = true -> is_percent (Py.strip r) = false ->
         F64.float (Py.strip r) = Some x ->
         F64.float (remove_percent (Py.strip v)) = Some p ->
         percent_to_mm (Some r) (Some v)
         = Some (F64.repr (F64.mul x (F64.div p (F64.of_Z 100)))))
  /\ percent_to_mm (Some "0.4") (Some "50%") = Some "0.2"
  /\ percent_to_mm (Some "0.4") (Some "150%") = Some "0.6000000000000001"
  /\ percent_to_mm (Some "50%") (Some "150%") = None.
Proof.
  repeat match goal with |- _ /\ _ => split end.
  - intros reference value [-> | ->]; [reflexivity | now destruct reference].
  - intros r v [E | E]; unfold percent_to_mm; rewrite E;
      [reflexivity | now rewrite orb_true_r].
  - intros r v Nr Nv P. unfold percent_to_mm.
    now rewrite (eqb_blank _ Nr), (eqb_blank _ Nv), P.
  - intros r v Nr Pv Pr. unfold percent_to_mm.
    now rewrite (eqb_blank _ Nr), (eqb_blank _ (is_percent_not_blank _ Pv)), Pv, Pr.
  - intros r v Pv F. unfold percent_to_mm.
    destruct (Py.strip r =? "")%string; [reflexivity|].
    rewrite (eqb_blank _ (is_percent_not_blank _ Pv)), Pv, F. cbn [orb negb].
    now destruct (is_percent (Py.strip r)).
  - intros r v x p Pv Pr Fr Fv. unfold percent_to_mm.
    now rewrite (eqb_blank _ (float_not_blank _ _ Fr)),
      (eqb_blank _ (is_percent_not_blank _ Pv)), Pv, Pr, Fr, Fv.
  - vm_compute. reflexivity.
  - vm_compute. reflexivity.
  - vm_compute. reflexivity.
Qed.

(** The rule at [0.4] and [150%], with each premise checked there. *)
Lemma percent_to_mm_rule_at_150 :
  is_percent (Py.strip "150%") = true
  /\ is_percent (Py.strip "0.4") = false
  /\ percent_to_mm (Some "0.4") (Some "150%")
     = Some (F64.repr (F64.mul (F64.of_decimal false 4 (-1))
                               (F64.div (F64.of_Z 150) (F64.of_Z 100)))).
Proof.
  split; [vm_compute; reflexivity|]. split; [vm_compute; reflexivity|].
  destruct percent_to_mm_rule as (_ & _ & _ & _ & _ & H & _).
  apply H; vm_compute; reflexivity.
Defined.

(** C1, as the specification states it, fails: the product of [0.4] and
    [1.5] on floats prints as [0.6000000000000001], not as [0.6]; and a
    value that is not a percentage is not returned when the reference is
    absent. *)
Lemma percent_to_mm_not_0_6 :
  percent_to_mm (Some "0.4") (Some "150%") <> Some "0.6"
  /\ is_percent "0.3" = false
  /\ percent_to_mm None (Some "0.3") <> Some "0.3".
Proof.
  split; [vm_compute; discriminate|].
  split; [vm_compute; reflexivity | discriminate].
Qed.

(** ** The rules that look a value up in a table *)

Lemma convert_params_plain p src self v :
  Dict.get p src = Some v -> (v =? "nil")%string = false ->
  Dict.get p MULTIVALUE_PARAMS = None ->
  convert_params p src self = convert_rules p v src self.
Proof. intros G N M. unfold convert_params. now rewrite G, N, M. Qed.

(** No rule of [convert_rules] names a parameter that carries a list. *)
Lemma array_params_have_no_rule p v src self :
  Dict.get p MULTIVALUE_PARAMS = Some array ->
  convert_rules p v src self = (Ok (Some (Str v)), self).
Proof.
  intro H.
  assert (I : In p (map fst (filter (fun e => match snd e with
                                               | array => true
                                               | single => false
                                               end) MULTIVALUE_PARAMS))).
  { revert H. generalize MULTIVALUE_PARAMS. intro l.
    induction l as [|[k m] r IH]; simpl; [discriminate|].
    destruct (String.eqb_spec p k).
    - intros [= ->]. subst. now left.
    - intro G. destruct m; [|right]; now apply IH. }
  cbv [MULTIVALUE_PARAMS filter map snd fst] in I. cbn [In] in I.
  repeat (destruct I as [<-|I]; [reflexivity|]). destruct I.
Qed.

Lemma get_default_absent {V : Type} (k : string) (d : V) (t : Dict.t string V) :
  Dict.get k t = None -> Dict.get_default k d t = d.
Proof. intro H. unfold Dict.get_default. now rewrite H. Qed.

(** C3, as the code has it.  For a source value other than [nil] that the
    table of the rule does not hold: the rules of the filament type, of
    the four infill patterns, of the thumbnail format and of the seam
    position pass the value through; the rules of the gcode flavor and of
    the host type give no result, so the key is dropped; the rule of the
    support pattern gives ["default"] and the rule of the support
    interface pattern gives ["auto"].  The value [nil] is dropped by every
    rule. *)
Theorem lookup_rules_on_unknown_values (source_ini : ini) (self : converter)
  (v : string) :
  v <> "nil" ->
  (Dict.get "filament_type" source_ini = Some v ->
   Dict.get v FILAMENT_TYPES = None ->
   convert_params "filament_type" source_ini self = (Ok (Some (Str v)), self))
  /\ (forall p,
         In p ["fill_pattern"; "top_fill_pattern"; "bottom_fill_pattern";
               "solid_fill_pattern"] ->
         Dict.get p source_ini = Some v ->
         Dict.get v INFILL_TYPES = None ->
         convert_params p source_ini self = (Ok (Some (Str v)), self))
  /\ (Dict.get "thumbnails_format" source_ini = Some v ->
      Dict.get v THUMBNAIL_FORMAT = None ->
      convert_params "thumbnails_format" source_ini self = (Ok (Some (Str v)), self))
  /\ (Dict.get "seam_position" source_ini = Some v ->
      Dict.get v SEAM_POSITIONS = None ->
      convert_params "seam_position" source_ini self = (Ok (Some (Str v)), self))
  /\ (Dict.get "gcode_flavor" source_ini = Some v ->
      Dict.get v GCODE_FLAVORS = None ->
      convert_params "gcode_flavor" source_ini self = (Ok None, self))
  /\ (Dict.get "host_type" source_ini = Some v ->
      Dict.get v HOST_TYPES = None ->
      convert_params "host_type" source_ini self = (Ok None, self))
  /\ (Dict.get "support_material_pattern" source_ini = Some v ->
      mem_str v SUPPORT_PATTERNS = false ->
      convert_params "support_material_pattern" source_ini self
      = (Ok (Some (Str "default")), self))
  /\ (Dict.get "support_material_interface_pattern" source_ini = Some v ->
      mem_str v INTERFACE_PATTERNS = false ->
      convert_params "support_material_interface_pattern" source_ini self
      = (Ok (Some (Str "auto")), self))
  /\ (forall p,
         Dict.get p source_ini = Some "nil" ->
         convert_params p source_ini self = (Ok None, self)).
Proof.
  intro N. apply String.eqb_neq in N.
  repeat match goal with |- _ /\ _ => split end.
  - intros G A. rewrite (convert_params_plain _ _ _ _ G N eq_refl).
    change (convert_rules "filament_type" v source_ini self)
      with (Ok (Some (Str (Dict.get_default v v FILAMENT_TYPES))), self).
    now rewrite (get_default_absent _ _ _ A).
  - intros p I G A. cbn [In] in I.
    repeat (destruct I as [<-|I];
            [rewrite (convert_params_plain _ _ _ _ G N eq_refl);
             match goal with
             | |- convert_rules ?q _ _ _ = _ =>
                 change (convert_rules q v source_ini self)
                   with (Ok (Some (Str (Dict.get_default v v INFILL_TYPES))), self)
             end;
             now rewrite (get_default_absent _ _ _ A)|]).
    destruct I.
  - intros G A. rewrite (convert_params_plain _ _ _ _ G N eq_refl).
    change (convert_rules "thumbnails_format" v source_ini self)
      with (Ok (Some (Str (Dict.get_default v v THUMBNAIL_FORMAT))), self).
    now rewrite (get_default_absent _ _ _ A).
  - intros G A. rewrite (convert_params_plain _ _ _ _ G N eq_refl).
    change (convert_rules "seam_position" v source_ini self)
      with (Ok (Some (Str (Dict.get_default v v SEAM_POSITIONS))), self).
    now rewrite (get_default_absent _ _ _ A).
  - intros G A. rewrite (convert_params_plain _ _ _ _ G N eq_refl).
    change (convert_rules "gcode_flavor" v source_ini self)
      with (Ok (option_map Str (Dict.get v GCODE_FLAVORS)), self).
    now rewrite A.
  - intros G A. rewrite (convert_params_plain _ _ _ _ G N eq_refl).
    change (convert_rules "host_type" v source_ini self)
      with (Ok (option_map Str (Dict.get v HOST_TYPES)), self).
    now rewrite A.
  - intros G A. rewrite (convert_params_plain _ _ _ _ G N eq_refl).
    change (convert_rules "support_material_pattern" v source_ini self)
      with (Ok (Some (Str (if mem_str v SUPPORT_PATTERNS then v else "default"))), self).
    now rewrite A.
  - intros G A. rewrite (convert_params_plain _ _ _ _ G N eq_refl).
    change (convert_rules "support_material_interface_pattern" v source_ini self)
      with (Ok (Some (Str (if mem_str v INTERFACE_PATTERNS then v else "auto"))), self).
    now rewrite A.
  - intros p G. unfold convert_params. now rewrite G.
Qed.

(** The rules at the unknown value [grbl]. *)
Lemma lookup_rules_at_grbl :
  "grbl" <> "nil"
  /\ convert_params "seam_position" [("seam_position", "grbl")] init
     = (Ok (Some (Str "grbl")), init)
  /\ convert_params "gcode_flavor" [("gcode_flavor", "grbl")] init
     = (Ok None, init)
  /\ convert_params "support_material_pattern"
       [("support_material_pattern", "grbl")] init
     = (Ok (Some (Str "default")), init).
Proof.
  assert (N : "grbl" <> "nil") by discriminate.
  split; [exact N|].
  split; [|split].
  - destruct (lookup_rules_on_unknown_values
                [("seam_position", "grbl")] init "grbl" N)
      as (_ & _ & _ & H & _).
    apply H; reflexivity.
  - destruct (lookup_rules_on_unknown_values
                [("gcode_flavor", "grbl")] init "grbl" N)
      as (_ & _ & _ & _ & H & _).
    apply H; reflexivity.
  - destruct (lookup_rules_on_unknown_values
                [("support_material_pattern", "grbl")] init "grbl" N)
      as (_ & _ & _ & _ & _ & _ & H & _).
    apply H; reflexivity.
Defined.

(** C3, as the specification states it, fails: a gcode flavor and a host
    type that their tables do not hold are not passed through, and neither
    is the value [nil] of a filament type. *)
Lemma unknown_gcode_flavor_is_dropped :
  Dict.get "grbl" GCODE_FLAVORS = None
  /\ fst (convert_params "gcode_flavor" [("gcode_flavor", "grbl")] init)
     <> Ok (Some (Str "grbl"))
  /\ Dict.get "grbl" HOST_TYPES = None
  /\ fst (convert_params "host_type" [("host_type", "grbl")] init)
     <> Ok (Some (Str "grbl"))
  /\ Dict.get "nil" FILAMENT_TYPES = None
  /\ fst (convert_params "filament_type" [("filament_type", "nil")] init)
     <> Ok (Some (Str "nil")).
Proof. repeat split; (reflexivity || (vm_compute; discriminate)). Qed.

(** ** The derived fields of a print profile *)

(** A conversion that returns a record of the kind [print] ends with the
    derived fields, computed with the flavor that the file gave. *)
Lemma convert_parsed_print stem src arg s0 data name c :
  convert_parsed stem src arg s0 = (Converted data "print" name, c) ->
  exists x,
    data = new_hash (derived_print_fields src x)
    /\ c = derived_print_fields src x
    /\ slicer_flavor x = slicer_flavor s0.
Proof.
  intro H.
  destruct (convert_parsed_cases stem src arg s0) as [U|(kind & K & F & C)];
    [rewrite U in H; discriminate|].
  rewrite C in H.
  set (nm := Dict.get_default "profile_name" stem src) in *.
  set (s1 := prepare src arg kind nm s0) in *.
  destruct (prepare_fields src arg kind nm s0) as (P1 & _).
  fold s1 in P1.
  destruct (convert_body_pair kind nm src s1 s1 eq_refl) as (d & T & _ & _).
  rewrite H in T. cbn [snd] in T. destruct T as (_ & _ & T3 & _).
  unfold convert_body in H.
  destruct (fold_left _ _ (Done s1)) as [l|l]; [|discriminate].
  destruct (kind =? "filament")%string eqn:Kf.
  { apply String.eqb_eq in Kf. subst kind.
    destruct (filament_params src _); [|discriminate].
    injection H as _ E _. discriminate E. }
  destruct (kind =? "print")%string eqn:Kp.
  2: { injection H as _ E _. subst kind. discriminate Kp. }
  unfold calculate_print_params in H.
  destruct (fold_left _ _ (Done (add_metadata _ _ _))) as [x|x]; [|discriminate].
  injection H as <- _ _ <-. exists x. split; [reflexivity|]. split; [reflexivity|].
  destruct (derived_quiet src x) as (_ & _ & Q & _).
  now rewrite <- Q, T3, P1.
Qed.

Lemma convert_profile_print stem content arg self data name c :
  convert_profile stem content arg self = (Converted data "print" name, c) ->
  exists x,
    data = new_hash (derived_print_fields (fst (ini_reader content self)) x)
    /\ slicer_flavor x = slicer_flavor c.
Proof.
  unfold convert_profile.
  destruct (ini_reader content self) as [src s0]. cbn [fst]. intro H.
  destruct (convert_parsed_print _ _ _ _ _ _ _ H) as (x & D & C & F).
  exists x. split; [exact D|].
  destruct (derived_quiet src x) as (_ & _ & Q & _). now rewrite C, Q.
Qed.

Lemma key_neq (a b : string) : (a =? b)%string = false -> KStr a <> KStr b.
Proof. intros E [= H]. subst. now rewrite String.eqb_refl in E. Qed.

(** Reading an entry of a record through assignments to other keys. *)
Ltac through_puts :=
  repeat first
    [ rewrite get_set_same; reflexivity
    | rewrite get_set_other by (apply key_neq; reflexivity) ].

Lemma derived_wall_infill_order src x :
  entry_of "wall_infill_order" (new_hash (derived_print_fields src x))
  = Some (Str (evaluate_print_order (flag "external_perimeters_first" src)
                                    (flag "infill_first" src))).
Proof.
  unfold entry_of, derived_print_fields, put, set_new_hash.
  cbn [new_hash]. through_puts.
Qed.

(** C7.  The print order phrase is one of four fixed phrases, one for each
    pair of the two booleans; a conversion that returns a print record has
    written the phrase of the two settings under [wall_infill_order], and
    with [external_perimeters_first = 0] and [infill_first = 1] the phrase
    is ["infill/inner wall/outer wall"]. *)
Theorem print_order_phrase :
  evaluate_print_order false false = "inner wall/outer wall/infill"
  /\ evaluate_print_order true false = "outer wall/inner wall/infill"
  /\ evaluate_print_order false true = "infill/inner wall/outer wall"
  /\ evaluate_print_order true true = "infill/outer wall/inner wall"
  /\ (forall e i, In (evaluate_print_order e i) print_orders)
  /\ (forall stem content arg self data name c,
         convert_profile stem content arg self
           = (Converted data "print" name, c) ->
         let source_ini := fst (ini_reader content self) in
         entry_of "wall_infill_order" data
         = Some (Str (evaluate_print_order
                        (flag "external_perimeters_first" source_ini)
                        (flag "infill_first" source_ini))))
  /\ (forall stem content arg self data name c,
         convert_profile stem content arg self
           = (Converted data "print" name, c) ->
         let source_ini := fst (ini_reader content self) in
         Dict.get "external_perimeters_first" source_ini = Some "0" ->
         Dict.get "infill_first" source_ini = Some "1" ->
         entry_of "wall_infill_order" data
         = Some (Str "infill/inner wall/outer wall")).
Proof.
  repeat match goal with |- _ /\ _ => split end; try reflexivity.
  - intros [] []; cbn; tauto.
  - intros stem content arg self data name c H source_ini.
    destruct (convert_profile_print _ _ _ _ _ _ _ H) as (x & -> & _).
    apply derived_wall_infill_order.
  - intros stem content arg self data name c H source_ini E I.
    destruct (convert_profile_print _ _ _ _ _ _ _ H) as (x & -> & _).
    fold source_ini. rewrite derived_wall_infill_order.
    unfold flag, Dict.get_default. now rewrite E, I.
Qed.

(** C7 at a print profile with [external_perimeters_first = 0] and
    [infill_first = 1]. *)
Lemma print_order_phrase_at_print_file :
  exists data name c,
    convert_profile "fine" (content (print_file "fine" "10,20,30,40")) None init
      = (Converted data "print" name, c)
    /\ entry_of "wall_infill_order" data
       = Some (Str "infill/inner wall/outer wall").
Proof.
  destruct (convert_profile "fine" (content (print_file "fine" "10,20,30,40"))
                            None init) as [r c] eqn:E.
  assert (R : exists data name, r = Converted data "print" name).
  { assert (F : fst (convert_profile "fine"
                       (content (print_file "fine" "10,20,30,40")) None init) = r)
      by (rewrite E; reflexivity).
    vm_compute in F. subst r. eexists. eexists. reflexivity. }
  destruct R as (data & name & ->).
  exists data, name, c. split; [reflexivity|].
  destruct print_order_phrase as (_ & _ & _ & _ & _ & _ & H).
  apply (H _ _ _ _ _ _ _ E); vm_compute; reflexivity.
Defined.

(** ** The dynamic overhang speeds *)

Lemma flavor_is_true name c :
  slicer_flavor c = Some name -> flavor_is name c = true.
Proof. intro H. unfold flavor_is. rewrite H. apply String.eqb_refl. Qed.

Lemma flavor_is_false name c :
  slicer_flavor c <> Some name -> flavor_is name c = false.
Proof.
  intro H. unfold flavor_is. destruct (slicer_flavor c) as [f|]; [|reflexivity].
  apply String.eqb_neq. intro E. apply H. now subst.
Qed.

Lemma toggle_on src :
  Dict.get "enable_dynamic_overhang_speeds" src = Some "1" ->
  (Dict.get_default "enable_dynamic_overhang_speeds" "0" src =? "1")%string = true.
Proof. intro H. unfold Dict.get_default. now rewrite H. Qed.

(** With at least four speeds the four keys hold them in reverse. *)
Lemma derived_overhang src x :
  Dict.get "enable_dynamic_overhang_speeds" src = Some "1" ->
  (4 <= List.length (overhang_speeds src x))%nat ->
  let d := new_hash (derived_print_fields src x) in
  let speeds := overhang_speeds src x in
  entry_of "overhang_1_4_speed" d = Some (Str (nth 3 speeds ""))
  /\ entry_of "overhang_2_4_speed" d = Some (Str (nth 2 speeds ""))
  /\ entry_of "overhang_3_4_speed" d = Some (Str (nth 1 speeds ""))
  /\ entry_of "overhang_4_4_speed" d = Some (Str (nth 0 speeds "")).
Proof.
  intros T L d speeds. subst d.
  unfold entry_of, derived_print_fields. rewrite (toggle_on _ T).
  change (overhang_speeds src (put "enable_overhang_speed" (Str "1") x))
    with speeds.
  apply Nat.leb_le in L. fold speeds in L. rewrite L.
  unfold write_overhang, put, set_new_hash.
  cbn [new_hash fold_left combine seq overhang_keys fst snd Nat.sub].
  repeat split; through_puts.
Qed.

(** With fewer than four speeds the step leaves the four keys as they are. *)
Lemma derived_overhang_short src x k :
  (List.length (overhang_speeds src x) < 4)%nat ->
  In k overhang_keys ->
  entry_of k (new_hash (derived_print_fields src x)) = entry_of k (new_hash x).
Proof.
  intros L I. unfold entry_of, derived_print_fields.
  change (overhang_speeds src
            (put "enable_overhang_speed"
               (Str (if (Dict.get_default "enable_dynamic_overhang_speeds" "0" src
                         =? "1")%string then "1" else "0")) x))
    with (overhang_speeds src x).
  apply Nat.leb_gt in L. rewrite L.
  unfold put, set_new_hash. cbn [overhang_keys In] in I.
  destruct (_ =? _)%string; cbn [new_hash];
    repeat (destruct I as [<-|I]; [through_puts; reflexivity|]); destruct I.
Qed.

(** C8, as the code has it.  In a conversion that returns a print record,
    with [enable_dynamic_overhang_speeds = 1]: under the flavor
    SuperSlicer, if the list [dynamic_overhang_speeds] has at least four
    items, the items 3, 2, 1 and 0 are written under [overhang_1_4_speed],
    [overhang_2_4_speed], [overhang_3_4_speed] and [overhang_4_4_speed];
    under another flavor the keys [overhang_speed_3] to [overhang_speed_0]
    are, an absent one as the empty text.  A list of fewer than four items
    leaves the four keys as they are. *)
Theorem overhang_speeds_reversed :
  (forall stem content arg self data name c,
      convert_profile stem content arg self
        = (Converted data "print" name, c) ->
      let source_ini := fst (ini_reader content self) in
      Dict.get "enable_dynamic_overhang_speeds" source_ini = Some "1" ->
      (slicer_flavor c = Some "SuperSlicer" ->
       let speeds :=
         multivalue_to_array
           (Some (Dict.get_default "dynamic_overhang_speeds" "" source_ini)) in
       (4 <= List.length speeds)%nat ->
       entry_of "overhang_1_4_speed" data = Some (Str (nth 3 speeds ""))
       /\ entry_of "overhang_2_4_speed" data = Some (Str (nth 2 speeds ""))
       /\ entry_of "overhang_3_4_speed" data = Some (Str (nth 1 speeds ""))
       /\ entry_of "overhang_4_4_speed" data = Some (Str (nth 0 speeds "")))
      /\ (slicer_flavor c <> Some "SuperSlicer" ->
          entry_of "overhang_1_4_speed" data
          = Some (Str (Dict.get_default "overhang_speed_3" "" source_ini))
          /\ entry_of "overhang_2_4_speed" data
             = Some (Str (Dict.get_default "overhang_speed_2" "" source_ini))
          /\ entry_of "overhang_3_4_speed" data
             = Some (Str (Dict.get_default "overhang_speed_1" "" source_ini))
          /\ entry_of "overhang_4_4_speed" data
             = Some (Str (Dict.get_default "overhang_speed_0" "" source_ini))))
  /\ (forall source_ini x k,
         slicer_flavor x = Some "SuperSlicer" ->
         (List.length
            (multivalue_to_array
               (Some (Dict.get_default "dynamic_overhang_speeds" "" source_ini)))
          < 4)%nat ->
         In k overhang_keys ->
         entry_of k (new_hash (derived_print_fields source_ini x))
         = entry_of k (new_hash x)).
Proof.
  split.
  - intros stem content arg self data name c H source_ini T.
    destruct (convert_profile_print _ _ _ _ _ _ _ H) as (x & -> & F).
    fold source_ini. split.
    + intros S speeds L. rewrite <- F in S.
      assert (E : overhang_speeds source_ini x = speeds)
        by (unfold overhang_speeds; now rewrite (flavor_is_true _ _ S)).
      rewrite <- E in L |- *. now apply derived_overhang.
    + intro S. rewrite <- F in S.
      assert (E : overhang_speeds source_ini x
                  = [Dict.get_default "overhang_speed_0" "" source_ini;
                     Dict.get_default "overhang_speed_1" "" source_ini;
                     Dict.get_default "overhang_speed_2" "" source_ini;
                     Dict.get_default "overhang_speed_3" "" source_ini])
        by (unfold overhang_speeds; now rewrite (flavor_is_false _ _ S)).
      assert (L : (4 <= List.length (overhang_speeds source_ini x))%nat)
        by (rewrite E; apply Nat.le_refl).
      pose proof (derived_overhang source_ini x T L) as D.
      cbv zeta in D. rewrite E in D. exact D.
  - intros source_ini x k S L I. apply derived_overhang_short; [|exact I].
    unfold overhang_speeds. now rewrite (flavor_is_true _ _ S).
Qed.

(** C8 at a print profile of SuperSlicer with the speeds 10, 20, 30, 40. *)
Lemma overhang_speeds_reversed_at_print_file :
  exists data name c,
    convert_profile "fine" (content (print_file "fine" "10,20,30,40")) None init
      = (Converted data "print" name, c)
    /\ entry_of "overhang_1_4_speed" data = Some (Str "40")
    /\ entry_of "overhang_2_4_speed" data = Some (Str "30")
    /\ entry_of "overhang_3_4_speed" data = Some (Str "20")
    /\ entry_of "overhang_4_4_speed" data = Some (Str "10").
Proof.
  destruct (convert_profile "fine" (content (print_file "fine" "10,20,30,40"))
                            None init) as [r c] eqn:E.
  assert (R : (exists data name, r = Converted data "print" name)
              /\ slicer_flavor c = Some "SuperSlicer").
  { assert (F : convert_profile "fine"
                  (content (print_file "fine" "10,20,30,40")) None init = (r, c))
      by exact E.
    vm_compute in F. injection F as <- <-.
    split; [eexists; eexists|]; reflexivity. }
  destruct R as ((data & name & ->) & S).
  exists data, name, c. split; [reflexivity|].
  destruct overhang_speeds_reversed as (H & _).
  destruct (H _ _ _ _ _ _ _ E) as (A & _); [vm_compute; reflexivity|].
  apply (A S). vm_compute. repeat constructor.
Defined.

(** C8, as the specification states it, fails: with the toggle enabled
    and two speeds in the list of a SuperSlicer profile, none of the four
    keys is written. *)
Lemma short_overhang_list_writes_nothing :
  exists data name c,
    convert_profile "fine" (content (print_file "fine" "10,20")) None init
      = (Converted data "print" name, c)
    /\ Dict.get "enable_dynamic_overhang_speeds"
         (fst (ini_reader (content (print_file "fine" "10,20")) init))
       = Some "1"
    /\ entry_of "overhang_1_4_speed" data = None
    /\ entry_of "overhang_2_4_speed" data = None
    /\ entry_of "overhang_3_4_speed" data = None
    /\ entry_of "overhang_4_4_speed" data = None.
Proof.
  eexists. eexists. eexists.
  split; [vm_compute; reflexivity|]. repeat split; vm_compute; reflexivity.
Qed.

(** ** The state of the converter across the files of a batch *)

(** C2 fails on the code.  With the policy [skip] and an existing output
    for the first of two filament profiles, the loop leaves the body at
    [continue], before the reset: the second profile, whose temperature is
    200, gets the upper bound 260 of the first, and a print profile that
    follows the skipped filament profile is converted as a filament.
    Alone, the same files give 200 and a print profile. *)
Theorem skipped_file_leaks_into_next :
  let o := batch_options "skip" in
  let hot := filament_file "hot" "260" in
  let cool := filament_file "cool" "200" in
  let fine := print_file "fine" "10,20,30,40" in
  written "out/user/default/filament/cool.json" "nozzle_temperature_range_high"
    (main_loop o [cool] hot_exists) = Some (Str "200")
  /\ converted_as (main_loop o [hot; cool] hot_exists) = [("cool", "filament")]
  /\ written "out/user/default/filament/cool.json" "nozzle_temperature_range_high"
       (main_loop o [hot; cool] hot_exists) = Some (Str "260")
  /\ converted_as (main_loop o [fine] hot_exists) = [("fine", "print")]
  /\ converted_as (main_loop o [hot; fine] hot_exists) = [("fine", "filament")].
Proof. repeat split; vm_compute; reflexivity. Qed.

(** After a file that was converted and written the three trackers are
    those of a new converter, but for the kind that the caller pinned. *)
Lemma reset_for_next_fields o c :
  max_temp (reset_for_next o c) = F64.zero
  /\ ironing_type (reset_for_next o c) = None
  /\ ini_type (reset_for_next o c) = opt_ini_type o.
Proof. repeat split. Qed.

(** C6 fails on the code.  A file without a header comment is reported
    unsupported by a new converter, and a batch of this file alone has no
    result; after a file with a header the flavor of that file is still in
    the converter, and the file without a header is converted. *)
Theorem headerless_file_converted_after_another :
  let o := batch_options "overwrite" in
  let hot := filament_file "hot" "260" in
  let plain := headerless_file "plain" "200" in
  snd (read_lines (content plain)) = None
  /\ fst (convert_profile (stem plain) (content plain) None init)
     = Unsupported "plain"
  /\ converted_as (main_loop o [plain] []) = []
  /\ converted_as (main_loop o [hot; plain] [])
     = [("hot", "filament"); ("plain", "filament")].
Proof. repeat split; vm_compute; reflexivity. Qed.

(** What holds of C6: a converter without a flavor reports a file without
    a header unsupported, and a converter without a kind reports a file
    whose kind is not detected unsupported; no exception is raised, and the
    loop goes on with the files and the results as they were. *)
Lemma undetected_is_unsupported stem content arg self :
  (slicer_flavor self = None -> snd (read_lines content) = None ->
   fst (convert_profile stem content arg self) = Unsupported stem)
  /\ (Py.truthy (ini_type self) = false ->
      detect_ini_type (fst (read_lines content)) = None ->
      fst (convert_profile stem content arg self) = Unsupported stem).
Proof.
  unfold convert_profile. rewrite ini_reader_eq. unfold convert_parsed.
  cbn [slicer_flavor ini_type set_slicer_flavor]. split.
  - intros F R. now rewrite F, R.
  - intros K D. rewrite K, D. now destruct (negb _).
Qed.

Lemma unsupported_is_skipped o b f nozzle c0 c :
  nozzle_for o f (conv b) = (nozzle, c0) ->
  convert_profile (stem f) (content f) nozzle c0 = (Unsupported (stem f), c) ->
  fs (process_file o b f) = fs b /\ results (process_file o b f) = results b.
Proof. intros N C. unfold process_file. rewrite N, C. now split. Qed.

(** ** Rules with a table: translated values stay as they are *)

Lemma get_in_values {V : Type} (k : string) (v : V) (d : Dict.t string V) :
  Dict.get k d = Some v -> In v (values d).
Proof.
  induction d as [|[k' v'] r IH]; cbn [Dict.get values map snd In]; [discriminate|].
  destruct (keqb k k'); [intros [= ->]; now left | intro H; right; now apply IH].
Qed.

Lemma translate_idem (table : Dict.t string string) :
  forallb (fun r => (translate table r =? r)%string) (values table) = true ->
  forall v, translate table (translate table v) = translate table v.
Proof.
  intros H v. unfold translate at 2 3. unfold Dict.get_default.
  destruct (Dict.get v table) as [r|] eqn:G.
  - apply get_in_values in G. rewrite forallb_forall in H.
    apply String.eqb_eq. now apply H.
  - unfold translate, Dict.get_default. now rewrite G.
Qed.

Lemma translate_not_nil (table : Dict.t string string) (v : string) :
  forallb (fun r => negb (r =? "nil")%string) (values table) = true ->
  (v =? "nil")%string = false -> (translate table v =? "nil")%string = false.
Proof.
  intros H N. unfold translate, Dict.get_default.
  destruct (Dict.get v table) as [r|] eqn:G; [|exact N].
  apply get_in_values in G. rewrite forallb_forall in H.
  apply H in G. now destruct (r =? "nil")%string.
Qed.

(** The four rules, through the dispatch of [convert_params]. *)
Lemma passthrough_rule p table v src self :
  passthrough_table p = Some table -> Dict.get p src = Some v ->
  (v =? "nil")%string = false ->
  convert_params p src self = (Ok (Some (Str (translate table v))), self).
Proof.
  intros T G N. unfold passthrough_table in T.
  destruct (String.eqb_spec p "filament_type") as [->|_].
  { injection T as <-. now rewrite (convert_params_plain _ _ _ _ G N eq_refl). }
  destruct (mem_str p _) eqn:M.
  { injection T as <-. cbn [mem_str existsb] in M.
    repeat (apply orb_prop in M; destruct M as [M|M];
            [apply String.eqb_eq in M; subst p;
             now rewrite (convert_params_plain _ _ _ _ G N eq_refl)|]).
    discriminate M. }
  destruct (String.eqb_spec p "thumbnails_format") as [->|_].
  { injection T as <-. now rewrite (convert_params_plain _ _ _ _ G N eq_refl). }
  destruct (String.eqb_spec p "seam_position") as [->|_]; [|discriminate].
  injection T as <-. now rewrite (convert_params_plain _ _ _ _ G N eq_refl).
Qed.

(** In each of the four tables a value maps to itself or is no key, and no
    value is [nil]. *)
Lemma passthrough_tables_checked p table :
  passthrough_table p = Some table ->
  forallb (fun r => (translate table r =? r)%string) (values table) = true
  /\ forallb (fun r => negb (r =? "nil")%string) (values table) = true.
Proof.
  unfold passthrough_table.
  repeat match goal with
         | |- (if ?c then _ else _) = _ -> _ => destruct c
         end; intros [= <-]; split; vm_compute; reflexivity.
Qed.

(** X1.  The rules of the filament type, the infill patterns, the
    thumbnail format and the seam position translate once: a value that one
    of them has returned is returned as it is when the rule reads it again,
    whatever the rest of the source and the converter are. *)
Theorem passthrough_rules_are_idempotent p table src src' self self' v r :
  passthrough_table p = Some table ->
  Dict.get p src = Some v ->
  fst (convert_params p src self) = Ok (Some (Str r)) ->
  Dict.get p src' = Some r ->
  convert_params p src' self' = (Ok (Some (Str r)), self').
Proof.
  intros T G R G'.
  destruct (passthrough_tables_checked p table T) as (I & NN).
  destruct (v =? "nil")%string eqn:N.
  { apply String.eqb_eq in N. subst v. unfold convert_params in R.
    rewrite G in R. discriminate R. }
  rewrite (passthrough_rule p table v src self T G N) in R.
  injection R as <-.
  rewrite (passthrough_rule p table _ src' self' T G' (translate_not_nil _ _ NN N)).
  now rewrite (translate_idem _ I).
Qed.

(** X1 at the infill pattern [rectilinear], which becomes [zig-zag] and
    stays [zig-zag]. *)
Lemma passthrough_rules_are_idempotent_at_rectilinear :
  convert_params "fill_pattern" [("fill_pattern", "rectilinear")] init
    = (Ok (Some (Str "zig-zag")), init)
  /\ convert_params "fill_pattern" [("fill_pattern", "zig-zag")] init
     = (Ok (Some (Str "zig-zag")), init).
Proof.
  split; [reflexivity|].
  apply (passthrough_rules_are_idempotent "fill_pattern" INFILL_TYPES
           [("fill_pattern", "rectilinear")] [("fill_pattern", "zig-zag")]
           init init "rectilinear" "zig-zag"); reflexivity.
Defined.

(** ** Rules with a closed range *)

(** X2.  Whatever text the source holds, other than [nil]: the rules of
    [machine_limits_usage], [remaining_times],
    [support_material_layer_height] and [infill_every_layers] give ["0"] or
    ["1"]; the rule of the support pattern gives one of the six known
    patterns and the rule of the support interface pattern one of the five
    known ones; the rules of the gcode flavor and of the host type give a
    value of their table or nothing; the rule of the fan speed threshold
    gives ["0%"] or the text of a number that is not negative, followed by
    [%].  None of them raises or changes the converter. *)
Theorem closed_range_rules (source_ini : ini) (self : converter) (v : string) :
  v <> "nil" ->
  (forall p, In p flag_params -> Dict.get p source_ini = Some v ->
             convert_params p source_ini self = (Ok (Some (Str "0")), self)
             \/ convert_params p source_ini self = (Ok (Some (Str "1")), self))
  /\ (Dict.get "support_material_pattern" source_ini = Some v ->
      exists r, convert_params "support_material_pattern" source_ini self
                = (Ok (Some (Str r)), self)
                /\ In r SUPPORT_PATTERNS)
  /\ (Dict.get "support_material_interface_pattern" source_ini = Some v ->
      exists r, convert_params "support_material_interface_pattern" source_ini self
                = (Ok (Some (Str r)), self)
                /\ In r INTERFACE_PATTERNS)
  /\ (Dict.get "gcode_flavor" source_ini = Some v ->
      convert_params "gcode_flavor" source_ini self = (Ok None, self)
      \/ exists r, convert_params "gcode_flavor" source_ini self
                   = (Ok (Some (Str r)), self)
                   /\ In r ["klipper"; "reprapfirmware"; "marlin"; "marlin2"])
  /\ (Dict.get "host_type" source_ini = Some v ->
      convert_params "host_type" source_ini self = (Ok None, self)
      \/ exists r, convert_params "host_type" source_ini self
                   = (Ok (Some (Str r)), self)
                   /\ In r (values HOST_TYPES))
  /\ (Dict.get "external_perimeter_fan_speed" source_ini = Some v ->
      exists n, 0 <= n
                /\ convert_params "external_perimeter_fan_speed" source_ini self
                   = (Ok (Some (Str (Py.str_of_int n ++ "%")%string)), self)).
Proof.
  intro N. apply String.eqb_neq in N.
  repeat match goal with |- _ /\ _ => split end.
  - intros p I G. cbn [flag_params In] in I.
    destruct I as [<-|[<-|[<-|[<-|[]]]]];
      rewrite (convert_params_plain _ _ _ _ G N eq_refl).
    + change (convert_rules "machine_limits_usage" v source_ini self)
        with (Ok (Some (Str (if (v =? "emit_to_gcode")%string then "1" else "0"))), self).
      destruct (v =? "emit_to_gcode")%string; [now right | now left].
    + change (convert_rules "remaining_times" v source_ini self)
        with (Ok (Some (Str (if (v =? "1")%string then "0" else "1"))), self).
      destruct (v =? "1")%string; [now left | now right].
    + change (convert_rules "support_material_layer_height" v source_ini self)
        with (match F64.float v with
              | Some x => (Ok (Some (Str (if F64.ltb F64.zero x then "1" else "0"))), self)
              | None => (Ok (Some (Str "0")), self)
              end).
      destruct (F64.float v) as [x|]; [|now left].
      destruct (F64.ltb F64.zero x); [now right | now left].
    + change (convert_rules "infill_every_layers" v source_ini self)
        with (match Py.int v with
              | Some n => (Ok (Some (Str (if 0 <? n then "1" else "0"))), self)
              | None => (Ok (Some (Str "0")), self)
              end).
      destruct (Py.int v) as [n|]; [|now left].
      destruct (0 <? n); [now right | now left].
  - intro G. rewrite (convert_params_plain _ _ _ _ G N eq_refl).
    change (convert_rules "support_material_pattern" v source_ini self)
      with (Ok (Some (Str (if mem_str v SUPPORT_PATTERNS then v else "default"))), self).
    eexists. split; [reflexivity|].
    destruct (mem_str v SUPPORT_PATTERNS) eqn:M; [|cbn; tauto].
    unfold mem_str in M. apply existsb_exists in M. destruct M as (x & I & E).
    apply String.eqb_eq in E. now subst.
  - intro G. rewrite (convert_params_plain _ _ _ _ G N eq_refl).
    change (convert_rules "support_material_interface_pattern" v source_ini self)
      with (Ok (Some (Str (if mem_str v INTERFACE_PATTERNS then v else "auto"))), self).
    eexists. split; [reflexivity|].
    destruct (mem_str v INTERFACE_PATTERNS) eqn:M; [|cbn; tauto].
    unfold mem_str in M. apply existsb_exists in M. destruct M as (x & I & E).
    apply String.eqb_eq in E. now subst.
  - intro G. rewrite (convert_params_plain _ _ _ _ G N eq_refl).
    change (convert_rules "gcode_flavor" v source_ini self)
      with (Ok (option_map Str (Dict.get v GCODE_FLAVORS)), self).
    destruct (Dict.get v GCODE_FLAVORS) as [r|] eqn:E; [right|now left].
    exists r. split; [reflexivity|]. apply get_in_values in E.
    cbv [values GCODE_FLAVORS map snd] in E. cbn [In] in E |- *.
    repeat (destruct E as [<-|E]; [tauto|]). destruct E.
  - intro G. rewrite (convert_params_plain _ _ _ _ G N eq_refl).
    change (convert_rules "host_type" v source_ini self)
      with (Ok (option_map Str (Dict.get v HOST_TYPES)), self).
    destruct (Dict.get v HOST_TYPES) as [r|] eqn:E; [right|now left].
    exists r. split; [reflexivity|]. now apply get_in_values in E.
  - intro G. rewrite (convert_params_plain _ _ _ _ G N eq_refl).
    change (convert_rules "external_perimeter_fan_speed" v source_ini self)
      with (match Py.int v with
            | Some val =>
                if val <? 0 then (Ok (Some (Str "0%")), self)
                else (Ok (Some (Str (Py.str_of_int val ++ "%")%string)), self)
            | None => (Ok (Some (Str "0%")), self)
            end).
    destruct (Py.int v) as [n|]; [|exists 0; split; [lia | reflexivity]].
    destruct (Z.ltb_spec n 0); [exists 0 | exists n]; split; (lia || reflexivity).
Qed.

(** X2 at texts that are no numbers. *)
Lemma closed_range_rules_at_garbage :
  convert_params "infill_every_layers" [("infill_every_layers", "many")] init
    = (Ok (Some (Str "0")), init)
  /\ (exists n, 0 <= n
        /\ convert_params "external_perimeter_fan_speed"
             [("external_perimeter_fan_speed", "-5")] init
           = (Ok (Some (Str (Py.str_of_int n ++ "%")%string)), init)).
Proof.
  split; [reflexivity|].
  assert (N : "-5" <> "nil") by discriminate.
  destruct (closed_range_rules [("external_perimeter_fan_speed", "-5")] init "-5" N)
    as (_ & _ & _ & _ & _ & H).
  apply H. reflexivity.
Defined.

(** ** The record of a conversion: what the loop writes and what is written last *)

(** ** What a conversion writes, and where *)

Ltac effect_leaf :=
  first
    [ exists Keep; split; [reflexivity | exact I]
    | eexists (SetIroning _); split;
      [reflexivity | split; [apply String.eqb_eq; assumption | reflexivity]]
    | eexists (PutSupport _ _); split;
      [reflexivity | apply String.eqb_eq; assumption] ].

Ltac effect_split :=
  lazymatch goal with
  | |- effect_ok _ _ (if ?c then _ else _) _ => destruct c eqn:?
  | |- effect_ok _ _ (match ?c with Some _ => _ | None => _ end) _ => destruct c
  | |- effect_ok _ _ (match ?c with Ok _ => _ | Raise => _ end) _ => destruct c
  | |- effect_ok _ _ (match ?c with nil => _ | cons _ _ => _ end) _ => destruct c
  | |- effect_ok _ _ (let (_, _) := ?c in _) _ => destruct c
  end.

(** Only the rule of the ironing type notes an ironing type, and only the
    rule of the support style writes to the record. *)
Lemma rules_effect (p v : string) (src : ini) (a : converter) :
  effect_ok p v (convert_rules p v src a) a.
Proof.
  unfold convert_rules. repeat effect_split; effect_leaf.
Qed.

Lemma params_effect (p : string) (src : ini) (a : converter) :
  exists e, snd (convert_params p src a) = apply_effect e a
            /\ match e with
               | Keep => True
               | SetIroning s => p = "ironing_type" /\ Dict.get p src = Some s
               | PutSupport _ _ => p = "support_material_style"
               end.
Proof.
  unfold convert_params.
  destruct (Dict.get p src) as [raw|] eqn:G; [|now exists Keep].
  destruct (raw =? "nil")%string; [now exists Keep|].
  destruct (Dict.get p MULTIVALUE_PARAMS) as [[]|] eqn:M; [| now exists Keep |].
  - destruct (rules_effect p match multivalue_to_array (Some raw) with
                             | a0 :: _ => a0
                             | [] => raw
                             end src a) as (e & E & H).
    exists e. split; [exact E|]. destruct e as [|s|t s]; [exact I| |exact H].
    destruct H as (-> & _). discriminate M.
  - destruct (rules_effect p raw src a) as (e & E & H).
    exists e. split; [exact E|]. destruct e as [|s|t s]; [exact I| |exact H].
    destruct H as (-> & ->). now split.
Qed.

Lemma key_eqb_true (a b : key) : key_eqb a b = true <-> a = b.
Proof. exact (keqb_eq (K := key) a b). Qed.

Lemma key_in_false_neq (k k' : key) (l : list key) :
  key_in k l = false -> In k' l -> k' <> k.
Proof.
  unfold key_in. intros H I E. subst k'.
  assert (X : existsb (key_eqb k) l = true).
  { apply existsb_exists. exists k. split; [exact I|]. now apply key_eqb_true. }
  congruence.
Qed.

Lemma key_in_true (k : key) (l : list key) : key_in k l = true -> In k l.
Proof.
  unfold key_in. intro H. apply existsb_exists in H. destruct H as (x & I & E).
  apply key_eqb_true in E. now subst.
Qed.

(** Reading the record after an assignment to another key. *)
Lemma put_get_other (k : key) (k' : string) (v : value) (c : converter) :
  KStr k' <> k ->
  Dict.get k (new_hash (put k' v c)) = Dict.get k (new_hash c).
Proof. intro N. unfold put. cbn [new_hash set_new_hash]. now apply get_set_other. Qed.

Lemma put_get_same (k : string) (v : value) (c : converter) :
  Dict.get (KStr k) (new_hash (put k v c)) = Some v.
Proof. unfold put. cbn [new_hash set_new_hash]. apply get_set_same. Qed.

Lemma effect_get (e : effect) (c : converter) (k : key) :
  key_in k support_keys = false ->
  Dict.get k (new_hash (apply_effect e c)) = Dict.get k (new_hash c).
Proof.
  intro H. destruct e as [|s|t s]; [reflexivity | reflexivity|].
  cbn [apply_effect].
  rewrite !put_get_other; [reflexivity| |];
    apply (key_in_false_neq _ _ _ H); cbn; tauto.
Qed.

Lemma write_target_get_other (t : target) (v : value) (c : converter) (k : key) :
  key_in k (writes_of t) = false ->
  Dict.get k (new_hash (write_target t v c)) = Dict.get k (new_hash c).
Proof.
  destruct t as [k'|ks|]; cbn [write_target writes_of]; intro H.
  - apply put_get_other. apply (key_in_false_neq _ _ _ H). now left.
  - revert c. induction ks as [|k' r IH]; intro c; [reflexivity|].
    cbn [fold_left]. cbn [map key_in existsb] in H. apply orb_false_elim in H.
    destruct H as (H1 & H2). rewrite (IH H2), put_get_other; [reflexivity|].
    intro E. subst k. cbn [key_eqb] in H1. now rewrite String.eqb_refl in H1.
  - cbn [new_hash set_new_hash]. apply get_set_other.
    apply (key_in_false_neq _ _ _ H). now left.
Qed.

Lemma fan_get_kept (v : value) (k : string) (r : list string) :
  forall c, Dict.get (KStr k) (new_hash c) = Some v ->
    Dict.get (KStr k) (new_hash (fold_left (fun c0 tk => put tk v c0) r c)) = Some v.
Proof.
  induction r as [|k2 r2 IH]; intros c G; [exact G|].
  cbn [fold_left]. apply IH.
  destruct (String.eqb_spec k2 k) as [->|N]; [apply put_get_same|].
  rewrite put_get_other; [exact G | congruence].
Qed.

Lemma write_target_get_same (t : target) (v : value) (c : converter) (k : key) :
  key_in k (writes_of t) = true ->
  Dict.get k (new_hash (write_target t v c)) = Some v.
Proof.
  destruct t as [k'|ks|]; cbn [write_target writes_of]; intro H.
  - apply key_in_true in H. destruct H as [<-|[]]. apply put_get_same.
  - apply key_in_true in H. apply in_map_iff in H. destruct H as (k' & <- & I).
    revert c. induction ks as [|k2 r IH]; intro c; [destruct I|].
    cbn [fold_left]. destruct I as [->|I]; [|now apply IH].
    apply fan_get_kept, put_get_same.
  - apply key_in_true in H. destruct H as [<-|[]].
    cbn [new_hash set_new_hash]. apply get_set_same.
Qed.

Lemma track_max_temp_new_hash p v c :
  new_hash (converter_of (track_max_temp p v c)) = new_hash c.
Proof.
  unfold track_max_temp. destruct (mem_str p _); [|reflexivity].
  destruct v as [s|[|x l]]; cbn [converter_of]; try reflexivity.
  - destruct (F64.float s) as [t|]; [destruct (F64.ltb _ _)|]; reflexivity.
  - destruct (F64.float x) as [t|]; [destruct (F64.ltb _ _)|]; reflexivity.
Qed.

(** A turn of the loop leaves an entry that its parameter does not write. *)
Lemma profile_step_other pm src a p k :
  key_in k support_keys = false ->
  (forall t, Dict.get p pm = Some t -> key_in k (writes_of t) = false) ->
  Dict.get k (new_hash (converter_of (profile_step pm src (Done a) p)))
  = Dict.get k (new_hash a).
Proof.
  intros S W. unfold profile_step.
  destruct (p =? "profile_name")%string; [reflexivity|].
  destruct (Dict.get p pm) as [t|]; [|reflexivity].
  destruct (params_effect p src a) as (e & E & _).
  destruct (convert_params p src a) as [[[v|]|] a']; cbn [snd] in E; subst a';
    cbn [converter_of]; try apply (effect_get _ _ _ S).
  rewrite track_max_temp_new_hash, write_target_get_other by (now apply W).
  apply (effect_get _ _ _ S).
Qed.

(** A turn of the loop that does not fail leaves the value that the rule
    returned under each target of its parameter. *)
Lemma profile_step_same pm src a p k t v l :
  (p =? "profile_name")%string = false ->
  Dict.get p pm = Some t -> key_in k (writes_of t) = true ->
  fst (convert_params p src a) = Ok (Some v) ->
  profile_step pm src (Done a) p = Done l ->
  Dict.get k (new_hash l) = Some v.
Proof.
  intros N G W R. unfold profile_step. rewrite N, G.
  destruct (convert_params p src a) as [r a']. cbn [fst] in R. subst r.
  intro T.
  assert (X : new_hash l = new_hash (write_target t v a')).
  { rewrite <- (track_max_temp_new_hash p v (write_target t v a')).
    now rewrite T. }
  rewrite X. now apply write_target_get_same.
Qed.

Lemma fold_failed (step : run -> string -> run) (keys : list string) c :
  (forall c p, step (Failed c) p = Failed c) ->
  fold_left step keys (Failed c) = Failed c.
Proof. intro F. induction keys as [|p r IH]; [reflexivity|]. cbn. now rewrite F. Qed.

Lemma get_in {V : Type} (k : string) (v : V) (d : Dict.t string V) :
  Dict.get k d = Some v -> In (k, v) d.
Proof.
  induction d as [|[k' v'] r IH]; cbn [Dict.get In]; [discriminate|].
  destruct (keqb k k') eqn:E.
  - intros [= ->]. apply String.eqb_eq in E. subst. now left.
  - intro H. right. now apply IH.
Qed.

(** The entry under [k] after the loop, when only the parameter [p0] has
    [k] among its targets and its rule returns [v0]: [v0] if the source has
    [p0], the entry before the loop otherwise. *)
Lemma loop_entry pm src p0 k v0 :
  key_in k support_keys = false -> only_writer pm p0 k = true ->
  (p0 =? "profile_name")%string = false ->
  (forall t, Dict.get p0 pm = Some t -> key_in k (writes_of t) = true) ->
  (forall a, fst (convert_params p0 src a) = Ok (Some v0)) ->
  forall keys a l,
    fold_left (profile_step pm src) keys (Done a) = Done l ->
    Dict.get k (new_hash l)
    = if mem_str p0 keys && Dict.mem p0 pm then Some v0 else Dict.get k (new_hash a).
Proof.
  intros S O N W R. induction keys as [|p r IH]; intros a l H.
  - injection H as <-. reflexivity.
  - cbn [fold_left] in H.
    destruct (profile_step pm src (Done a) p) as [a1|a1] eqn:T;
      [|rewrite fold_failed in H by reflexivity; discriminate H].
    rewrite (IH _ _ H). unfold mem_str. cbn [existsb]. fold (mem_str p0 r).
    destruct (String.eqb_spec p0 p) as [<-|D].
    + cbn [orb]. unfold Dict.mem. destruct (Dict.get p0 pm) as [t|] eqn:G.
      * rewrite andb_true_r. cbn [andb]. destruct (mem_str p0 r); [reflexivity|].
        now apply (profile_step_same pm src a p0 k t v0 a1 N G (W t eq_refl) (R a)).
      * rewrite !andb_false_r.
        pose proof (profile_step_other pm src a p0 k S) as X.
        rewrite T, G in X. apply X. discriminate.
    + cbn [orb].
      destruct (mem_str p0 r && Dict.mem p0 pm); [reflexivity|].
      pose proof (profile_step_other pm src a p k S) as X. rewrite T in X.
      apply X. intros t G. apply get_in in G.
      unfold only_writer in O. rewrite forallb_forall in O.
      apply O in G. cbn [fst snd] in G.
      destruct (String.eqb_spec p p0) as [->|_]; [now contradiction D|].
      cbn [orb] in G. now destruct (key_in k (writes_of t)).
Qed.

(** A conversion that returns a record ran the loop, added the metadata and
    ran the part of its kind, none of them failing. *)
Lemma convert_parsed_converted stem src arg s0 data kind name c :
  convert_parsed stem src arg s0 = (Converted data kind name, c) ->
  name = Dict.get_default "profile_name" stem src
  /\ data = new_hash c
  /\ exists l,
       fold_left (profile_step (Dict.get_default kind [] PARAMETER_MAP) src)
                 (Dict.keys src) (Done (prepare src arg kind name s0)) = Done l
       /\ (if (kind =? "filament")%string
           then filament_params src (add_metadata kind name l)
           else if (kind =? "print")%string
                then calculate_print_params src (add_metadata kind name l)
                else Done (add_metadata kind name l)) = Done c.
Proof.
  intro H.
  destruct (convert_parsed_cases stem src arg s0) as [U|(kind' & K & F & C)];
    [rewrite U in H; discriminate|].
  rewrite C in H. unfold convert_body in H.
  destruct (fold_left _ _ (Done _)) as [l|l] eqn:L; [|discriminate].
  destruct (if (kind' =? "filament")%string then _ else _) as [c'|c'] eqn:T;
    [|discriminate].
  injection H as <- <- <- <-. split; [reflexivity|]. split; [reflexivity|].
  exists l. now split.
Qed.

Lemma convert_profile_converted stem content arg self data kind name c :
  convert_profile stem content arg self = (Converted data kind name, c) ->
  let src := fst (ini_reader content self) in
  let s0 := snd (ini_reader content self) in
  name = Dict.get_default "profile_name" stem src
  /\ data = new_hash c
  /\ exists l,
       fold_left (profile_step (Dict.get_default kind [] PARAMETER_MAP) src)
                 (Dict.keys src) (Done (prepare src arg kind name s0)) = Done l
       /\ (if (kind =? "filament")%string
           then filament_params src (add_metadata kind name l)
           else if (kind =? "print")%string
                then calculate_print_params src (add_metadata kind name l)
                else Done (add_metadata kind name l)) = Done c.
Proof.
  unfold convert_profile. destruct (ini_reader content self) as [src s0].
  cbn [fst snd]. apply convert_parsed_converted.
Qed.

(** A parameter that no rule names keeps its value. *)
Lemma rules_default (p v : string) (src : ini) (a : converter) :
  has_rule p = false -> convert_rules p v src a = (Ok (Some (Str v)), a).
Proof.
  intro H. unfold has_rule, ruled_params, mem_str in H.
  cbn [app existsb gcode_params Dict.keys map fst percent_to_mm_params] in H.
  repeat (apply orb_false_elim in H; destruct H as [? H]).
  cbv [convert_rules mem_str existsb Dict.mem Dict.get keqb string_Key gcode_params
       percent_to_mm_params].
  repeat match goal with
         | E : (p =? _)%string = false |- _ => try rewrite E; clear E
         end.
  reflexivity.
Qed.

Lemma array_has_no_rule (p : string) :
  Dict.get p MULTIVALUE_PARAMS = Some array -> has_rule p = false.
Proof.
  cbv [Dict.get MULTIVALUE_PARAMS keqb string_Key].
  repeat match goal with
         | |- (if (p =? ?s)%string then _ else _) = _ -> _ =>
             destruct (String.eqb_spec p s) as [->|_];
             [first [discriminate | reflexivity]|]
         end.
  discriminate.
Qed.

(** [convert_params] on a parameter that no rule names. *)
Lemma convert_params_copied (p : string) (src : ini) (a : converter) :
  has_rule p = false ->
  convert_params p src a
  = (Ok match Dict.get p src with
        | Some v => if (v =? "nil")%string then None else Some (copied p v)
        | None => None
        end, a).
Proof.
  intro H. unfold convert_params, copied.
  destruct (Dict.get p src) as [v|]; [|reflexivity].
  destruct (v =? "nil")%string; [reflexivity|].
  destruct (Dict.get p MULTIVALUE_PARAMS) as [[]|]; [| reflexivity |];
    now apply rules_default.
Qed.

Lemma key_in_app (k : key) (a b : list key) :
  key_in k (a ++ b) = key_in k a || key_in k b.
Proof. unfold key_in. apply existsb_app. Qed.

Lemma key_in_str (k : string) (l : list string) :
  key_in (KStr k) (map KStr l) = mem_str k l.
Proof.
  unfold key_in, mem_str. induction l as [|x r IH]; [reflexivity|].
  cbn [map existsb key_eqb]. now rewrite IH.
Qed.

Lemma mem_str_in (x : string) (l : list string) : mem_str x l = true <-> In x l.
Proof.
  unfold mem_str. rewrite existsb_exists. split.
  - intros (y & I & E). apply String.eqb_eq in E. now subst.
  - intro I. exists x. split; [exact I | apply String.eqb_refl].
Qed.

Lemma get_keys {V : Type} (k : string) (d : Dict.t string V) :
  mem_str k (Dict.keys d) = Dict.mem k d.
Proof.
  unfold mem_str, Dict.mem, Dict.keys.
  induction d as [|[k' v'] r IH]; [reflexivity|].
  cbn [map fst existsb Dict.get keqb string_Key].
  destruct (k =? k')%string; [reflexivity | exact IH].
Qed.

Lemma length_append (a b : string) :
  String.length (a ++ b) = (String.length a + String.length b)%nat.
Proof. induction a as [|c a IH]; [reflexivity|]. cbn. now rewrite IH. Qed.

Lemma substring_append (a b : string) :
  substring (String.length a) (String.length b) (a ++ b) = b.
Proof.
  induction a as [|c a IH]; [|exact IH].
  cbn [String.length append]. induction b as [|d b IH]; [reflexivity|].
  cbn [String.length substring]. now rewrite IH.
Qed.

(** A text whose last twelve characters are not [_settings_id] is not the
    settings identifier of any kind. *)
Lemma settings_id_neq (kind t : string) :
  (substring (String.length t - 12) 12 t =? "_settings_id")%string = false ->
  (kind ++ "_settings_id")%string <> t.
Proof.
  intros H E. subst t. rewrite length_append in H.
  replace (String.length kind + String.length "_settings_id" - 12)%nat
    with (String.length kind) in H by (cbn; lia).
  change 12%nat with (String.length "_settings_id") in H.
  rewrite substring_append in H. discriminate H.
Qed.

Lemma settings_id_fresh (kind : string) :
  mem_str (kind ++ "_settings_id") ["name"; "from"; "is_custom_defined"; "version"]
  = false.
Proof.
  destruct (mem_str _ _) eqn:M; [|reflexivity].
  apply mem_str_in in M. cbn [In] in M.
  destruct M as [M|[M|[M|[M|[]]]]]; symmetry in M;
    exfalso; refine (settings_id_neq kind _ _ M); reflexivity.
Qed.

(** *** What is written after the loop *)

Lemma key_in_cons (k : key) (x : string) (l : list key) :
  key_in k (KStr x :: l) = false -> KStr x <> k /\ key_in k l = false.
Proof.
  unfold key_in. cbn [existsb]. intro H. apply orb_false_elim in H.
  destruct H as (H1 & H2). split; [|exact H2].
  intro E. subst k. cbn [key_eqb] in H1. now rewrite String.eqb_refl in H1.
Qed.

Lemma add_metadata_other kind name l k :
  key_in k (metadata_keys kind) = false ->
  Dict.get k (new_hash (add_metadata kind name l)) = Dict.get k (new_hash l).
Proof.
  unfold metadata_keys. cbn [map]. intro H.
  apply key_in_cons in H. destruct H as (N1 & H).
  apply key_in_cons in H. destruct H as (N2 & H).
  apply key_in_cons in H. destruct H as (N3 & H).
  apply key_in_cons in H. destruct H as (N4 & H).
  apply key_in_cons in H. destruct H as (N5 & _).
  unfold add_metadata. now rewrite !put_get_other.
Qed.

(** The metadata after [add_metadata], whatever the record held. *)
Lemma add_metadata_get kind name l k v :
  Dict.get k (metadata kind name) = Some v ->
  Dict.get k (new_hash (add_metadata kind name l)) = Some v.
Proof.
  pose proof (settings_id_fresh kind) as F. unfold mem_str in F.
  cbn [existsb] in F. repeat (apply orb_false_elim in F; destruct F as [? F]).
  repeat match goal with
         | E : (_ =? _)%string = false |- _ => apply String.eqb_neq in E
         end.
  unfold metadata. cbn [Dict.get keqb key_Key].
  destruct k as [k|]; [|discriminate]. cbn [key_eqb].
  unfold add_metadata.
  repeat match goal with
         | |- (if (k =? ?s)%string then _ else _) = _ -> _ =>
             destruct (String.eqb_spec k s) as [->|?];
             [intros [= <-];
              repeat (rewrite put_get_other by (intros [= E]; congruence));
              apply put_get_same|]
         end.
  discriminate.
Qed.

Lemma filament_params_other src a c k :
  key_in k filament_keys = false ->
  filament_params src a = Done c ->
  Dict.get k (new_hash c) = Dict.get k (new_hash a).
Proof.
  unfold filament_keys. cbn [map]. intro H.
  apply key_in_cons in H. destruct H as (N1 & H).
  apply key_in_cons in H. destruct H as (N2 & H).
  apply key_in_cons in H. destruct H as (N3 & _).
  unfold filament_params. destruct (F64.int _); try discriminate.
  destruct (Dict.get _ src) as [v|]; [destruct (F64.float v)|];
    intros [= <-]; now rewrite !put_get_other.
Qed.

Lemma print_key_neq (k : key) (x : string) :
  key_in k print_keys = false ->
  In x (values SPEED_PARAMS
        ++ "enable_overhang_speed" :: overhang_keys
        ++ ["wall_infill_order"; "ironing_type"]) ->
  KStr x <> k.
Proof.
  intros H I. apply (key_in_false_neq _ _ _ H). unfold print_keys.
  now apply in_map.
Qed.

Lemma speed_step_other src a p k :
  key_in k support_keys = false -> key_in k print_keys = false ->
  Dict.get k (new_hash (converter_of (speed_step src (Done a) p)))
  = Dict.get k (new_hash a).
Proof.
  intros S P. unfold speed_step.
  destruct (negb (Dict.mem p src)); [reflexivity|].
  destruct (params_effect p src a) as (e & E & _).
  destruct (convert_params p src a) as [[[v|]|] a']; cbn [snd] in E; subst a';
    cbn [converter_of]; try apply (effect_get _ _ _ S).
  destruct (Dict.get p SPEED_PARAMS) as [k'|] eqn:G; cbn [converter_of];
    [|apply (effect_get _ _ _ S)].
  rewrite put_get_other; [apply (effect_get _ _ _ S)|].
  apply (print_key_neq _ _ P). apply in_or_app. left.
  exact (get_in_values _ _ _ G).
Qed.

Lemma speed_loop_other src k :
  key_in k support_keys = false -> key_in k print_keys = false ->
  forall keys a,
    Dict.get k (new_hash (converter_of (fold_left (speed_step src) keys (Done a))))
    = Dict.get k (new_hash a).
Proof.
  intros S P. induction keys as [|p r IH]; intro a; [reflexivity|].
  cbn [fold_left]. pose proof (speed_step_other src a p k S P) as X.
  destruct (speed_step src (Done a) p) as [a1|a1]; cbn [converter_of] in X.
  - now rewrite IH.
  - now rewrite fold_failed.
Qed.

Lemma write_overhang_other speeds c k :
  key_in k print_keys = false ->
  Dict.get k (new_hash (write_overhang speeds c)) = Dict.get k (new_hash c).
Proof.
  intro P. unfold write_overhang. cbn [fold_left combine seq overhang_keys fst snd].
  rewrite !put_get_other; [reflexivity| | | |];
    apply (print_key_neq _ _ P); apply in_or_app; right; cbn; tauto.
Qed.

Lemma derived_print_fields_other src c k :
  key_in k print_keys = false ->
  Dict.get k (new_hash (derived_print_fields src c)) = Dict.get k (new_hash c).
Proof.
  intro P. unfold derived_print_fields.
  assert (N1 : KStr "enable_overhang_speed" <> k)
    by (apply (print_key_neq _ _ P); apply in_or_app; right; cbn; tauto).
  assert (N2 : KStr "wall_infill_order" <> k)
    by (apply (print_key_neq _ _ P); apply in_or_app; right; cbn; tauto).
  assert (N3 : KStr "ironing_type" <> k)
    by (apply (print_key_neq _ _ P); apply in_or_app; right; cbn; tauto).
  cbv zeta. rewrite !put_get_other by assumption.
  destruct (_ =? "1")%string; [|now rewrite put_get_other].
  destruct (_ <=? _)%nat; [rewrite write_overhang_other by exact P|];
    now rewrite put_get_other.
Qed.

Lemma calculate_print_params_other src a c k :
  key_in k support_keys = false -> key_in k print_keys = false ->
  calculate_print_params src a = Done c ->
  Dict.get k (new_hash c) = Dict.get k (new_hash a).
Proof.
  intros S P. unfold calculate_print_params.
  pose proof (speed_loop_other src k S P SPEED_SEQUENCE a) as X.
  destruct (fold_left _ _ _) as [l|l]; [|discriminate].
  intros [= <-]. cbn [converter_of] in X.
  now rewrite derived_print_fields_other.
Qed.

(** The part of a kind leaves the entries that are not its own. *)
Lemma kind_part_other kind src a c k :
  key_in k support_keys = false -> key_in k (kind_keys kind) = false ->
  (if (kind =? "filament")%string then filament_params src a
   else if (kind =? "print")%string then calculate_print_params src a
   else Done a) = Done c ->
  Dict.get k (new_hash c) = Dict.get k (new_hash a).
Proof.
  unfold kind_keys. intros S K.
  destruct (kind =? "filament")%string; [now apply filament_params_other|].
  destruct (kind =? "print")%string; [now apply calculate_print_params_other|].
  now intros [= <-].
Qed.

(** *** The two trackers through the loop *)

Lemma effect_max_temp e c : max_temp (apply_effect e c) = max_temp c.
Proof. now destruct e. Qed.

Lemma write_target_fields t v c :
  max_temp (write_target t v c) = max_temp c
  /\ ironing_type (write_target t v c) = ironing_type c.
Proof.
  destruct t as [k|ks|]; cbn [write_target]; [now split | | now split].
  revert c. induction ks as [|k r IH]; intro c; [now split|].
  cbn [fold_left]. destruct (IH (put k v c)) as (A & B). now rewrite A, B.
Qed.

Lemma track_max_temp_ironing p v c :
  ironing_type (converter_of (track_max_temp p v c)) = ironing_type c.
Proof.
  unfold track_max_temp. destruct (mem_str p _); [|reflexivity].
  destruct v as [s|[|x l]]; cbn [converter_of]; try reflexivity.
  - destruct (F64.float s) as [t|]; [destruct (F64.ltb _ _)|]; reflexivity.
  - destruct (F64.float x) as [t|]; [destruct (F64.ltb _ _)|]; reflexivity.
Qed.

Lemma temperature_params_plain p :
  mem_str p ["first_layer_temperature"; "temperature"] = true ->
  has_rule p = false /\ Dict.get p MULTIVALUE_PARAMS = None.
Proof.
  intro H. apply mem_str_in in H. cbn [In] in H.
  destruct H as [<-|[<-|[]]]; split; reflexivity.
Qed.

(** A turn of the loop on a table that holds its parameter raises the
    maximum to the temperature it sees. *)
Lemma profile_step_max_temp pm src a p a1 :
  (mem_str p ["first_layer_temperature"; "temperature"] = true ->
   Dict.mem p pm = true) ->
  profile_step pm src (Done a) p = Done a1 ->
  max_temp a1 = bumps (seen_temps src [p]) (max_temp a).
Proof.
  intro T. unfold profile_step, seen_temps. cbn [flat_map]. rewrite app_nil_r.
  destruct (String.eqb_spec p "profile_name") as [->|N];
    [now intros [= <-]|].
  destruct (mem_str p ["first_layer_temperature"; "temperature"]) eqn:M.
  - specialize (T eq_refl). unfold Dict.mem in T.
    destruct (Dict.get p pm) as [t|]; [clear T|discriminate T].
    destruct (temperature_params_plain p M) as (R & V).
    rewrite (convert_params_copied p src a R). unfold copied. rewrite V.
    destruct (Dict.get p src) as [v|]; [|now intros [= <-]].
    destruct (v =? "nil")%string; [now intros [= <-]|].
    unfold track_max_temp. rewrite M.
    destruct (write_target_fields t (Str v) a) as (W & _). rewrite W.
    destruct (F64.float v) as [x|]; cbn [bumps fold_left].
    + destruct (F64.ltb (max_temp a) x); intros [= <-]; [reflexivity | exact W].
    + intros [= <-]. exact W.
  - cbn [bumps fold_left].
    destruct (Dict.get p pm) as [t|]; [|now intros [= <-]].
    destruct (params_effect p src a) as (e & E & _).
    destruct (convert_params p src a) as [[[v|]|] a']; cbn [snd] in E; subst a';
      try discriminate; [|intros [= <-]; apply effect_max_temp].
    unfold track_max_temp. rewrite M. intros [= <-].
    destruct (write_target_fields t v (apply_effect e a)) as (W & _).
    rewrite W. apply effect_max_temp.
Qed.

Lemma seen_temps_cons src p r :
  seen_temps src (p :: r) = seen_temps src [p] ++ seen_temps src r.
Proof. unfold seen_temps. cbn [flat_map]. now rewrite app_nil_r. Qed.

Lemma loop_max_temp pm src :
  Dict.mem "first_layer_temperature" pm = true ->
  Dict.mem "temperature" pm = true ->
  forall keys a l,
    fold_left (profile_step pm src) keys (Done a) = Done l ->
    max_temp l = bumps (seen_temps src keys) (max_temp a).
Proof.
  intros T1 T2. induction keys as [|p r IH]; intros a l H.
  - injection H as <-. reflexivity.
  - cbn [fold_left] in H.
    destruct (profile_step pm src (Done a) p) as [a1|a1] eqn:T;
      [|rewrite fold_failed in H by reflexivity; discriminate H].
    rewrite (IH _ _ H).
    rewrite (profile_step_max_temp pm src a p a1); [|  |exact T].
    + now rewrite (seen_temps_cons src p r), bumps_app.
    + intro M. apply mem_str_in in M. cbn [In] in M.
      destruct M as [<-|[<-|[]]]; assumption.
Qed.

Lemma ironing_rule v src a :
  convert_rules "ironing_type" v src a
  = (Ok (Some (Str v)), set_ironing_type (Some v) a).
Proof. reflexivity. Qed.

(** A turn of the loop notes the ironing type of the source, at the
    parameter [ironing_type] only. *)
Lemma profile_step_ironing pm src a p a1 :
  Dict.mem "ironing_type" pm = true ->
  profile_step pm src (Done a) p = Done a1 ->
  ironing_type a1
  = over (if (p =? "ironing_type")%string then source_ironing src else None)
         (ironing_type a).
Proof.
  intro T. unfold profile_step.
  destruct (String.eqb_spec p "profile_name") as [->|N];
    [now intros [= <-]|].
  destruct (String.eqb_spec p "ironing_type") as [->|I].
  - unfold Dict.mem in T. destruct (Dict.get "ironing_type" pm) as [t|];
      [clear T|discriminate T].
    unfold source_ironing, convert_params.
    destruct (Dict.get "ironing_type" src) as [v|]; [|now intros [= <-]].
    destruct (v =? "nil")%string; [now intros [= <-]|].
    change (Dict.get "ironing_type" MULTIVALUE_PARAMS) with (@None multivalue).
    cbv iota. rewrite ironing_rule. intro H.
    pose proof (track_max_temp_ironing "ironing_type" (Str v)
                  (write_target t (Str v) (set_ironing_type (Some v) a))) as X.
    rewrite H in X. cbn [converter_of] in X. rewrite X.
    now destruct (write_target_fields t (Str v) (set_ironing_type (Some v) a)) as (_ & ->).
  - cbn [over]. destruct (Dict.get p pm) as [t|]; [|now intros [= <-]].
    destruct (params_effect p src a) as (e & E & K).
    assert (Q : ironing_type (apply_effect e a) = ironing_type a).
    { destruct e as [|s|t0 s]; [reflexivity | now destruct K | reflexivity]. }
    destruct (convert_params p src a) as [[[v|]|] a']; cbn [snd] in E; subst a';
      try discriminate; [|now intros [= <-]].
    intro H.
    pose proof (track_max_temp_ironing p v (write_target t v (apply_effect e a))) as X.
    rewrite H in X. cbn [converter_of] in X. rewrite X.
    now destruct (write_target_fields t v (apply_effect e a)) as (_ & ->).
Qed.

Lemma loop_ironing pm src :
  Dict.mem "ironing_type" pm = true ->
  forall keys a l,
    fold_left (profile_step pm src) keys (Done a) = Done l ->
    ironing_type l
    = over (if mem_str "ironing_type" keys then source_ironing src else None)
           (ironing_type a).
Proof.
  intro T. induction keys as [|p r IH]; intros a l H.
  - injection H as <-. reflexivity.
  - cbn [fold_left] in H.
    destruct (profile_step pm src (Done a) p) as [a1|a1] eqn:S;
      [|rewrite fold_failed in H by reflexivity; discriminate H].
    rewrite (IH _ _ H), (profile_step_ironing pm src a p a1 T S).
    unfold mem_str. cbn [existsb]. fold (mem_str "ironing_type" r).
    rewrite (String.eqb_sym "ironing_type" p).
    destruct (p =? "ironing_type")%string; cbn [orb over].
    + destruct (mem_str "ironing_type" r); [apply over_over | reflexivity].
    + reflexivity.
Qed.

Lemma speed_step_ironing src a p :
  (p =? "ironing_type")%string = false ->
  ironing_type (converter_of (speed_step src (Done a) p)) = ironing_type a.
Proof.
  intro N. unfold speed_step.
  destruct (negb (Dict.mem p src)); [reflexivity|].
  destruct (params_effect p src a) as (e & E & K).
  assert (Q : ironing_type (apply_effect e a) = ironing_type a).
  { destruct e as [|s|t0 s]; [reflexivity | | reflexivity].
    destruct K as (-> & _). discriminate N. }
  destruct (convert_params p src a) as [[[v|]|] a']; cbn [snd] in E; subst a';
    cbn [converter_of]; try exact Q.
  destruct (Dict.get p SPEED_PARAMS); exact Q.
Qed.

Lemma speed_loop_ironing src :
  forall keys a,
    mem_str "ironing_type" keys = false ->
    ironing_type (converter_of (fold_left (speed_step src) keys (Done a)))
    = ironing_type a.
Proof.
  induction keys as [|p r IH]; intros a M; [reflexivity|].
  unfold mem_str in M. cbn [existsb] in M. apply orb_false_elim in M.
  destruct M as (M1 & M2). rewrite String.eqb_sym in M1.
  cbn [fold_left]. pose proof (speed_step_ironing src a p M1) as X.
  destruct (speed_step src (Done a) p) as [a1|a1]; cbn [converter_of] in X.
  - now rewrite IH.
  - now rewrite fold_failed.
Qed.

(** *** The record of a conversion *)

Lemma ini_reader_trackers content self :
  max_temp (snd (ini_reader content self)) = max_temp self
  /\ ironing_type (snd (ini_reader content self)) = ironing_type self.
Proof. now split. Qed.

(** A parameter without a rule reaches each of its targets as it is, when
    nothing else writes the target. *)
Lemma copied_entry stem content arg self data kind name c p t v k :
  convert_profile stem content arg self = (Converted data kind name, c) ->
  Dict.get p (Dict.get_default kind [] PARAMETER_MAP) = Some t ->
  has_rule p = false -> p <> "profile_name" ->
  Dict.get p (fst (ini_reader content self)) = Some v -> v <> "nil" ->
  key_in k (writes_of t) = true ->
  only_writer (Dict.get_default kind [] PARAMETER_MAP) p k = true ->
  key_in k (late_keys kind) = false ->
  Dict.get k data = Some (copied p v).
Proof.
  intros H G R N S V W O L.
  destruct (convert_profile_converted _ _ _ _ _ _ _ _ H) as (_ & -> & l & F & P).
  unfold late_keys in L. rewrite !key_in_app in L.
  apply orb_false_elim in L. destruct L as (L1 & L).
  apply orb_false_elim in L. destruct L as (L2 & L3).
  rewrite (kind_part_other _ _ _ _ _ L1 L3 P), (add_metadata_other _ _ _ _ L2).
  apply String.eqb_neq in N, V.
  assert (Wt : forall t0, Dict.get p (Dict.get_default kind [] PARAMETER_MAP) = Some t0 ->
                      key_in k (writes_of t0) = true).
  { intros t0 G0. rewrite G in G0. now injection G0 as <-. }
  assert (Rr : forall a, fst (convert_params p (fst (ini_reader content self)) a)
                         = Ok (Some (copied p v))).
  { intro a. rewrite (convert_params_copied p _ a R), S, V. reflexivity. }
  rewrite (loop_entry _ _ p k (copied p v) L1 O N Wt Rr _ _ _ F).
  rewrite get_keys. unfold Dict.mem. now rewrite S, G.
Qed.

(** X3.  In every conversion that returns a record, of whatever kind: a
    parameter of the kind's table that no rule of [convert_params] names,
    present in the source with a value other than [nil], is found under
    each of its target keys as [convert_params] leaves it (the text, the
    first item of a parameter marked [single], the list of items of one
    marked [array]), provided no other parameter of the table has that
    target and the target is not one of the keys written after the loop. *)
Theorem unruled_parameter_is_copied stem content arg self data kind name c p t v k :
  convert_profile stem content arg self = (Converted data kind name, c) ->
  Dict.get p (Dict.get_default kind [] PARAMETER_MAP) = Some t ->
  has_rule p = false -> p <> "profile_name" ->
  Dict.get p (fst (ini_reader content self)) = Some v -> v <> "nil" ->
  key_in k (writes_of t) = true ->
  only_writer (Dict.get_default kind [] PARAMETER_MAP) p k = true ->
  key_in k (late_keys kind) = false ->
  Dict.get k data = Some (copied p v).
Proof. exact (copied_entry stem content arg self data kind name c p t v k). Qed.

(** X3 at the cost of the filament of a filament profile. *)
Lemma unruled_parameter_is_copied_at_filament_cost :
  exists data name c,
    convert_profile "pla" (content (filament_file "pla" "200")) None init
      = (Converted data "filament" name, c)
    /\ Dict.get (KStr "filament_cost") data = Some (Str "25").
Proof.
  destruct (convert_profile "pla" (content (filament_file "pla" "200")) None init)
    as [r c] eqn:E.
  assert (R : exists data name, r = Converted data "filament" name).
  { assert (F : fst (convert_profile "pla" (content (filament_file "pla" "200"))
                       None init) = r) by (rewrite E; reflexivity).
    vm_compute in F. subst r. eexists. eexists. reflexivity. }
  destruct R as (data & name & ->).
  exists data, name, c. split; [reflexivity|].
  change (Some (Str "25")) with (Some (copied "filament_cost" "25")).
  refine (unruled_parameter_is_copied _ _ _ _ _ _ _ _ "filament_cost"
            (To "filament_cost") "25" (KStr "filament_cost") E _ _ _ _ _ _ _ _);
    first [(vm_compute; reflexivity) | discriminate].
Defined.

(** X4.  In every conversion that returns a filament record: a bed
    temperature of the source, other than [nil], is the value of each of the
    four plate keys, and a first layer bed temperature the value of each of
    the four plate keys of the initial layer. *)
Theorem bed_temperatures_fan_out stem content arg self data name c :
  convert_profile stem content arg self = (Converted data "filament" name, c) ->
  let source_ini := fst (ini_reader content self) in
  (forall v plate,
      Dict.get "bed_temperature" source_ini = Some v -> v <> "nil" ->
      In plate ["hot_plate_temp"; "cool_plate_temp"; "eng_plate_temp";
                "textured_plate_temp"] ->
      entry_of plate data = Some (Str v))
  /\ (forall v plate,
         Dict.get "first_layer_bed_temperature" source_ini = Some v -> v <> "nil" ->
         In plate ["hot_plate_temp_initial_layer"; "cool_plate_temp_initial_layer";
                   "eng_plate_temp_initial_layer";
                   "textured_plate_temp_initial_layer"] ->
         entry_of plate data = Some (Str v)).
Proof.
  intros H source_ini. split; intros v plate G N I; unfold entry_of.
  - change (Some (Str v)) with (Some (copied "bed_temperature" v)).
    cbn [In] in I. destruct I as [<-|[<-|[<-|[<-|[]]]]];
      refine (copied_entry _ _ _ _ _ _ _ _ "bed_temperature"
                (Fan ["hot_plate_temp"; "cool_plate_temp"; "eng_plate_temp";
                      "textured_plate_temp"]) v _ H _ _ _ G N _ _ _);
      first [(vm_compute; reflexivity) | discriminate].
  - change (Some (Str v)) with (Some (copied "first_layer_bed_temperature" v)).
    cbn [In] in I. destruct I as [<-|[<-|[<-|[<-|[]]]]];
      refine (copied_entry _ _ _ _ _ _ _ _ "first_layer_bed_temperature"
                (Fan ["hot_plate_temp_initial_layer"; "cool_plate_temp_initial_layer";
                      "eng_plate_temp_initial_layer";
                      "textured_plate_temp_initial_layer"]) v _ H _ _ _ G N _ _ _);
      first [(vm_compute; reflexivity) | discriminate].
Qed.

(** X4 at a filament profile with [bed_temperature = 60]. *)
Lemma bed_temperatures_fan_out_at_filament_file :
  exists data name c,
    convert_profile "pla" (content (filament_file "pla" "200")) None init
      = (Converted data "filament" name, c)
    /\ map (fun plate => entry_of plate data)
           ["hot_plate_temp"; "cool_plate_temp"; "eng_plate_temp";
            "textured_plate_temp"]
       = [Some (Str "60"); Some (Str "60"); Some (Str "60"); Some (Str "60")].
Proof.
  destruct (convert_profile "pla" (content (filament_file "pla" "200")) None init)
    as [r c] eqn:E.
  assert (R : exists data name, r = Converted data "filament" name).
  { assert (F : fst (convert_profile "pla" (content (filament_file "pla" "200"))
                       None init) = r) by (rewrite E; reflexivity).
    vm_compute in F. subst r. eexists. eexists. reflexivity. }
  destruct R as (data & name & ->).
  exists data, name, c. split; [reflexivity|].
  destruct (bed_temperatures_fan_out _ _ _ _ _ _ _ E) as (B & _).
  assert (G : Dict.get "bed_temperature"
                 (fst (ini_reader (content (filament_file "pla" "200")) init))
               = Some "60") by (vm_compute; reflexivity).
  assert (N : "60" <> "nil") by discriminate.
  cbn [map].
  rewrite (B "60" "hot_plate_temp" G N), (B "60" "cool_plate_temp" G N),
    (B "60" "eng_plate_temp" G N), (B "60" "textured_plate_temp" G N);
    first [reflexivity | (cbn; tauto)].
Defined.

Lemma metadata_not_late kind name k v :
  Dict.get k (metadata kind name) = Some v ->
  key_in k support_keys = false /\ key_in k (kind_keys kind) = false.
Proof.
  unfold metadata. cbn [Dict.get keqb key_Key].
  destruct k as [k|]; [|discriminate]. cbn [key_eqb].
  assert (S : key_in (KStr (kind ++ "_settings_id")) support_keys = false).
  { unfold support_keys, key_in. cbn [existsb key_eqb].
    destruct (String.eqb_spec (kind ++ "_settings_id") "support_type") as [E|_];
      [exfalso; refine (settings_id_neq kind _ _ E); reflexivity|].
    destruct (String.eqb_spec (kind ++ "_settings_id") "support_style") as [E|_];
      [exfalso; refine (settings_id_neq kind _ _ E); reflexivity|].
    reflexivity. }
  assert (K : key_in (KStr (kind ++ "_settings_id")) (kind_keys kind) = false).
  { unfold kind_keys.
    destruct (String.eqb_spec kind "filament") as [->|_]; [vm_compute; reflexivity|].
    destruct (String.eqb_spec kind "print") as [->|_]; [vm_compute; reflexivity|].
    reflexivity. }
  assert (C : forall x : string,
             key_in (KStr x) filament_keys = false ->
             key_in (KStr x) print_keys = false ->
             key_in (KStr x) (kind_keys kind) = false).
  { intros x A B. unfold kind_keys.
    destruct (kind =? "filament")%string; [exact A|].
    destruct (kind =? "print")%string; [exact B | reflexivity]. }
  destruct (String.eqb_spec k (kind ++ "_settings_id")) as [->|_]; [now split|].
  repeat match goal with
         | |- (if (k =? ?s)%string then _ else _) = _ -> _ =>
             destruct (String.eqb_spec k s) as [->|_];
             [intros _; split; [reflexivity | apply C; vm_compute; reflexivity]|]
         end.
  discriminate.
Qed.

(** The metadata of a record that a conversion returns. *)
Lemma converted_metadata stem content arg self data kind name c k v :
  convert_profile stem content arg self = (Converted data kind name, c) ->
  Dict.get k (metadata kind name) = Some v ->
  Dict.get k data = Some v.
Proof.
  intros H G.
  destruct (convert_profile_converted _ _ _ _ _ _ _ _ H) as (_ & -> & l & F & P).
  destruct (metadata_not_late kind name k v G) as (S & K).
  rewrite (kind_part_other _ _ _ _ _ S K P). now apply add_metadata_get.
Qed.

(** X5.  Every record that a conversion returns, of whatever kind, carries
    the five entries of the metadata, whatever the parameters of the source
    wrote: the settings identifier of its kind and the name, both the
    profile name (the [profile_name] of the source or else the stem of the
    file), the origin [User], the custom mark ["1"] and the version. *)
Theorem metadata_is_written stem content arg self data kind name c :
  convert_profile stem content arg self = (Converted data kind name, c) ->
  name = Dict.get_default "profile_name" stem (fst (ini_reader content self))
  /\ entry_of (kind ++ "_settings_id") data = Some (Str name)
  /\ entry_of "name" data = Some (Str name)
  /\ entry_of "from" data = Some (Str "User")
  /\ entry_of "is_custom_defined" data = Some (Str "1")
  /\ entry_of "version" data = Some (Str ORCA_SLICER_VERSION).
Proof.
  intro H. split.
  { now destruct (convert_profile_converted _ _ _ _ _ _ _ _ H) as (N & _). }
  pose proof (settings_id_fresh kind) as F. unfold mem_str in F.
  cbn [existsb] in F. repeat (apply orb_false_elim in F; destruct F as [? F]).
  unfold entry_of.
  repeat match goal with |- _ /\ _ => split end;
    apply (converted_metadata _ _ _ _ _ _ _ _ _ _ H);
    unfold metadata; cbn [Dict.get keqb key_Key key_eqb];
    rewrite ?String.eqb_refl;
    repeat match goal with
           | E : (_ =? _)%string = false |- _ =>
               rewrite String.eqb_sym in E; try rewrite E; clear E
           end;
    reflexivity.
Qed.

(** X5 at a filament profile named by its file. *)
Lemma metadata_is_written_at_filament_file :
  exists data c,
    convert_profile "pla" (content (filament_file "pla" "200")) None init
      = (Converted data "filament" "pla", c)
    /\ map (fun k => entry_of k data)
           ["filament_settings_id"; "name"; "from"; "is_custom_defined"; "version"]
       = map Some [Str "pla"; Str "pla"; Str "User"; Str "1"; Str "1.6.0.0"].
Proof.
  destruct (convert_profile "pla" (content (filament_file "pla" "200")) None init)
    as [r c] eqn:E.
  assert (R : exists data, r = Converted data "filament" "pla").
  { assert (F : fst (convert_profile "pla" (content (filament_file "pla" "200"))
                       None init) = r) by (rewrite E; reflexivity).
    vm_compute in F. subst r. eexists. reflexivity. }
  destruct R as (data & ->).
  exists data, c. split; [reflexivity|].
  destruct (metadata_is_written _ _ _ _ _ _ _ _ E) as (_ & A & B & C & D & V).
  cbn [map]. cbn [append] in A. now rewrite A, B, C, D, V.
Defined.

Lemma loop_without_table src :
  forall keys a, fold_left (profile_step [] src) keys (Done a) = Done a.
Proof.
  induction keys as [|p r IH]; intro a; [reflexivity|].
  cbn [fold_left]. unfold profile_step at 2. cbn [Dict.get].
  destruct (p =? "profile_name")%string; apply IH.
Qed.

Lemma metadata_on_empty kind name l :
  new_hash l = [] -> new_hash (add_metadata kind name l) = metadata kind name.
Proof.
  intro E. pose proof (settings_id_fresh kind) as F. unfold mem_str in F.
  cbn [existsb] in F.
  apply orb_false_elim in F. destruct F as [F1 F].
  apply orb_false_elim in F. destruct F as [F2 F].
  apply orb_false_elim in F. destruct F as [F3 F].
  apply orb_false_elim in F. destruct F as [F4 _].
  rewrite String.eqb_sym in F1, F2, F3, F4.
  unfold add_metadata, put. cbn [new_hash set_new_hash]. rewrite E.
  repeat (cbn [Dict.set keqb key_Key key_eqb];
          first [ rewrite F1 | rewrite F2 | rewrite F3 | rewrite F4
                | match goal with
                  | |- context [String.eqb ?a ?b] =>
                      change (String.eqb a b) with false
                  end ]).
  reflexivity.
Qed.

(** X6.  A conversion that returns a record for a kind without a table in
    [PARAMETER_MAP] -- a kind that the source names with [ini_type], or one
    left from an earlier file -- returns the five entries of the metadata
    and nothing of the source. *)
Theorem unknown_kind_gives_metadata_only stem content arg self data kind name c :
  convert_profile stem content arg self = (Converted data kind name, c) ->
  Dict.get kind PARAMETER_MAP = None ->
  data = metadata kind name.
Proof.
  intros H G.
  destruct (convert_profile_converted _ _ _ _ _ _ _ _ H) as (_ & -> & l & F & P).
  unfold Dict.get_default in F. rewrite G in F.
  rewrite loop_without_table in F. injection F as <-.
  destruct (String.eqb_spec kind "filament") as [->|_];
    [vm_compute in G; discriminate G|].
  destruct (String.eqb_spec kind "print") as [->|_];
    [vm_compute in G; discriminate G|].
  injection P as <-. apply metadata_on_empty.
  apply prepare_fields.
Qed.

(** X6 at a profile that names the kind [sla_print]. *)
Lemma unknown_kind_gives_metadata_only_at_resin_file :
  exists c,
    convert_profile "resin" (content resin_file) None init
      = (Converted (metadata "sla_print" "resin") "sla_print" "resin", c).
Proof.
  destruct (convert_profile "resin" (content resin_file) None init) as [r c] eqn:E.
  assert (R : exists data, r = Converted data "sla_print" "resin").
  { assert (F : fst (convert_profile "resin" (content resin_file) None init) = r)
      by (rewrite E; reflexivity).
    vm_compute in F. subst r. eexists. reflexivity. }
  destruct R as (data & ->).
  exists c.
  assert (G : Dict.get "sla_print" PARAMETER_MAP = None) by (vm_compute; reflexivity).
  now rewrite (unknown_kind_gives_metadata_only _ _ _ _ _ _ _ _ E G).
Defined.

(** X7.  In every conversion that returns a filament record: the low end
    of the nozzle temperature range is ["0"]; the high end is the integer
    part of the running maximum, taken from the maximum the converter
    entered with over the temperatures and first layer temperatures of the
    source that read as numbers, in the order of the source; and a source
    with a numeric [slowdown_below_layer_time] sets the slow down flag to
    ["1"] if that number is above zero and to ["0"] otherwise. *)
Theorem filament_temperature_range stem content arg self data name c :
  convert_profile stem content arg self = (Converted data "filament" name, c) ->
  let source_ini := fst (ini_reader content self) in
  entry_of "nozzle_temperature_range_low" data = Some (Str "0")
  /\ (exists n,
        F64.int (bumps (seen_temps source_ini (Dict.keys source_ini)) (max_temp self))
        = F64.Int n
        /\ entry_of "nozzle_temperature_range_high" data
           = Some (Str (Py.str_of_int n)))
  /\ (forall v x,
        Dict.get "slowdown_below_layer_time" source_ini = Some v ->
        F64.float v = Some x ->
        entry_of "slow_down_for_layer_cooling" data
        = Some (Str (if F64.ltb F64.zero x then "1" else "0"))).
Proof.
  intros H source_ini.
  destruct (convert_profile_converted _ _ _ _ _ _ _ _ H) as (_ & -> & l & F & P).
  fold source_ini in F, P. cbn [String.eqb Ascii.eqb Bool.eqb] in P.
  assert (T1 : Dict.mem "first_layer_temperature"
                 (Dict.get_default "filament" [] PARAMETER_MAP) = true)
    by (vm_compute; reflexivity).
  assert (T2 : Dict.mem "temperature"
                 (Dict.get_default "filament" [] PARAMETER_MAP) = true)
    by (vm_compute; reflexivity).
  apply (loop_max_temp _ _ T1 T2) in F. clear T1 T2.
  destruct (prepare_fields source_ini arg "filament" name
              (snd (ini_reader content self))) as (_ & _ & _ & M & _ & _).
  rewrite M in F. change (max_temp (snd (ini_reader content self)))
    with (max_temp self) in F.
  unfold filament_params in P.
  change (max_temp (put "nozzle_temperature_range_low" (Str "0")
                        (add_metadata "filament" name l)))
    with (max_temp l) in P.
  rewrite F in P. unfold entry_of.
  destruct (F64.int _) as [n| |] eqn:I; try discriminate P.
  destruct (Dict.get "slowdown_below_layer_time" source_ini) as [v|];
    [destruct (F64.float v) as [x|] eqn:Fl|]; injection P as <-.
  - split; [|split].
    + rewrite !put_get_other by discriminate. apply put_get_same.
    + exists n. split; [reflexivity|].
      rewrite put_get_other by discriminate. apply put_get_same.
    + intros v' x' [= <-] Fl'. rewrite Fl in Fl'. injection Fl' as <-.
      apply put_get_same.
  - split; [|split].
    + rewrite put_get_other by discriminate. apply put_get_same.
    + exists n. split; [reflexivity|]. apply put_get_same.
    + intros v' x' [= <-] Fl'. rewrite Fl in Fl'. discriminate Fl'.
  - split; [|split].
    + rewrite put_get_other by discriminate. apply put_get_same.
    + exists n. split; [reflexivity|]. apply put_get_same.
    + intros v' x' [=].
Qed.

(** X7 at a filament profile with [temperature = 200]. *)
Lemma filament_temperature_range_at_filament_file :
  exists data name c,
    convert_profile "pla" (content (filament_file "pla" "200")) None init
      = (Converted data "filament" name, c)
    /\ entry_of "nozzle_temperature_range_low" data = Some (Str "0")
    /\ entry_of "nozzle_temperature_range_high" data = Some (Str "200").
Proof.
  destruct (convert_profile "pla" (content (filament_file "pla" "200")) None init)
    as [r c] eqn:E.
  assert (R : exists data name, r = Converted data "filament" name).
  { assert (F : fst (convert_profile "pla" (content (filament_file "pla" "200"))
                       None init) = r) by (rewrite E; reflexivity).
    vm_compute in F. subst r. eexists. eexists. reflexivity. }
  destruct R as (data & name & ->).
  exists data, name, c. split; [reflexivity|].
  destruct (filament_temperature_range _ _ _ _ _ _ _ E) as (A & (n & B & C) & _).
  split; [exact A|]. rewrite C. vm_compute in B. now injection B as <-.
Defined.

(** X8.  In every conversion that returns a print record, the ironing type
    of the record is the one the source gives with [ironing_type] (other
    than [nil]), or else the one the converter entered with, if the source
    turns [ironing] on and that type is not empty; it is [no ironing]
    otherwise. *)
Theorem print_ironing_type stem content arg self data name c :
  convert_profile stem content arg self = (Converted data "print" name, c) ->
  let source_ini := fst (ini_reader content self) in
  entry_of "ironing_type" data
  = Some (Str (evaluate_ironing_type
                 (flag "ironing" source_ini)
                 (over (source_ironing source_ini) (ironing_type self)))).
Proof.
  intros H source_ini.
  destruct (convert_profile_converted _ _ _ _ _ _ _ _ H) as (_ & -> & l & F & P).
  fold source_ini in F, P. cbn [String.eqb Ascii.eqb Bool.eqb] in P.
  assert (T : Dict.mem "ironing_type"
                (Dict.get_default "print" [] PARAMETER_MAP) = true)
    by (vm_compute; reflexivity).
  apply (loop_ironing _ _ T) in F. clear T.
  destruct (prepare_fields source_ini arg "print" name
              (snd (ini_reader content self))) as (_ & _ & _ & _ & M & _).
  rewrite M in F. change (ironing_type (snd (ini_reader content self)))
    with (ironing_type self) in F.
  assert (Q : (if mem_str "ironing_type" (Dict.keys source_ini)
               then source_ironing source_ini else None)
              = source_ironing source_ini).
  { rewrite get_keys. unfold Dict.mem, source_ironing.
    now destruct (Dict.get "ironing_type" source_ini). }
  rewrite Q in F. clear Q.
  unfold calculate_print_params in P.
  pose proof (speed_loop_ironing source_ini SPEED_SEQUENCE
                (add_metadata "print" name l) eq_refl) as X.
  destruct (fold_left _ _ _) as [c0|c0]; [|discriminate P].
  injection P as <-. cbn [converter_of] in X.
  change (ironing_type (add_metadata "print" name l)) with (ironing_type l) in X.
  unfold entry_of, derived_print_fields. cbv zeta. rewrite put_get_same.
  unfold flag. do 3 f_equal.
  rewrite <- F, <- X.
  destruct (_ =? "1")%string; [destruct (_ <=? _)%nat|]; reflexivity.
Qed.

(** X8 at a print profile with [ironing = 1] and [ironing_type = topmost]. *)
Lemma print_ironing_type_at_ironing_file :
  exists data name c,
    convert_profile "smooth" (content ironing_file) None init
      = (Converted data "print" name, c)
    /\ entry_of "ironing_type" data = Some (Str "topmost").
Proof.
  destruct (convert_profile "smooth" (content ironing_file) None init)
    as [r c] eqn:E.
  assert (R : exists data name, r = Converted data "print" name).
  { assert (F : fst (convert_profile "smooth" (content ironing_file) None init) = r)
      by (rewrite E; reflexivity).
    vm_compute in F. subst r. eexists. eexists. reflexivity. }
  destruct R as (data & name & ->).
  exists data, name, c. split; [reflexivity|].
  rewrite (print_ironing_type _ _ _ _ _ _ _ E). vm_compute. reflexivity.
Defined.

(** ** Numbers: a text that reads as a float does not end with a percent sign *)

Lemma chars_str (l : list ascii) : Py.chars (Py.str l) = l.
Proof. apply list_ascii_of_string_of_list_ascii. Qed.

Lemma str_chars (s : string) : Py.str (Py.chars s) = s.
Proof. apply string_of_list_ascii_of_string. Qed.

Lemma ends_percent_tail (c : ascii) (r : list ascii) :
  ends_percent (c :: r) -> r <> [] -> ends_percent r.
Proof.
  intros ([|c' l'] & E) N; injection E as -> E.
  - now subst r.
  - now exists l'.
Qed.

Lemma ends_percent_not_nil (l : list ascii) : ends_percent l -> l <> [].
Proof. intros (l' & ->) E. now destruct l'. Qed.

Lemma ends_percent_last (l : list ascii) (c : ascii) :
  ends_percent (l ++ [c]) -> c = "%"%char.
Proof. intros (l' & E). now apply app_inj_tail in E. Qed.

(** What [digitpart] leaves of a text that ends with a percent sign ends
    with it too. *)
Lemma digitpart_rest (n : nat) :
  forall l ds rest,
    (List.length l <= n)%nat -> ends_percent l ->
    Py.digitpart l = Some (ds, rest) -> ends_percent rest.
Proof.
  induction n as [|n IH]; intros l ds rest L E H.
  { destruct l; [discriminate H | cbn in L; lia]. }
  destruct l as [|c r]; [discriminate H|]. cbn [Py.digitpart] in H.
  destruct (Py.is_digit c) eqn:D; [|discriminate H].
  destruct r as [|u r'].
  { rewrite (ends_percent_last [] c E) in D. vm_compute in D. discriminate D. }
  assert (Er : ends_percent (u :: r')) by (apply (ends_percent_tail c); easy).
  cbn [List.length] in L.
  destruct (Ascii.eqb u "_") eqn:U.
  - destruct (Py.digitpart r') as [[ds' rest']|] eqn:R.
    + injection H as <- <-. apply (IH r' ds' rest'); [lia| |exact R].
      apply (ends_percent_tail u); [exact Er|]. intros ->. discriminate R.
    + now injection H as <- <-.
  - destruct (Py.digitpart (u :: r')) as [[ds' rest']|] eqn:R.
    + injection H as <- <-. apply (IH (u :: r') ds' rest'); [cbn; lia|exact Er|exact R].
    + now injection H as <- <-.
Qed.

Lemma digitpart_not_all (l ds : list ascii) :
  ends_percent l -> Py.digitpart l <> Some (ds, []).
Proof.
  intros E H. apply (digitpart_rest (List.length l)) in H; [|lia|exact E].
  now apply ends_percent_not_nil in H.
Qed.

Lemma sign_ends_percent (l : list ascii) :
  ends_percent l -> ends_percent (snd (Py.sign l)).
Proof.
  intro E. destruct l as [|c r]; [exact E|]. cbn [Py.sign].
  destruct (Ascii.eqb c "-") eqn:M; [|destruct (Ascii.eqb c "+") eqn:P; [|exact E]];
    cbn [snd]; (apply (ends_percent_tail c); [exact E|]); intros ->.
  - rewrite (ends_percent_last [] c E) in M. vm_compute in M. discriminate M.
  - rewrite (ends_percent_last [] c E) in P. vm_compute in P. discriminate P.
Qed.

Lemma exponent_none (l : list ascii) : ends_percent l -> F64.exponent l = None.
Proof.
  intro E. destruct l as [|c r]; [now apply ends_percent_not_nil in E|].
  cbn [F64.exponent]. destruct (Ascii.eqb (Py.lower_char c) "e"); [|reflexivity].
  destruct (Py.sign r) as [neg r'] eqn:S.
  destruct (Py.digitpart r') as [[ds [|x rest]]|] eqn:D; try reflexivity.
  exfalso. destruct r as [|c2 r2].
  - cbn in S. injection S as <- <-. discriminate D.
  - assert (Er : ends_percent (c2 :: r2)) by (apply (ends_percent_tail c); easy).
    apply sign_ends_percent in Er. rewrite S in Er. cbn [snd] in Er.
    exact (digitpart_not_all _ _ Er D).
Qed.

Lemma floatnumber_none (neg : bool) (l : list ascii) :
  ends_percent l -> F64.floatnumber neg l = None.
Proof.
  intro E. unfold F64.floatnumber.
  destruct (Py.digitpart l) as [[ip rest]|] eqn:D.
  - pose proof (digitpart_rest _ _ _ _ (le_n _) E D) as Er.
    destruct rest as [|c rest']; [now apply ends_percent_not_nil in Er|].
    destruct (Ascii.eqb c ".") eqn:C.
    + assert (N : rest' <> []).
      { intros ->. rewrite (ends_percent_last [] c Er) in C.
        vm_compute in C. discriminate C. }
      pose proof (ends_percent_tail _ _ Er N) as Er'.
      destruct (Py.digitpart rest') as [[fp r]|] eqn:D2.
      * now rewrite (exponent_none _ (digitpart_rest _ _ _ _ (le_n _) Er' D2)).
      * now rewrite (exponent_none _ Er').
    + now rewrite (exponent_none _ Er).
  - destruct l as [|c rest]; [reflexivity|].
    destruct (Ascii.eqb c "."); [|reflexivity].
    destruct (Py.digitpart rest) as [[fp rest']|] eqn:D2; [|reflexivity].
    assert (N : rest <> []) by (intros ->; discriminate D2).
    pose proof (ends_percent_tail _ _ E N) as Er.
    now rewrite (exponent_none _ (digitpart_rest _ _ _ _ (le_n _) Er D2)).
Qed.

Lemma drop_while_snoc (p : ascii -> bool) (l : list ascii) (c : ascii) :
  p c = false -> Py.drop_while p (l ++ [c]) = Py.drop_while p l ++ [c].
Proof.
  intro H. induction l as [|d r IH]; cbn [Py.drop_while app]; [now rewrite H|].
  destruct (p d); [exact IH | reflexivity].
Qed.

Lemma rdrop_while_snoc (p : ascii -> bool) (l : list ascii) (c : ascii) :
  p c = false -> Py.rdrop_while p (l ++ [c]) = l ++ [c].
Proof.
  intro H. unfold Py.rdrop_while. rewrite rev_app_distr. cbn [rev app Py.drop_while].
  rewrite H. cbn [rev]. now rewrite rev_involutive.
Qed.

Lemma ends_percent_word (l : list ascii) (w : string) :
  ends_percent l -> last (Py.chars w) "0"%char <> "%"%char ->
  (Py.str (map Py.lower_char l) =? w)%string = false.
Proof.
  intros (l' & ->) N. apply String.eqb_neq. intro E. apply N. rewrite <- E.
  rewrite chars_str, map_app. cbn [map]. now rewrite last_last.
Qed.

(** [float] rejects every text that ends with a percent sign. *)
Lemma float_ends_percent (l : list ascii) : F64.float (Py.str (l ++ ["%"%char])) = None.
Proof.
  unfold F64.float, Py.strip. rewrite !chars_str.
  rewrite drop_while_snoc by reflexivity.
  rewrite rdrop_while_snoc by reflexivity.
  assert (E : ends_percent (Py.drop_while Py.is_space l ++ ["%"%char])) by now eexists.
  apply sign_ends_percent in E.
  destruct (Py.sign _) as [neg r]. cbn [snd] in E.
  rewrite !(ends_percent_word r) by (exact E || discriminate).
  cbn [orb]. now apply floatnumber_none.
Qed.

(** ** Trimming: a trimmed text stays as it is *)

Lemma drop_while_idem (p : ascii -> bool) (l : list ascii) :
  Py.drop_while p (Py.drop_while p l) = Py.drop_while p l.
Proof.
  induction l as [|c r IH]; [reflexivity|]. cbn [Py.drop_while].
  destruct (p c) eqn:E; [exact IH|]. cbn [Py.drop_while]. now rewrite E.
Qed.

Lemma drop_while_app_snoc (p : ascii -> bool) (l : list ascii) (c : ascii) :
  Py.drop_while p (l ++ [c])
  = match Py.drop_while p l with
    | [] => if p c then [] else [c]
    | y => y ++ [c]
    end.
Proof.
  induction l as [|d r IH]; [reflexivity|]. cbn [app Py.drop_while].
  destruct (p d); [exact IH | reflexivity].
Qed.

Lemma rdrop_while_cons (p : ascii -> bool) (c : ascii) (r : list ascii) :
  Py.rdrop_while p (c :: r)
  = match Py.rdrop_while p r with
    | [] => if p c then [] else [c]
    | x => c :: x
    end.
Proof.
  unfold Py.rdrop_while. cbn [rev]. rewrite drop_while_app_snoc.
  destruct (Py.drop_while p (rev r)) as [|y ys]; [now destruct (p c)|].
  rewrite rev_app_distr. cbn [rev app].
  destruct (rev ys ++ [y]) eqn:E; [|reflexivity].
  now destruct (rev ys).
Qed.

Lemma rdrop_while_idem (p : ascii -> bool) (l : list ascii) :
  Py.rdrop_while p (Py.rdrop_while p l) = Py.rdrop_while p l.
Proof.
  unfold Py.rdrop_while. now rewrite rev_involutive, drop_while_idem.
Qed.

(** A text without a leading [p] has none after its trailing ones are
    removed. *)
Lemma drop_rdrop (p : ascii -> bool) (l : list ascii) :
  Py.drop_while p l = l ->
  Py.drop_while p (Py.rdrop_while p l) = Py.rdrop_while p l.
Proof.
  destruct l as [|c r]; [reflexivity|]. cbn [Py.drop_while].
  destruct (p c) eqn:E.
  - intro H. exfalso.
    assert (L : (List.length (Py.drop_while p r) <= List.length r)%nat).
    { clear. induction r as [|d r IH]; [reflexivity|]. cbn [Py.drop_while].
      destruct (p d); cbn [List.length]; lia. }
    rewrite H in L. cbn [List.length] in L. lia.
  - intros _. rewrite rdrop_while_cons.
    destruct (Py.rdrop_while p r); rewrite ?E; cbn [Py.drop_while]; now rewrite E.
Qed.

Lemma strip_idem (s : string) : Py.strip (Py.strip s) = Py.strip s.
Proof.
  unfold Py.strip. rewrite chars_str.
  rewrite drop_rdrop by apply drop_while_idem.
  now rewrite rdrop_while_idem.
Qed.

Lemma is_percent_strip (s : string) : is_percent (Py.strip s) = is_percent s.
Proof. unfold is_percent. now rewrite strip_idem. Qed.

Lemma remove_percent_strip (s : string) :
  remove_percent (Py.strip s) = remove_percent s.
Proof. unfold remove_percent. now rewrite strip_idem. Qed.

(** ** Percentages *)

Lemma endswith_char_split (c : ascii) (s : string) :
  Py.endswith_char c s = true -> exists l, Py.chars s = l ++ [c].
Proof.
  unfold Py.endswith_char. destruct (rev (Py.chars s)) as [|d r] eqn:R; [discriminate|].
  intro E. apply Ascii.eqb_eq in E. subst d. exists (rev r).
  rewrite <- (rev_involutive (Py.chars s)), R. reflexivity.
Qed.

(** What [is_percent] accepts is a number followed by one percent sign:
    [remove_percent] gives the text before the sign, and it reads as a
    float. *)
Lemma percent_number (value : string) :
  is_percent value = true ->
  remove_percent value = Py.drop_last (Py.strip value)
  /\ exists x, F64.float (remove_percent value) = Some x.
Proof.
  unfold is_percent, remove_percent, Py.rstrip_char, Py.drop_last.
  destruct (Py.endswith_char "%" (Py.strip value)) eqn:E; [|discriminate].
  cbn [negb]. apply endswith_char_split in E. destruct E as (l & ->).
  rewrite removelast_last.
  destruct (F64.float (Py.str l)) as [x|] eqn:F; [intros _|discriminate].
  assert (R : Py.rdrop_while (Ascii.eqb "%") (l ++ ["%"%char]) = l).
  { unfold Py.rdrop_while. rewrite rev_app_distr. cbn [rev app Py.drop_while].
    destruct (rev l) as [|d r] eqn:L.
    - rewrite <- (rev_involutive l), L. reflexivity.
    - cbn [Py.drop_while]. destruct (Ascii.eqb "%" d) eqn:D.
      + apply Ascii.eqb_eq in D. subst d.
        rewrite <- (rev_involutive l), L in F. cbn [rev] in F.
        now rewrite float_ends_percent in F.
      + rewrite <- L. apply rev_involutive. }
  rewrite R. split; [reflexivity|]. now exists x.
Qed.

Lemma percent_to_float_ok (value : string) : exists s, percent_to_float value = Ok s.
Proof.
  unfold percent_to_float. destruct (is_percent value) eqn:P; cbn [negb]; [|now eexists].
  destruct (percent_number value P) as (_ & x & ->). now eexists.
Qed.

(** ** No rule raises *)

Ltac safe_split := lazymatch goal with
  | |- exists o, fst (if ?c then _ else _) = Ok o => destruct c
  | |- exists o, fst (match ?c with Some _ => _ | None => _ end) = Ok o => destruct c
  | |- exists o, fst (match ?c with nil => _ | cons _ _ => _ end) = Ok o => destruct c
  | |- exists o, fst (let (_, _) := ?c in _) = Ok o => destruct c
  end.

Lemma rules_no_raise (p v : string) (src : ini) (a : converter) :
  exists o, fst (convert_rules p v src a) = Ok o.
Proof.
  unfold convert_rules.
  destruct (percent_to_float_ok v) as (s & ->).
  repeat safe_split; now eexists.
Qed.

Lemma params_no_raise (p : string) (src : ini) (a : converter) :
  exists o, fst (convert_params p src a) = Ok o.
Proof.
  unfold convert_params.
  destruct (Dict.get p src) as [raw|]; [|now eexists].
  destruct (raw =? "nil")%string; [now eexists|].
  destruct (Dict.get p MULTIVALUE_PARAMS) as [[]|];
    [apply rules_no_raise | now eexists | apply rules_no_raise].
Qed.

(** ** The loops run to their end *)

Lemma profile_step_done pm src a p :
  exists a1, profile_step pm src (Done a) p = Done a1.
Proof.
  unfold profile_step.
  destruct (p =? "profile_name")%string; [now eexists|].
  destruct (Dict.get p pm) as [t|]; [|now eexists].
  destruct (mem_str p ["first_layer_temperature"; "temperature"]) eqn:M.
  - destruct (temperature_params_plain p M) as (R & V).
    rewrite (convert_params_copied p src a R). unfold copied. rewrite V.
    destruct (Dict.get p src) as [v|]; [|now eexists].
    destruct (v =? "nil")%string; [now eexists|].
    unfold track_max_temp. rewrite M. now eexists.
  - destruct (params_no_raise p src a) as (o & O).
    destruct (convert_params p src a) as [r a']. cbn [fst] in O. subst r.
    destruct o as [v|]; [|now eexists].
    unfold track_max_temp. rewrite M. now eexists.
Qed.

Lemma loop_done pm src :
  forall keys a, exists l, fold_left (profile_step pm src) keys (Done a) = Done l.
Proof.
  induction keys as [|p r IH]; intro a; [now eexists|].
  cbn [fold_left]. destruct (profile_step_done pm src a p) as (a1 & ->). apply IH.
Qed.

Lemma speed_step_done src a p :
  Dict.mem p SPEED_PARAMS = true ->
  exists a1, speed_step src (Done a) p = Done a1.
Proof.
  intro M. unfold speed_step.
  destruct (negb (Dict.mem p src)); [now eexists|].
  destruct (params_no_raise p src a) as (o & O).
  destruct (convert_params p src a) as [r a']. cbn [fst] in O. subst r.
  destruct o as [v|]; [|now eexists].
  unfold Dict.mem in M. destruct (Dict.get p SPEED_PARAMS); [now eexists|discriminate M].
Qed.

Lemma speed_loop_done src :
  forall keys a,
    forallb (fun p => Dict.mem p SPEED_PARAMS) keys = true ->
    exists l, fold_left (speed_step src) keys (Done a) = Done l.
Proof.
  induction keys as [|p r IH]; intros a H; [now eexists|].
  cbn [forallb] in H. apply andb_prop in H. destruct H as (H1 & H2).
  cbn [fold_left]. destruct (speed_step_done src a p H1) as (a1 & ->). now apply IH.
Qed.

Lemma calculate_print_params_done src a :
  exists c, calculate_print_params src a = Done c.
Proof.
  unfold calculate_print_params.
  destruct (speed_loop_done src SPEED_SEQUENCE a eq_refl) as (l & ->). now eexists.
Qed.

(** X9.  What [is_percent] accepts is a number followed by one percent
    sign, blanks around it aside: [remove_percent] gives the text before
    the sign and that text reads as a float.  So [percent_to_float] does
    not raise on it and gives ["2"] or the hundredth of the number, and
    [percent_to_mm] gives a result for every reference that is a number and
    not a percentage. *)
Theorem percentage_has_a_number (value : string) :
  is_percent value = true ->
  exists x,
    F64.float (Py.drop_last (Py.strip value)) = Some x
    /\ remove_percent value = Py.drop_last (Py.strip value)
    /\ percent_to_float value
       = Ok (if F64.ltb (F64.of_Z 2) (F64.div x (F64.of_Z 100)) then "2"
             else F64.repr (F64.div x (F64.of_Z 100)))
    /\ (forall r a,
           is_percent r = false -> F64.float (Py.strip r) = Some a ->
           percent_to_mm (Some r) (Some value)
           = Some (F64.repr (F64.mul a (F64.div x (F64.of_Z 100))))).
Proof.
  intro P. destruct (percent_number value P) as (R & x & F).
  exists x. split; [now rewrite <- R|]. split; [exact R|]. split.
  - unfold percent_to_float. now rewrite P, F.
  - intros r a Pr Fr. unfold percent_to_mm.
    rewrite (eqb_blank _ (float_not_blank _ _ Fr)).
    rewrite <- is_percent_strip in P.
    rewrite (eqb_blank _ (is_percent_not_blank _ P)), P.
    rewrite is_percent_strip, Pr, Fr, remove_percent_strip, F. reflexivity.
Qed.

(** X9 at [150%], with the reference [0.4]. *)
Lemma percentage_has_a_number_at_150 :
  remove_percent " 150% " = "150"
  /\ percent_to_float " 150% " = Ok "1.5"
  /\ percent_to_mm (Some "0.4") (Some " 150% ") = Some "0.6000000000000001".
Proof.
  assert (P : is_percent " 150% " = true) by (vm_compute; reflexivity).
  destruct (percentage_has_a_number " 150% " P) as (x & F & R & T & M).
  assert (X : x = F64.of_Z 150).
  { vm_compute in F. injection F as <-. vm_compute. reflexivity. }
  subst x. split; [rewrite R; vm_compute; reflexivity|].
  split; [rewrite T; vm_compute; reflexivity|].
  rewrite (M "0.4" (F64.of_decimal false 4 (-1)));
    vm_compute; reflexivity.
Defined.

(** ** When a conversion raises *)

Lemma convert_parsed_exception stem src arg s0 c :
  convert_parsed stem src arg s0 = (Exception, c) ->
  kind_of s0 src = Some "filament"
  /\ forall n,
       F64.int (bumps (seen_temps src (Dict.keys src)) (max_temp s0)) <> F64.Int n.
Proof.
  unfold convert_parsed, kind_of.
  destruct (Py.truthy (slicer_flavor s0)); cbn [negb]; [|discriminate].
  destruct (if Py.truthy (ini_type s0) then ini_type s0 else detect_ini_type src)
    as [kind|]; [|discriminate].
  destruct (kind =? "")%string; [discriminate|].
  unfold convert_body.
  set (name := Dict.get_default "profile_name" stem src).
  destruct (loop_done (Dict.get_default kind [] PARAMETER_MAP) src (Dict.keys src)
              (prepare src arg kind name s0)) as (l & L).
  rewrite L.
  destruct (String.eqb_spec kind "filament") as [->|N].
  - assert (T1 : Dict.mem "first_layer_temperature"
                   (Dict.get_default "filament" [] PARAMETER_MAP) = true)
      by (vm_compute; reflexivity).
    assert (T2 : Dict.mem "temperature"
                   (Dict.get_default "filament" [] PARAMETER_MAP) = true)
      by (vm_compute; reflexivity).
    apply (loop_max_temp _ _ T1 T2) in L. clear T1 T2.
    destruct (prepare_fields src arg "filament" name s0) as (_ & _ & _ & M & _ & _).
    rewrite M in L. unfold filament_params.
    change (max_temp (put "nozzle_temperature_range_low" (Str "0")
                          (add_metadata "filament" name l)))
      with (max_temp l).
    rewrite L.
    destruct (F64.int _) as [n| |] eqn:I.
    + destruct (Dict.get "slowdown_below_layer_time" src) as [v|];
        [destruct (F64.float v)|]; discriminate.
    + intros _. split; [reflexivity | discriminate].
    + intros _. split; [reflexivity | discriminate].
  - destruct (kind =? "print")%string; [|discriminate].
    destruct (calculate_print_params_done src (add_metadata kind name l)) as (x & ->).
    discriminate.
Qed.

(** X10.  After the file is read, [convert_profile] raises in one case
    only: the profile is a filament profile and the running maximum of its
    temperatures, taken from the maximum the converter entered with, has no
    integer part -- it is infinite.  So no rule of [convert_params] and
    neither loop makes a conversion raise, whatever the texts of the
    source. *)
Theorem conversion_raises_only_on_unbounded_temperature stem content arg self c :
  convert_profile stem content arg self = (Exception, c) ->
  let source_ini := fst (ini_reader content self) in
  kind_of self source_ini = Some "filament"
  /\ forall n,
       F64.int (bumps (seen_temps source_ini (Dict.keys source_ini)) (max_temp self))
       <> F64.Int n.
Proof.
  intro H. cbv zeta. unfold convert_profile in H.
  destruct (ini_reader content self) as [src s0] eqn:R. cbn [fst].
  apply convert_parsed_exception in H.
  unfold ini_reader in R. injection R as _ <-. exact H.
Qed.

(** X10 at a filament profile with [temperature = inf]. *)
Lemma conversion_raises_only_on_unbounded_temperature_at_molten_file :
  exists c,
    convert_profile "molten" (content molten_file) None init = (Exception, c)
    /\ kind_of init (fst (ini_reader (content molten_file) init)) = Some "filament".
Proof.
  destruct (convert_profile "molten" (content molten_file) None init) as [r c] eqn:E.
  assert (R : r = Exception).
  { assert (F : fst (convert_profile "molten" (content molten_file) None init) = r)
      by (rewrite E; reflexivity).
    vm_compute in F. now subst r. }
  subst r. exists c. split; [reflexivity|].
  exact (proj1 (conversion_raises_only_on_unbounded_temperature _ _ _ _ _ E)).
Defined.

(** ** An infinite maximum *)

Lemma infinity_top (t : F64.t) : F64.ltb (S754_infinity false) t = false.
Proof. destruct t as [s|[]| |s m e]; reflexivity. Qed.

Lemma bumps_infinity (ts : list F64.t) :
  bumps ts (S754_infinity false) = S754_infinity false.
Proof. apply bumps_fixed. intros t _. apply infinity_top. Qed.

Lemma convert_profile_infinity stem content arg self :
  max_temp self = S754_infinity false ->
  max_temp (snd (convert_profile stem content arg self)) = S754_infinity false
  /\ forall data name,
       fst (convert_profile stem content arg self) <> Converted data "filament" name.
Proof.
  intro M. split.
  - unfold convert_profile. destruct (ini_reader content self) as [src s0] eqn:R.
    assert (M0 : max_temp s0 = S754_infinity false).
    { replace s0 with (snd (ini_reader content self)) by now rewrite R. exact M. }
    destruct (convert_parsed_cases stem src arg s0) as [->|(kind & _ & _ & ->)];
      [exact M0|].
    set (name := Dict.get_default "profile_name" stem src).
    destruct (convert_body_pair kind name src (prepare src arg kind name s0)
                (prepare src arg kind name s0) eq_refl) as (d & (T & _) & _).
    rewrite T.
    destruct (prepare_fields src arg kind name s0) as (_ & _ & _ & -> & _ & _).
    rewrite M0. apply bumps_infinity.
  - intros data name E.
    destruct (convert_profile stem content arg self) as [r c] eqn:H.
    cbn [fst] in E. subst r.
    destruct (convert_profile_converted _ _ _ _ _ _ _ _ H) as (_ & _ & l & F & P).
    cbn [String.eqb Ascii.eqb Bool.eqb] in P.
    assert (T1 : Dict.mem "first_layer_temperature"
                   (Dict.get_default "filament" [] PARAMETER_MAP) = true)
      by (vm_compute; reflexivity).
    assert (T2 : Dict.mem "temperature"
                   (Dict.get_default "filament" [] PARAMETER_MAP) = true)
      by (vm_compute; reflexivity).
    apply (loop_max_temp _ _ T1 T2) in F. clear T1 T2.
    destruct (prepare_fields (fst (ini_reader content self)) arg "filament" name
                (snd (ini_reader content self))) as (_ & _ & _ & M1 & _ & _).
    rewrite M1 in F.
    change (max_temp (snd (ini_reader content self))) with (max_temp self) in F.
    rewrite M, bumps_infinity in F.
    unfold filament_params in P.
    change (max_temp (put "nozzle_temperature_range_low" (Str "0")
                          (add_metadata "filament" name l)))
      with (max_temp l) in P.
    rewrite F in P. discriminate P.
Qed.

Lemma nozzle_for_max_temp o f c : max_temp (snd (nozzle_for o f c)) = max_temp c.
Proof.
  unfold nozzle_for. destruct (_ && _); [|reflexivity].
  destruct (ini_reader (content f) c) as [t c'] eqn:R. cbn [snd set_slicer_flavor max_temp].
  replace c' with (snd (ini_reader (content f) c)) by now rewrite R. reflexivity.
Qed.

(** With an infinite maximum a file is left unwritten, the maximum staying
    infinite, or it is written as a profile of another kind than filament. *)
Lemma process_file_infinity o b f :
  max_temp (conv b) = S754_infinity false ->
  (results (process_file o b f) = results b
   /\ max_temp (conv (process_file o b f)) = S754_infinity false)
  \/ exists e, results (process_file o b f) = results b ++ [e]
               /\ e_type e <> "filament".
Proof.
  intro M. unfold process_file.
  pose proof (nozzle_for_max_temp o f (conv b)) as N.
  destruct (nozzle_for o f (conv b)) as [nz c0]. cbn [snd] in N. rewrite M in N.
  destruct (convert_profile_infinity (stem f) (content f) nz c0 N) as (I & K).
  destruct (convert_profile (stem f) (content f) nz c0) as [r c].
  cbn [fst snd] in I, K.
  destruct r as [data kind name|s|]; [|now left|now left].
  assert (Q : kind <> "filament") by (intros ->; now apply (K data name)).
  assert (W : forall d st,
             (results
                match write_json (output_file_of o kind name) d (fs b) with
                | (Ok _, fs') =>
                    {| conv := reset_for_next o c; fs := fs';
                       results := results b ++
                         [{| e_input := stem f;
                             e_output := output_file_of o kind name;
                             e_type := kind; e_name := name; e_status := st |}] |}
                | (Raise, fs') => {| conv := c; fs := fs'; results := results b |}
                end = results b
              /\ max_temp (conv
                   match write_json (output_file_of o kind name) d (fs b) with
                   | (Ok _, fs') =>
                       {| conv := reset_for_next o c; fs := fs';
                          results := results b ++
                            [{| e_input := stem f;
                                e_output := output_file_of o kind name;
                                e_type := kind; e_name := name; e_status := st |}] |}
                   | (Raise, fs') => {| conv := c; fs := fs'; results := results b |}
                   end) = S754_infinity false)
             \/ exists e,
                  results
                    match write_json (output_file_of o kind name) d (fs b) with
                    | (Ok _, fs') =>
                        {| conv := reset_for_next o c; fs := fs';
                           results := results b ++
                             [{| e_input := stem f;
                                 e_output := output_file_of o kind name;
                                 e_type := kind; e_name := name; e_status := st |}] |}
                    | (Raise, fs') => {| conv := c; fs := fs'; results := results b |}
                    end = results b ++ [e]
                  /\ e_type e <> "filament").
  { intros d st. destruct (write_json _ d (fs b)) as [[[]|] fs'].
    - right. eexists. split; [reflexivity | exact Q].
    - now left. }
  destruct (Dict.get (output_file_of o kind name) (fs b)) as [[e|]|]; cbv zeta.
  - destruct (opt_on_existing o =? "skip")%string; [now left|].
    destruct (opt_on_existing o =? "merge")%string; apply W.
  - destruct (opt_on_existing o =? "skip")%string; [now left|].
    destruct (opt_on_existing o =? "merge")%string; [now left | apply W].
  - apply W.
Qed.

Lemma process_file_results o b f :
  exists more, results (process_file o b f) = results b ++ more.
Proof.
  unfold process_file.
  destruct (nozzle_for o f (conv b)) as [nz c0].
  destruct (convert_profile (stem f) (content f) nz c0) as [r c].
  destruct r as [data kind name|s|]; try (exists []; now rewrite app_nil_r).
  cbv zeta.
  assert (W : forall d st, exists more,
             results
               match write_json (output_file_of o kind name) d (fs b) with
               | (Ok _, fs') =>
                   {| conv := reset_for_next o c; fs := fs';
                      results := results b ++
                        [{| e_input := stem f;
                            e_output := output_file_of o kind name;
                            e_type := kind; e_name := name; e_status := st |}] |}
               | (Raise, fs') => {| conv := c; fs := fs'; results := results b |}
               end = results b ++ more).
  { intros d st. destruct (write_json _ d (fs b)) as [[[]|] fs'].
    - now eexists.
    - exists []. now rewrite app_nil_r. }
  destruct (Dict.get (output_file_of o kind name) (fs b)) as [[e|]|].
  - destruct (opt_on_existing o =? "skip")%string;
      [exists []; now rewrite app_nil_r|].
    destruct (opt_on_existing o =? "merge")%string; apply W.
  - destruct (opt_on_existing o =? "skip")%string;
      [exists []; now rewrite app_nil_r|].
    destruct (opt_on_existing o =? "merge")%string;
      [exists []; now rewrite app_nil_r | apply W].
  - apply W.
Qed.

Lemma loop_results o inputs :
  forall b, exists more,
    results (fold_left (process_file o) inputs b) = results b ++ more.
Proof.
  induction inputs as [|f r IH]; intro b; [exists []; now rewrite app_nil_r|].
  cbn [fold_left]. destruct (IH (process_file o b f)) as (m2 & ->).
  destruct (process_file_results o b f) as (m1 & ->).
  exists (m1 ++ m2). now rewrite app_assoc.
Qed.

(** X11.  Once the maximum of the temperatures is infinite -- as a
    filament profile with [temperature = inf] leaves it, its conversion
    raising before the reset at the end of the loop body -- the loop of
    [main] writes no filament profile any more: over any further input
    files it writes nothing, the maximum staying infinite, or the first
    profile it writes is of another kind. *)
Theorem unbounded_maximum_blocks_filament (o : options) (inputs : list input_file)
  (b : batch) :
  max_temp (conv b) = S754_infinity false ->
  let b' := fold_left (process_file o) inputs b in
  (results b' = results b /\ max_temp (conv b') = S754_infinity false)
  \/ exists e rest, results b' = results b ++ e :: rest /\ e_type e <> "filament".
Proof.
  revert b. induction inputs as [|f r IH]; intros b M; [now left|].
  cbn [fold_left]. cbv zeta.
  destruct (process_file_infinity o b f M) as [(R & M1)|(e & R & Q)].
  - specialize (IH _ M1). cbv zeta in IH. now rewrite R in IH.
  - right. destruct (loop_results o r (process_file o b f)) as (more & ->).
    exists e, more. rewrite R, <- app_assoc. now split.
Qed.

(** X11 at a batch of the profile with [temperature = inf] and a plain one
    after it. *)
Lemma unbounded_maximum_blocks_filament_at_molten_file :
  let o := batch_options "overwrite" in
  let b := main_loop o [molten_file] [] in
  max_temp (conv b) = S754_infinity false
  /\ results (fold_left (process_file o) [filament_file "pla" "200"] b) = [].
Proof.
  cbv zeta.
  assert (M : max_temp (conv (main_loop (batch_options "overwrite") [molten_file] []))
              = S754_infinity false) by (vm_compute; reflexivity).
  split; [exact M|].
  destruct (unbounded_maximum_blocks_filament (batch_options "overwrite")
              [filament_file "pla" "200"] _ M) as [(R & _)|(e & rest & R & Q)].
  - rewrite R. vm_compute. reflexivity.
  - exfalso. apply Q.
    assert (X : map e_type
                  (results (fold_left (process_file (batch_options "overwrite"))
                              [filament_file "pla" "200"]
                              (main_loop (batch_options "overwrite") [molten_file] [])))
                = map e_type (results (main_loop (batch_options "overwrite")
                                         [molten_file] []) ++ e :: rest))
      by now rewrite R.
    vm_compute in X. discriminate X.
Defined.

(** ** Texts: splitting, trimming and the lines of a file *)

Lemma chars_app (a b : string) : Py.chars (a ++ b) = Py.chars a ++ Py.chars b.
Proof.
  unfold Py.chars. induction a as [|c a IH]; [reflexivity|].
  cbn [append list_ascii_of_string app]. now rewrite IH.
Qed.

Lemma split_chars_not_nil (c : ascii) (l : list ascii) : Py.split_chars c l <> [].
Proof.
  destruct l as [|d r]; [discriminate|]. cbn [Py.split_chars].
  destruct (Ascii.eqb c d); [discriminate|].
  destruct (Py.split_chars c r); discriminate.
Qed.

(** Splitting a text that has the separator between [a] and [b]. *)
Lemma split_chars_app (c : ascii) (a b : list ascii) :
  Py.split_chars c (a ++ c :: b)
  = removelast (Py.split_chars c a)
    ++ (last (Py.split_chars c a) [] ) :: Py.split_chars c b.
Proof.
  induction a as [|d a IH].
  - cbn [app Py.split_chars removelast last]. now rewrite Ascii.eqb_refl.
  - cbn [app Py.split_chars]. destruct (Ascii.eqb c d).
    + rewrite IH. pose proof (split_chars_not_nil c a) as N.
      destruct (Py.split_chars c a) as [|p ps]; [contradiction|]. reflexivity.
    + rewrite IH. pose proof (split_chars_not_nil c a) as N.
      destruct (Py.split_chars c a) as [|p ps]; [contradiction|].
      destruct ps as [|q qs]; reflexivity.
Qed.

Lemma removelast_last_id {A : Type} (l : list A) (d : A) :
  l <> [] -> removelast l ++ [last l d] = l.
Proof. intro N. symmetry. now apply app_removelast_last. Qed.

Lemma split_chars_snoc (c : ascii) (a b : list ascii) :
  existsb (Ascii.eqb c) b = false ->
  Py.split_chars c (a ++ c :: b) = Py.split_chars c a ++ [b].
Proof.
  intro F. rewrite split_chars_app.
  assert (S : Py.split_chars c b = [b]).
  { clear a. induction b as [|d r IH]; [reflexivity|].
    cbn [existsb] in F. apply orb_false_elim in F. destruct F as (F1 & F2).
    cbn [Py.split_chars]. now rewrite F1, (IH F2). }
  rewrite S.
  change (last (Py.split_chars c a) [] :: [b])
    with ([last (Py.split_chars c a) []] ++ [b]).
  rewrite app_assoc. f_equal. apply removelast_last_id, split_chars_not_nil.
Qed.

(** No piece holds the separator. *)
Lemma split_chars_pieces (c : ascii) (l : list ascii) :
  Forall (fun p => existsb (Ascii.eqb c) p = false) (Py.split_chars c l).
Proof.
  induction l as [|d r IH]; [repeat constructor|]. cbn [Py.split_chars].
  destruct (Ascii.eqb c d) eqn:E; [now constructor|].
  destruct (Py.split_chars c r) as [|p ps]; [repeat constructor; cbn; now rewrite E|].
  inversion IH as [|? ? P Ps]; subst. constructor; [|exact Ps].
  cbn [existsb]. now rewrite E, P.
Qed.

Lemma drop_while_keeps (f p : ascii -> bool) (l : list ascii) :
  existsb f l = false -> existsb f (Py.drop_while p l) = false.
Proof.
  induction l as [|d r IH]; [reflexivity|]. cbn [Py.drop_while].
  destruct (p d); [|easy]. cbn [existsb]. intro H.
  apply orb_false_elim in H. now apply IH.
Qed.

Lemma existsb_rev (f : ascii -> bool) (l : list ascii) :
  existsb f (rev l) = existsb f l.
Proof.
  induction l as [|d r IH]; [reflexivity|]. cbn [rev existsb].
  rewrite existsb_app, IH. cbn [existsb]. rewrite orb_false_r. apply orb_comm.
Qed.

(** Trimming adds no character. *)
Lemma strip_free (c : ascii) (l : list ascii) :
  existsb (Ascii.eqb c) l = false -> free_of c (Py.strip (Py.str l)).
Proof.
  intro H. unfold free_of, Py.contains_char, Py.strip, Py.rdrop_while.
  rewrite !chars_str, existsb_rev. apply drop_while_keeps.
  rewrite existsb_rev. now apply drop_while_keeps.
Qed.

(** ** [multivalue_to_array] *)

(** X12.  [multivalue_to_array] gives no item for the empty text only.  Of
    any other text it gives at least one item; every item is trimmed and
    free of the delimiter, the comma if the text holds one and the semicolon
    otherwise; a text without either is its own single item, trimmed. *)
Theorem multivalue_items (s : string) :
  s <> "" ->
  multivalue_to_array (Some s) <> []
  /\ Forall (fun x => Py.strip x = x /\ free_of (delimiter_of s) x)
            (multivalue_to_array (Some s))
  /\ (free_of "," s -> free_of ";" s -> multivalue_to_array (Some s) = [Py.strip s]).
Proof.
  intro N. unfold multivalue_to_array. rewrite (eqb_blank s N).
  fold (delimiter_of s). unfold Py.split. rewrite map_map.
  split; [|split].
  - pose proof (split_chars_not_nil (delimiter_of s) (Py.chars s)) as Q.
    destruct (Py.split_chars _ _); [contradiction | discriminate].
  - apply Forall_map.
    eapply Forall_impl; [|apply split_chars_pieces].
    intros p F. cbv beta in F. split; [apply strip_idem | now apply strip_free].
  - intros C S. unfold delimiter_of. unfold free_of in C, S. rewrite C.
    assert (P : Py.split_chars ";" (Py.chars s) = [Py.chars s]).
    { unfold Py.contains_char in S. revert S. generalize (Py.chars s) as l.
      induction l as [|d r IH]; [reflexivity|]. cbn [existsb]. intro F.
      apply orb_false_elim in F. destruct F as (F1 & F2).
      cbn [Py.split_chars]. now rewrite F1, (IH F2). }
    rewrite P. cbn [map]. now rewrite str_chars.
Qed.

(** X12 at a list of three speeds. *)
Lemma multivalue_items_at_speeds :
  multivalue_to_array (Some "10, 20 ,30;x") = ["10"; "20"; "30;x"]
  /\ Forall (fun x => Py.strip x = x /\ free_of "," x) ["10"; "20"; "30;x"].
Proof.
  assert (N : "10, 20 ,30;x" <> "") by discriminate.
  destruct (multivalue_items "10, 20 ,30;x" N) as (_ & F & _).
  split; [vm_compute; reflexivity|]. exact F.
Defined.

(** ** [ini_reader] *)

Lemma split_once_chars_parts (c : ascii) (l a b : list ascii) :
  Py.split_once_chars c l = Some (a, b) ->
  l = a ++ c :: b /\ existsb (Ascii.eqb c) a = false.
Proof.
  revert a b. induction l as [|d r IH]; intros a b; [discriminate|].
  cbn [Py.split_once_chars]. destruct (Ascii.eqb c d) eqn:E.
  - intros [= <- <-]. apply Ascii.eqb_eq in E. now subst d.
  - destruct (Py.split_once_chars c r) as [[a' b']|]; [|discriminate].
    intros [= <- <-]. destruct (IH a' b' eq_refl) as (-> & F).
    split; [reflexivity|]. cbn [existsb]. now rewrite E, F.
Qed.

Lemma split_once_chars_found (c : ascii) (a b : list ascii) :
  existsb (Ascii.eqb c) a = false ->
  Py.split_once_chars c (a ++ c :: b) = Some (a, b).
Proof.
  induction a as [|d a IH]; cbn [app Py.split_once_chars existsb].
  - now rewrite Ascii.eqb_refl.
  - intro F. apply orb_false_elim in F. destruct F as (F1 & F2).
    now rewrite F1, (IH F2).
Qed.

Lemma in_set (k a : string) (v b : string) (d : ini) :
  In (a, b) (Dict.set k v d) -> (a = k /\ b = v) \/ In (a, b) d.
Proof.
  induction d as [|[k' v'] r IH]; cbn [Dict.set In].
  - intros [[= <- <-]|[]]. now left.
  - destruct (keqb k k') eqn:E; cbn [In].
    + apply keqb_eq in E. subst k'. intros [[= <- <-]|I]; [now left | right; now right].
    + intros [I|I]; [right; now left|]. destruct (IH I) as [L|R]; [now left | right; now right].
Qed.

(** What one line adds to the mapping: its two sides, trimmed. *)
Lemma ini_line_entries (P : string -> string -> Prop) (st : ini * option string)
  (line : string) :
  (forall k v, Py.split_once "=" line = Some (k, v) -> P (Py.strip k) (Py.strip v)) ->
  (forall a b, In (a, b) (fst st) -> P a b) ->
  forall a b, In (a, b) (fst (ini_line st line)) -> P a b.
Proof.
  intros L I a b. unfold ini_line.
  destruct (generated_by line); [apply I|].
  destruct (blank_or_comment line); [apply I|].
  destruct (Py.split_once "=" line) as [[k v]|]; [|apply I].
  cbn [fst]. intro H. apply in_set in H. destruct H as [(-> & ->)|H]; [now apply L | now apply I].
Qed.

Lemma existsb_app_false (f : ascii -> bool) (a b : list ascii) :
  existsb f (a ++ b) = false -> existsb f a = false /\ existsb f b = false.
Proof. rewrite existsb_app. apply orb_false_elim. Qed.

(** X13.  Every entry of the mapping that [ini_reader] returns has a
    trimmed key and a trimmed value; the key holds no equals sign, and
    neither of them a line feed. *)
Theorem ini_reader_entries (content : string) (self : converter) (k v : string) :
  In (k, v) (fst (ini_reader content self)) ->
  Py.strip k = k /\ Py.strip v = v
  /\ free_of "=" k /\ free_of newline k /\ free_of newline v.
Proof.
  unfold ini_reader. cbn [fst]. unfold Py.split.
  pose proof (split_chars_pieces newline (Py.chars content)) as F.
  fold newline. revert F. generalize (Py.split_chars newline (Py.chars content)) as ls.
  generalize (slicer_flavor self) as fl.
  assert (G : forall ls fl (d : ini),
             Forall (fun p => existsb (Ascii.eqb newline) p = false) ls ->
             (forall a b, In (a, b) d ->
                Py.strip a = a /\ Py.strip b = b
                /\ free_of "=" a /\ free_of newline a /\ free_of newline b) ->
             forall a b, In (a, b) (fst (fold_left ini_line (map Py.str ls) (d, fl))) ->
                Py.strip a = a /\ Py.strip b = b
                /\ free_of "=" a /\ free_of newline a /\ free_of newline b).
  { induction ls as [|l ls IH]; intros fl d F I a b; [apply I|].
    cbn [map fold_left]. inversion F as [|? ? Fl Fls]; subst.
    destruct (ini_line (d, fl) (Py.str l)) as [d' fl'] eqn:E.
    apply (IH fl' d' Fls). intros a' b' H.
    replace d' with (fst (ini_line (d, fl) (Py.str l))) in H by now rewrite E.
    revert a' b' H. apply ini_line_entries; [|exact I].
    intros x y S. unfold Py.split_once in S. rewrite chars_str in S.
    destruct (Py.split_once_chars "=" l) as [[x' y']|] eqn:Q; [|discriminate S].
    injection S as <- <-.
    destruct (split_once_chars_parts _ _ _ _ Q) as (-> & Fx).
    apply existsb_app_false in Fl. destruct Fl as (Nx & Ny).
    cbn [existsb] in Ny. apply orb_false_elim in Ny. destruct Ny as (_ & Ny).
    repeat split; try apply strip_idem; now apply strip_free. }
  intros fl ls F. apply (G ls fl [] F). intros a b [].
Qed.

(** X14.  [ini_reader] reads a file line by line: on a text followed by
    one more line [k=v] -- [k] without an equals sign, the line not blank,
    not a comment and without a line feed -- it returns the mapping of the
    text with [k], trimmed, set to [v], trimmed, and leaves the converter
    as the text alone does.  So a later line replaces the value of an
    earlier one with the same key. *)
Theorem ini_reader_appended_line (content k v : string) (self : converter) :
  free_of "=" k -> free_of newline k -> free_of newline v ->
  blank_or_comment (k ++ "=" ++ v) = false ->
  ini_reader (content ++ newline_text ++ k ++ "=" ++ v) self
  = (Dict.set (Py.strip k) (Py.strip v) (fst (ini_reader content self)),
     snd (ini_reader content self)).
Proof.
  intros Ek Nk Nv B. unfold ini_reader, Py.split. fold newline.
  rewrite chars_app.
  change (Py.chars (newline_text ++ k ++ "=" ++ v))
    with (newline :: Py.chars (k ++ "=" ++ v)).
  assert (Fl : existsb (Ascii.eqb newline) (Py.chars (k ++ "=" ++ v)) = false).
  { rewrite !chars_app, !existsb_app. unfold free_of, Py.contains_char in Nk, Nv.
    now rewrite Nk, Nv. }
  rewrite (split_chars_snoc _ _ _ Fl), map_app, fold_left_app.
  cbn [map fold_left]. rewrite str_chars.
  set (st := fold_left ini_line _ _).
  assert (L : ini_line st (k ++ "=" ++ v)
              = (Dict.set (Py.strip k) (Py.strip v) (fst st), snd st)).
  { unfold ini_line. rewrite B.
    assert (Gn : generated_by (k ++ "=" ++ v) = None).
    { unfold generated_by, blank_or_comment in *.
      destruct (Py.chars (k ++ "=" ++ v)) as [|c r]; [reflexivity|].
      destruct (Ascii.eqb c "#") eqn:H; [|reflexivity].
      apply Ascii.eqb_eq in H. subst c. cbn in B. discriminate B. }
    rewrite Gn. unfold Py.split_once. rewrite chars_app.
    change (Py.chars ("=" ++ v)) with ("="%char :: Py.chars v).
    rewrite split_once_chars_found by exact Ek. now rewrite !str_chars. }
  rewrite L. reflexivity.
Qed.

(** X14 at a second temperature line after a filament profile. *)
Lemma ini_reader_appended_line_at_temperature :
  Dict.get "temperature"
    (fst (ini_reader (content (filament_file "pla" "200")
                      ++ newline_text ++ "temperature " ++ "=" ++ " 215")
                     init))
  = Some "215".
Proof.
  rewrite (ini_reader_appended_line (content (filament_file "pla" "200"))
             "temperature " " 215" init);
    vm_compute; reflexivity.
Defined.

(** X13 at the temperature of a filament profile. *)
Lemma ini_reader_entries_at_filament_file :
  Py.strip "temperature" = "temperature" /\ Py.strip "200" = "200"
  /\ free_of "=" "temperature" /\ free_of newline "temperature"
  /\ free_of newline "200".
Proof.
  apply (ini_reader_entries (content (filament_file "pla" "200")) init).
  vm_compute. tauto.
Defined.

(** ** [unbackslash_gcode] *)

Lemma replace2_plain (a b r : ascii) (l : list ascii) :
  existsb (Ascii.eqb a) l = false -> Py.replace2 a b r l = l.
Proof.
  induction l as [|x rest IH]; [reflexivity|]. cbn [existsb]. intro F.
  apply orb_false_elim in F. destruct F as (F1 & F2).
  destruct rest as [|y t]; [reflexivity|].
  change (Py.replace2 a b r (x :: y :: t))
    with (if Ascii.eqb x a && Ascii.eqb y b then r :: Py.replace2 a b r t
          else x :: Py.replace2 a b r (y :: t)).
  rewrite Ascii.eqb_sym, F1. cbn [andb]. now rewrite (IH F2).
Qed.

Lemma existsb_removelast (f : ascii -> bool) (l : list ascii) :
  existsb f l = false -> existsb f (removelast l) = false.
Proof.
  induction l as [|x r IH]; [reflexivity|]. cbn [existsb]. intro F.
  apply orb_false_elim in F. destruct F as (F1 & F2).
  destruct r as [|y t]; [reflexivity|].
  change (removelast (x :: y :: t)) with (x :: removelast (y :: t)).
  cbn [existsb]. now rewrite F1, (IH F2).
Qed.

(** X15.  On a text without a backslash [unbackslash_gcode] only removes
    the pair of double quotes around it, if there is one. *)
Theorem unbackslash_plain_text (s : string) :
  free_of "\" s ->
  unbackslash_gcode s
  = if Py.startswith_char (ascii_of_N 34) s && Py.endswith_char (ascii_of_N 34) s
    then Py.str (removelast (tl (Py.chars s)))
    else s.
Proof.
  unfold free_of, Py.contains_char, unbackslash_gcode. intro F. cbv zeta.
  destruct (Py.startswith_char _ s && Py.endswith_char _ s).
  - assert (G : existsb (Ascii.eqb "\") (removelast (tl (Py.chars s))) = false).
    { apply existsb_removelast. destruct (Py.chars s) as [|c r]; [reflexivity|].
      cbn [existsb] in F. apply orb_false_elim in F. now destruct F. }
    now rewrite (replace2_plain "\" "n" _ _ G), (replace2_plain "\" "t" _ _ G),
      (replace2_plain "\" "\" _ _ G).
  - rewrite (replace2_plain "\" "n" _ _ F), (replace2_plain "\" "t" _ _ F),
      (replace2_plain "\" "\" _ _ F).
    apply str_chars.
Qed.

(** X15 at a line of G-code with and without quotes. *)
Lemma unbackslash_plain_text_at_home :
  unbackslash_gcode "G28 ; home" = "G28 ; home"
  /\ unbackslash_gcode (String (ascii_of_N 34) ("G28" ++ String (ascii_of_N 34) ""))
     = "G28".
Proof.
  split.
  - rewrite (unbackslash_plain_text "G28 ; home"); vm_compute; reflexivity.
  - rewrite (unbackslash_plain_text
               (String (ascii_of_N 34) ("G28" ++ String (ascii_of_N 34) "")));
      vm_compute; reflexivity.
Defined.

(** ** The merge, as a whole *)

Section MergeFacts.
Context {K V : Type} `{KeyLaws K}.

Lemma set_fresh (k : K) (v : V) (d : Dict.t K V) :
  Dict.mem k d = false -> Dict.set k v d = d ++ [(k, v)].
Proof.
  unfold Dict.mem. induction d as [|[k' v'] r IH]; [reflexivity|].
  cbn [Dict.get Dict.set app]. destruct (keqb k k'); [discriminate|].
  intro M. now rewrite (IH M).
Qed.

Lemma in_get (k : K) (v : V) (d : Dict.t K V) :
  In (k, v) d -> Dict.mem k d = true.
Proof.
  unfold Dict.mem. induction d as [|[k' v'] r IH]; [intros []|].
  cbn [In Dict.get]. destruct (keqb k k') eqn:E; [reflexivity|].
  intros [[= -> ->]|I]; [now rewrite keqb_refl in E | now apply IH].
Qed.

Lemma merge_loop_extends (data existing : Dict.t K V) :
  exists added,
    merge_existing existing data = existing ++ added
    /\ Forall (fun kv => Dict.mem (fst kv) existing = false /\ In kv data) added.
Proof.
  unfold merge_existing. revert existing.
  induction data as [|[k v] r IH]; intro existing.
  - exists []. now rewrite app_nil_r.
  - cbn [fold_left fst snd]. destruct (Dict.mem k existing) eqn:M.
    + destruct (IH existing) as (added & -> & F). exists added. split; [reflexivity|].
      eapply Forall_impl; [|exact F]. intros kv (A & B). split; [exact A | now right].
    + rewrite (set_fresh k v existing M).
      destruct (IH (existing ++ [(k, v)])) as (added & -> & F).
      exists ((k, v) :: added). rewrite <- app_assoc. split; [reflexivity|].
      constructor; [split; [exact M | now left]|].
      eapply Forall_impl; [|exact F]. intros kv (A & B). split; [|now right].
      unfold Dict.mem in *. destruct (Dict.get (fst kv) existing) as [w|] eqn:G;
        [|reflexivity].
      assert (X : Dict.get (fst kv) (existing ++ [(k, v)]) = Some w).
      { clear - G. induction existing as [|[k0 v0] e IH]; [discriminate G|].
        cbn [app Dict.get] in *. destruct (keqb (fst kv) k0); [exact G | now apply IH]. }
      now rewrite X in A.
Qed.

Lemma merge_loop_settled (data existing : Dict.t K V) :
  (forall kv, In kv data -> Dict.mem (fst kv) existing = true) ->
  merge_existing existing data = existing.
Proof.
  unfold merge_existing. induction data as [|[k v] r IH]; intro A; [reflexivity|].
  cbn [fold_left fst snd]. pose proof (A (k, v) (or_introl eq_refl)) as Q.
  cbn [fst] in Q. rewrite Q. apply IH. intros kv I. apply A. now right.
Qed.

Lemma merge_loop_idem (data existing : Dict.t K V) :
  merge_existing (merge_existing existing data) data = merge_existing existing data.
Proof.
  apply merge_loop_settled. intros [k v] I. cbn [fst].
  unfold Dict.mem. rewrite merge_existing_get.
  destruct (Dict.get k existing); [reflexivity|].
  apply in_get in I. exact I.
Qed.
End MergeFacts.

(** X16.  The merge of [main] keeps the existing document as it is and in
    its order, and adds behind it entries of the new record whose keys the
    existing document does not have; merging the same record once more
    changes nothing. *)
Theorem merge_extends_and_settles (existing data : record) :
  (exists added,
      merge_existing existing data = existing ++ added
      /\ Forall (fun kv => Dict.mem (fst kv) existing = false /\ In kv data) added)
  /\ merge_existing (merge_existing existing data) data
     = merge_existing existing data.
Proof. split; [apply merge_loop_extends | apply merge_loop_idem]. Qed.

(** ** The files of a batch *)

Lemma write_json_other path d f p :
  p <> path -> Dict.get p (snd (write_json path d f)) = Dict.get p f.
Proof.
  intro N. unfold write_json. destruct (_ && _); cbn [snd];
    apply get_set_other; congruence.
Qed.

Lemma write_json_same path d f : Dict.mem path (snd (write_json path d f)) = true.
Proof.
  unfold write_json, Dict.mem. destruct (_ && _); cbn [snd];
    now rewrite get_set_same.
Qed.

Lemma write_json_keeps path d f p :
  Dict.mem p f = true -> Dict.mem p (snd (write_json path d f)) = true.
Proof.
  intro M. destruct (String.eqb_spec p path) as [->|N]; [apply write_json_same|].
  unfold Dict.mem. now rewrite write_json_other.
Qed.

(** The outcomes of one turn of the loop: nothing written, a write that
    failed, or a write with its report. *)
Lemma process_file_cases o b f :
  (fs (process_file o b f) = fs b /\ results (process_file o b f) = results b)
  \/ exists path d st,
       fs (process_file o b f) = snd (write_json path d (fs b))
       /\ (Dict.mem path (fs b) = true -> opt_on_existing o <> "skip")
       /\ (st = "converted" \/ (st = "merged" /\ opt_on_existing o = "merge"))
       /\ (results (process_file o b f) = results b
           \/ exists kind name,
                path = output_file_of o kind name
                /\ results (process_file o b f)
                   = results b ++ [{| e_input := stem f; e_output := path;
                                      e_type := kind; e_name := name;
                                      e_status := st |}]).
Proof.
  unfold process_file.
  destruct (nozzle_for o f (conv b)) as [nz c0].
  destruct (convert_profile (stem f) (content f) nz c0) as [r c].
  destruct r as [data kind name|s|]; [|now left|now left].
  cbv zeta.
  assert (W : forall d st,
             (Dict.mem (output_file_of o kind name) (fs b) = true ->
              opt_on_existing o <> "skip") ->
             (st = "converted" \/ (st = "merged" /\ opt_on_existing o = "merge")) ->
             let b' :=
               match write_json (output_file_of o kind name) d (fs b) with
               | (Ok _, fs') =>
                   {| conv := reset_for_next o c; fs := fs';
                      results := results b ++
                        [{| e_input := stem f;
                            e_output := output_file_of o kind name;
                            e_type := kind; e_name := name; e_status := st |}] |}
               | (Raise, fs') => {| conv := c; fs := fs'; results := results b |}
               end in
             (fs b' = fs b /\ results b' = results b)
             \/ exists path d st,
                  fs b' = snd (write_json path d (fs b))
                  /\ (Dict.mem path (fs b) = true -> opt_on_existing o <> "skip")
                  /\ (st = "converted" \/ (st = "merged" /\ opt_on_existing o = "merge"))
                  /\ (results b' = results b
                      \/ exists kind name,
                           path = output_file_of o kind name
                           /\ results b'
                              = results b ++ [{| e_input := stem f; e_output := path;
                                                 e_type := kind; e_name := name;
                                                 e_status := st |}])).
  { intros d st S T. cbv zeta. right. exists (output_file_of o kind name), d, st.
    destruct (write_json (output_file_of o kind name) d (fs b)) as [[[]|] fs'];
      cbn [fs results snd]; (split; [reflexivity|]); (split; [exact S|]);
      (split; [exact T|]).
    - right. now exists kind, name.
    - now left. }
  unfold Dict.mem in W.
  destruct (Dict.get (output_file_of o kind name) (fs b)) as [[e|]|].
  - destruct (String.eqb_spec (opt_on_existing o) "skip") as [S|S]; [now left|].
    destruct (String.eqb_spec (opt_on_existing o) "merge") as [M|M].
    + apply W; [intros _; exact S | right; now split].
    + apply W; [intros _; exact S | now left].
  - destruct (String.eqb_spec (opt_on_existing o) "skip") as [S|S]; [now left|].
    destruct (String.eqb_spec (opt_on_existing o) "merge") as [M|M]; [now left|].
    apply W; [intros _; exact S | now left].
  - apply W; [discriminate | now left].
Qed.

Lemma process_file_keeps o b f p :
  Dict.mem p (fs b) = true -> Dict.mem p (fs (process_file o b f)) = true.
Proof.
  intro M. destruct (process_file_cases o b f) as [(-> & _)|(path & d & st & -> & _)];
    [exact M | now apply write_json_keeps].
Qed.

Lemma process_file_skip o b f p x :
  opt_on_existing o = "skip" ->
  Dict.get p (fs b) = Some x -> Dict.get p (fs (process_file o b f)) = Some x.
Proof.
  intros S G.
  destruct (process_file_cases o b f) as [(-> & _)|(path & d & st & -> & N & _)];
    [exact G|].
  rewrite write_json_other; [exact G|]. intros ->.
  apply N; [|exact S]. unfold Dict.mem. now rewrite G.
Qed.

(** X17.  Under the policy [skip] a file that is there stays as it is
    through the rest of the batch, whatever the input files: the files that
    existed before the run and the files that the run has written so far,
    so a second profile of the same kind and name does not replace the
    first. *)
Theorem skip_never_touches_a_file (o : options) (inputs : list input_file)
  (b : batch) (p : string) (x : file) :
  opt_on_existing o = "skip" ->
  Dict.get p (fs b) = Some x ->
  Dict.get p (fs (fold_left (process_file o) inputs b)) = Some x.
Proof.
  intro S. revert b. induction inputs as [|f r IH]; intros b G; [exact G|].
  cbn [fold_left]. apply IH. now apply process_file_skip.
Qed.

(** X17 at two profiles named [hot]: the file of the first stays. *)
Lemma skip_never_touches_a_file_at_hot_twice :
  let o := batch_options "skip" in
  written "out/user/default/filament/hot.json" "nozzle_temperature"
    (fold_left (process_file o) [filament_file "hot" "200"]
       (main_loop o [filament_file "hot" "260"] []))
  = Some (Str "260").
Proof.
  cbv zeta.
  set (b1 := main_loop (batch_options "skip") [filament_file "hot" "260"] []).
  assert (G : exists d, Dict.get "out/user/default/filament/hot.json" (fs b1)
                        = Some (Json d)
                        /\ Dict.get (KStr "nozzle_temperature") d = Some (Str "260")).
  { vm_compute. eexists. split; reflexivity. }
  destruct G as (d & G & T). unfold written.
  now rewrite (skip_never_touches_a_file (batch_options "skip")
                 [filament_file "hot" "200"] b1 _ _ eq_refl G).
Defined.

(** ** The report of a batch *)

Lemma reported_keeps o f f' e :
  (forall p, Dict.mem p f = true -> Dict.mem p f' = true) ->
  reported o f e -> reported o f' e.
Proof. intros K (A & B & C). split; [now apply K | now split]. Qed.

Lemma process_file_reported o b f n :
  (List.length (results b) <= n)%nat ->
  Forall (reported o (fs b)) (results b) ->
  (List.length (results (process_file o b f)) <= S n)%nat
  /\ Forall (reported o (fs (process_file o b f))) (results (process_file o b f)).
Proof.
  intros L F.
  assert (K : Forall (reported o (fs (process_file o b f))) (results b)).
  { eapply Forall_impl; [|exact F]. intro e. apply reported_keeps.
    intro p. apply process_file_keeps. }
  destruct (process_file_cases o b f)
    as [(_ & R)|(path & d & st & E & _ & T & [R|(kind & name & P & R)])];
    rewrite R.
  - split; [lia | exact K].
  - split; [lia | exact K].
  - split; [rewrite length_app; cbn [List.length]; lia|].
    apply Forall_app. split; [exact K|]. constructor; [|constructor].
    unfold reported. cbn [e_output e_type e_name e_status].
    split; [rewrite E; apply write_json_same|]. now split.
Qed.

(** X18.  A batch reports at most one profile for each input file; every
    profile it reports has the status [converted], or [merged] under the
    policy [merge], its output file is the one of its kind and name under
    the output directory, and that file is there when the batch ends. *)
Theorem batch_report (o : options) (inputs : list input_file) (f : files) :
  (List.length (results (main_loop o inputs f)) <= List.length inputs)%nat
  /\ Forall (reported o (fs (main_loop o inputs f))) (results (main_loop o inputs f)).
Proof.
  unfold main_loop.
  set (b0 := {| conv := _; fs := f; results := [] |}).
  assert (G : forall inputs b n,
             (List.length (results b) <= n)%nat ->
             Forall (reported o (fs b)) (results b) ->
             (List.length (results (fold_left (process_file o) inputs b))
              <= n + List.length inputs)%nat
             /\ Forall (reported o (fs (fold_left (process_file o) inputs b)))
                       (results (fold_left (process_file o) inputs b))).
  { clear. induction inputs as [|x r IH]; intros b n L F.
    - cbn [fold_left List.length]. split; [lia | exact F].
    - cbn [fold_left List.length].
      destruct (process_file_reported o b x n L F) as (L1 & F1).
      destruct (IH _ _ L1 F1) as (L2 & F2). split; [lia | exact F2]. }
  apply (G inputs b0 0%nat); [reflexivity | constructor].
Qed.
